(** * Token scoring and paper-trading portfolio: a shallow embedding

    The development follows the Python sources
    [portfolio_tracker.py], [multi_timeframe_analyzer.py],
    [token_similarity.py] and [ai_trading_agent.py].

    Numbers.  Python [float] values are embedded as exact rationals [Q]:
    every arithmetic operation is the exact one, comparisons are the
    rational ones, and equality of computed amounts is [Qeq] ([==]).
    Rounding, infinities and NaN are outside the model.  Python [int]
    counters are [Z].  Time stamps are a number of seconds.

    Exceptions.  A function that can raise returns an [option] or an
    [Outcome], with [None] or [Raised] for the exception.  A division
    of Python floats raises [ZeroDivisionError] on a zero divisor and
    is written [py_div]; a division by a constant, a guarded division
    and a division of numpy scalars, which does not raise, are written
    with the total [/] of [Q].

    Dictionaries keyed by token address are [gmap string _]; sums over
    [dict.values()] are sums over [map_to_list].  In exact arithmetic the
    iteration order of the dictionary does not change any sum. *)

From Stdlib Require Import QArith Qabs Lqa ZArith Lia Sorted Permutation.
From stdpp Require Import gmap strings list fin_maps.

(** ** Python numeric helpers *)

Module PyNum.
Local Open Scope Q_scope.

(** [a < b] as a boolean. *)
Definition Qltb (a b : Q) : bool := negb (Qle_bool b a).

(** [a <= b] as a boolean. *)
Definition Qleb (a b : Q) : bool := Qle_bool a b.

(** Python's [max(a, b)]: the first argument is kept unless the second is
    strictly larger. *)
Definition py_max (a b : Q) : Q := if Qltb a b then b else a.

(** Python's [min(a, b)]: the first argument is kept unless the second is
    strictly smaller. *)
Definition py_min (a b : Q) : Q := if Qltb b a then b else a.

(** Python's [min] on integers. *)
Definition py_minZ (a b : Z) : Z := if (b <? a)%Z then b else a.

(** [sum(xs)] starting from 0. *)
Definition Qsum (xs : list Q) : Q := foldr Qplus 0 xs.

(** [np.mean(xs)] for a non-empty [xs]: the sum divided by the length.
    Every call site below guards against the empty list. *)
Definition np_mean (xs : list Q) : Q :=
  Qsum xs / inject_Z (Z.of_nat (length xs)).

(** What a call produces: a returned value, or an exception that leaves
    the function (a [ZeroDivisionError] or a [KeyError]). *)
Inductive Outcome (A : Type) : Type :=
| Returned (a : A)
| Raised.
Arguments Returned {A} a.
Arguments Raised {A}.

(** Python's [a / b] on floats: a zero divisor raises
    [ZeroDivisionError], rendered as [None]. *)
Definition py_div (a b : Q) : option Q :=
  if Qeq_bool b 0 then None else Some (a / b).

End PyNum.

(** ** portfolio_tracker.py *)

Module PortfolioTracker.
Import PyNum.
Local Open Scope Q_scope.

Record Position : Type := mkPosition {
  token_symbol : string;
  token_address : string;
  entry_price : Q;
  current_price : Q;
  quantity : Q;
  entry_time : Q;
  position_value_usd : Q;
  pnl_usd : Q;
  pnl_percent : Q
}.

(** The dataclass constructor, with the three defaulted fields at 0. *)
Definition new_position (sym addr : string) (entry cur qty t : Q) : Position :=
  mkPosition sym addr entry cur qty t 0 0 0.

(** [Position.update_price] *)
Definition update_price (p : Position) (new_price : Q) : Position :=
  let value := quantity p * new_price in
  let cost_basis := quantity p * entry_price p in
  let pnl := value - cost_basis in
  {| token_symbol := token_symbol p;
     token_address := token_address p;
     entry_price := entry_price p;
     current_price := new_price;
     quantity := quantity p;
     entry_time := entry_time p;
     position_value_usd := value;
     pnl_usd := pnl;
     pnl_percent := if Qltb 0 cost_basis then (pnl / cost_basis) * 100 else 0 |}.

Inductive Action : Type := Buy | Sell.

Record Trade : Type := mkTrade {
  timestamp : Q;
  action : Action;
  trade_symbol : string;
  trade_address : string;
  price : Q;
  trade_quantity : Q;
  value_usd : Q;
  reason : string
}.

Record Portfolio : Type := mkPortfolio {
  starting_balance : Q;
  current_balance : Q;
  positions : gmap string Position;
  trade_history : list Trade;
  total_realized_pnl : Q;
  total_unrealized_pnl : Q;
  win_count : Z;
  loss_count : Z
}.

(** [Portfolio(starting_balance=b, current_balance=b)], as built by
    [PortfolioManager.__init__]. *)
Definition fresh (b : Q) : Portfolio :=
  mkPortfolio b b ∅ [] 0 0 0%Z 0%Z.

(** [Portfolio.add_position]: no test on the address, the assignment
    [self.positions[addr] = position] replaces whatever was there. *)
Definition add_position (pf : Portfolio) (pos : Position) : Portfolio :=
  let trade :=
    {| timestamp := entry_time pos;
       action := Buy;
       trade_symbol := token_symbol pos;
       trade_address := token_address pos;
       price := entry_price pos;
       trade_quantity := quantity pos;
       value_usd := quantity pos * entry_price pos;
       reason := "Initial position" |} in
  {| starting_balance := starting_balance pf;
     current_balance := current_balance pf - quantity pos * entry_price pos;
     positions := <[token_address pos := pos]> (positions pf);
     trade_history := trade_history pf ++ [trade];
     total_realized_pnl := total_realized_pnl pf;
     total_unrealized_pnl := total_unrealized_pnl pf;
     win_count := win_count pf;
     loss_count := loss_count pf |}.

(** [Portfolio.close_position]; [now] is [datetime.utcnow()].  The result
    pairs the returned boolean with the portfolio after the call. *)
Definition close_position (pf : Portfolio) (addr : string) (sell_price : Q)
    (why : string) (now : Q) : bool * Portfolio :=
  match positions pf !! addr with
  | None => (false, pf)
  | Some position0 =>
    let position := update_price position0 sell_price in
    let won := Qltb 0 (pnl_usd position) in
    let trade :=
      {| timestamp := now;
         action := Sell;
         trade_symbol := token_symbol position;
         trade_address := token_address position;
         price := sell_price;
         trade_quantity := quantity position;
         value_usd := position_value_usd position;
         reason := why |} in
    (true,
     {| starting_balance := starting_balance pf;
        current_balance := current_balance pf + position_value_usd position;
        positions := delete addr (positions pf);
        trade_history := trade_history pf ++ [trade];
        total_realized_pnl := total_realized_pnl pf + pnl_usd position;
        total_unrealized_pnl := total_unrealized_pnl pf;
        win_count := if won then (win_count pf + 1)%Z else win_count pf;
        loss_count := if won then loss_count pf else (loss_count pf + 1)%Z |})
  end.

(** One iteration of the loop of [update_all_prices]: the loop state is the
    positions dictionary (whose entry is mutated in place) and the running
    total. *)
Definition update_step (price_updates : gmap string Q)
    (address : string) (position : Position)
    (st : gmap string Position * Q) : gmap string Position * Q :=
  match price_updates !! address with
  | Some new_price =>
    let position' := update_price position new_price in
    (<[address := position']> (fst st), snd st + pnl_usd position')
  | None => st
  end.

(** [Portfolio.update_all_prices] *)
Definition update_all_prices (pf : Portfolio) (price_updates : gmap string Q)
    : Portfolio :=
  let st := map_fold (update_step price_updates) (positions pf, 0) (positions pf) in
  {| starting_balance := starting_balance pf;
     current_balance := current_balance pf;
     positions := fst st;
     trade_history := trade_history pf;
     total_realized_pnl := total_realized_pnl pf;
     total_unrealized_pnl := snd st;
     win_count := win_count pf;
     loss_count := loss_count pf |}.

(** [dict.values()] *)
Definition values {A} (m : gmap string A) : list A := (map_to_list m).*2.

(** [Portfolio.get_total_value] *)
Definition get_total_value (pf : Portfolio) : Q :=
  current_balance pf + Qsum (position_value_usd <$> values (positions pf)).

(** [Portfolio.get_total_pnl] *)
Definition get_total_pnl (pf : Portfolio) : Q :=
  total_realized_pnl pf + total_unrealized_pnl pf.

(** The operations of the position life cycle, and their sequential
    execution from a given state. *)
Inductive Op : Type :=
| OpAdd (pos : Position)
| OpUpdate (price_updates : gmap string Q)
| OpClose (addr : string) (sell_price : Q) (why : string) (now : Q).

Definition step (pf : Portfolio) (op : Op) : Portfolio :=
  match op with
  | OpAdd pos => add_position pf pos
  | OpUpdate pu => update_all_prices pf pu
  | OpClose a s w n => snd (close_position pf a s w n)
  end.

Definition run (pf : Portfolio) (ops : list Op) : Portfolio :=
  foldl step pf ops.

End PortfolioTracker.

(** ** dexscreener_api.py *)

Module DexScreener.

Record TokenData : Type := mkTokenData {
  address : string;
  symbol : string;
  name : string;
  price_usd : Q;
  price_change_24h : Q;
  volume_24h : Q;
  liquidity_usd : Q;
  market_cap : Q;
  fdv : Q;
  chain : string;
  pair_address : string;
  created_at : string
}.

End DexScreener.

(** ** multi_timeframe_analyzer.py *)

Module TimeframeAnalyzer.
Import PyNum DexScreener.
Local Open Scope Q_scope.

Inductive VolumeTrend : Type := Increasing | Stable | Decreasing.

Inductive Momentum : Type :=
| StrongBullish | Bullish | Neutral | Bearish | StrongBearish.

Inductive EntryTiming : Type := Immediate | WaitDip | WaitBreakout | Avoid.

Record TimeframeData : Type := mkTimeframeData {
  timeframe : string;
  price_change : Q;
  volume_avg : Q;
  volume_trend : VolumeTrend;
  price_momentum : Momentum;
  support_level : Q;
  resistance_level : Q;
  volatility : Q
}.

Record MultiTimeframeAnalysis : Type := mkAnalysis {
  token : TokenData;
  timeframes : gmap string TimeframeData;
  overall_trend : Momentum;
  overall_score : Q;
  entry_timing : EntryTiming;
  risk_reward_ratio : Q;
  confidence_level : Q;
  analysis_timestamp : Q
}.

(** [calculate_price_momentum] *)
Definition calculate_price_momentum (change : Q) : Momentum :=
  if Qltb 50 change then StrongBullish
  else if Qltb 20 change then Bullish
  else if Qltb (-10) change then Neutral
  else if Qltb (-30) change then Bearish
  else StrongBearish.

(** The two slices [volumes[:len(volumes)//2]] and
    [volumes[len(volumes)//2:]]. *)
Definition first_half (volumes : list Q) : list Q :=
  take (length volumes / 2) volumes.

Definition second_half (volumes : list Q) : list Q :=
  drop (length volumes / 2) volumes.

(** [calculate_volume_trend] *)
Definition calculate_volume_trend (volumes : list Q) : VolumeTrend :=
  if (length volumes <? 2)%nat then Stable
  else
    let avg_first_half := np_mean (first_half volumes) in
    let avg_second_half := np_mean (second_half volumes) in
    let ratio := avg_second_half / (avg_first_half + 1) in
    if Qltb 1.3 ratio then Increasing
    else if Qltb ratio 0.7 then Decreasing
    else Stable.

(** [dict.values()] of the timeframe dictionary. *)
Definition tf_values (tfs : gmap string TimeframeData) : list TimeframeData :=
  (map_to_list tfs).*2.

(** The two list comprehensions of [calculate_risk_reward]. *)
Definition supports (tfs : gmap string TimeframeData) : list Q :=
  support_level <$> filter (λ tf, Qltb 0 (support_level tf) = true) (tf_values tfs).

Definition resistances (tfs : gmap string TimeframeData) : list Q :=
  resistance_level <$>
    filter (λ tf, Qltb 0 (resistance_level tf) = true) (tf_values tfs).

(** Truth value of a Python list: empty is false. *)
Definition is_empty {A} (l : list A) : bool :=
  match l with [] => true | _ => false end.

(** [calculate_risk_reward] *)
Definition calculate_risk_reward (tok : TokenData)
    (tfs : gmap string TimeframeData) : Q :=
  if is_empty (supports tfs) || is_empty (resistances tfs) then 1
  else
    let avg_support := np_mean (supports tfs) in
    let avg_resistance := np_mean (resistances tfs) in
    let potential_loss := Qabs (price_usd tok - avg_support) in
    let potential_gain := Qabs (avg_resistance - price_usd tok) in
    if Qeq_bool potential_loss 0 then 3
    else py_min (potential_gain / potential_loss) 3.

End TimeframeAnalyzer.

(** ** token_similarity.py *)

Module TokenSimilarity.
Import PyNum DexScreener.
Local Open Scope Q_scope.

Inductive McapTier : Type := Nano | Micro | Small | Mid | Large.
Inductive VolumeRating : Type := VVeryHigh | VHigh | VModerate | VLow | VVeryLow.
Inductive LiquidityHealth : Type := Excellent | Good | Fair | Poor | Critical.
Inductive PriceAction : Type :=
| Explosive | PStrongBullish | PBullish | MildBullish | PNeutral
| MildBearish | PBearish | PStrongBearish.
Inductive RiskLevel : Type := Extreme | High | Moderate | Low.

Record VolumeActivity : Type := mkVolumeActivity {
  va_ratio : Q; va_rating : VolumeRating; va_dollar_volume : Q }.

Record LiquidityReport : Type := mkLiquidityReport {
  lr_liquidity_usd : Q; lr_ratio : Q; lr_health : LiquidityHealth }.

Record PriceReport : Type := mkPriceReport {
  pr_change_24h : Q; pr_momentum : PriceAction }.

(** The dictionary returned by [analyze_token]. *)
Record Analysis : Type := mkTokenAnalysis {
  market_cap_tier : McapTier;
  volume_activity : VolumeActivity;
  liquidity_health : LiquidityReport;
  price_momentum : PriceReport;
  risk_level : RiskLevel;
  opportunity_score : Z
}.

Record SimilarityMetrics : Type := mkSimilarityMetrics {
  sm_token : TokenData;
  similarity_score : Q;
  matching_features : list (string * Q);
  analysis : Analysis
}.

(** An entry of [reference_tokens]; the volatility label and the age range
    are stored but never read by the filters. *)
Record Profile : Type := mkProfile {
  market_cap_range : Q * Q;
  volume_to_mcap_ratio : Q * Q;
  price_volatility : string;
  liquidity_threshold : Q;
  age_hours : Q * Q
}.

Definition dust_profile : Profile :=
  mkProfile (1_000_000, 50_000_000) (0.5, 3.0) "high" 100_000 (1, 168).

Definition priceless_profile : Profile :=
  mkProfile (500_000, 20_000_000) (1.0, 5.0) "very_high" 50_000 (0.5, 72).

Definition _get_mcap_tier (mc : Q) : McapTier :=
  if Qltb mc 100_000 then Nano
  else if Qltb mc 1_000_000 then Micro
  else if Qltb mc 10_000_000 then Small
  else if Qltb mc 100_000_000 then Mid
  else Large.

(** [token.volume_24h / (token.market_cap + 1)], a division of Python
    floats: it raises at a market cap of -1. *)
Definition volume_to_mcap_of (t : TokenData) : option Q :=
  py_div (volume_24h t) (market_cap t + 1).

(** [_analyze_volume]; [None] is the [ZeroDivisionError] of the ratio. *)
Definition _analyze_volume (t : TokenData) : option VolumeActivity :=
  match volume_to_mcap_of t with
  | None => None
  | Some volume_to_mcap =>
    Some {| va_ratio := volume_to_mcap;
            va_rating :=
              if Qltb 2 volume_to_mcap then VVeryHigh
              else if Qltb 1 volume_to_mcap then VHigh
              else if Qltb 0.5 volume_to_mcap then VModerate
              else if Qltb 0.1 volume_to_mcap then VLow
              else VVeryLow;
            va_dollar_volume := volume_24h t |}
  end.

(** [_analyze_liquidity]; [None] is the [ZeroDivisionError] of the ratio. *)
Definition _analyze_liquidity (t : TokenData) : option LiquidityReport :=
  match py_div (liquidity_usd t) (market_cap t + 1) with
  | None => None
  | Some liq_to_mcap =>
    Some {| lr_liquidity_usd := liquidity_usd t;
            lr_ratio := liq_to_mcap;
            lr_health :=
              if Qltb 0.5 liq_to_mcap then Excellent
              else if Qltb 0.2 liq_to_mcap then Good
              else if Qltb 0.1 liq_to_mcap then Fair
              else if Qltb 0.05 liq_to_mcap then Poor
              else Critical |}
  end.

Definition _analyze_price_action (t : TokenData) : PriceReport :=
  let change_24h := price_change_24h t in
  {| pr_change_24h := change_24h;
     pr_momentum :=
       if Qltb 100 change_24h then Explosive
       else if Qltb 50 change_24h then PStrongBullish
       else if Qltb 20 change_24h then PBullish
       else if Qltb 5 change_24h then MildBullish
       else if Qleb (Qabs change_24h) 5 then PNeutral
       else if Qltb (-20) change_24h then MildBearish
       else if Qltb (-50) change_24h then PBearish
       else PStrongBearish |}.

Section WithClock.

(** Age of the pair in hours: the result of parsing [created_at] and
    subtracting it from [datetime.utcnow()]; [None] when the [try] block
    raises. *)
Variable age_of : string → option Q.

Definition _calculate_risk (t : TokenData) : RiskLevel :=
  let r1 := if Qltb (liquidity_usd t) 50_000 then 2%Z
            else if Qltb (liquidity_usd t) 100_000 then 1%Z else 0%Z in
  let r2 := if Qltb 50 (Qabs (price_change_24h t)) then 1%Z else 0%Z in
  let r3 := match age_of (created_at t) with
            | Some age => if Qltb age 24 then 2%Z
                          else if Qltb age 72 then 1%Z else 0%Z
            | None => 1%Z
            end in
  let r4 := if Qltb (market_cap t) 1_000_000 then 1%Z else 0%Z in
  let risk_factors := (r1 + r2 + r3 + r4)%Z in
  if (4 <=? risk_factors)%Z then Extreme
  else if (3 <=? risk_factors)%Z then High
  else if (2 <=? risk_factors)%Z then Moderate
  else Low.

(** The four additive parts of [_calculate_opportunity]; the first one
    reads the volume ratio once it has been computed. *)
Definition volume_points (volume_ratio : Q) : Z :=
  if Qltb 2 volume_ratio then 30
  else if Qltb 1 volume_ratio then 20
  else if Qltb 0.5 volume_ratio then 10
  else 0.

Definition momentum_points (t : TokenData) : Z :=
  let pc := price_change_24h t in
  if Qleb 20 pc && Qleb pc 100 then 20
  else if Qleb 10 pc && Qltb pc 20 then 15
  else if Qleb 5 pc && Qltb pc 10 then 10
  else 0.

Definition liquidity_points (t : TokenData) : Z :=
  if Qltb 200_000 (liquidity_usd t) then 20
  else if Qltb 100_000 (liquidity_usd t) then 15
  else if Qltb 50_000 (liquidity_usd t) then 10
  else 0.

Definition mcap_points (t : TokenData) : Z :=
  let mc := market_cap t in
  if Qleb 1_000_000 mc && Qleb mc 10_000_000 then 30
  else if Qleb 500_000 mc && Qltb mc 1_000_000 then 20
  else if Qltb 10_000_000 mc && Qleb mc 50_000_000 then 15
  else 0.

(** [_calculate_opportunity]: the score starts at 0 and the four blocks add
    to it in turn; [None] is the [ZeroDivisionError] of the volume ratio,
    which is computed first. *)
Definition _calculate_opportunity (t : TokenData) : option Z :=
  let score := 0%Z in
  match volume_to_mcap_of t with
  | None => None
  | Some volume_ratio =>
    let score := (score + volume_points volume_ratio)%Z in
    let score := (score + momentum_points t)%Z in
    let score := (score + liquidity_points t)%Z in
    let score := (score + mcap_points t)%Z in
    Some (py_minZ score 100)
  end.

(** [analyze_token]: the entries of the dictionary are computed in the
    order of the source; an exception of one of them leaves the call. *)
Definition analyze_token (t : TokenData) : option Analysis :=
  let tier := _get_mcap_tier (market_cap t) in
  match _analyze_volume t with
  | None => None
  | Some va =>
    match _analyze_liquidity t with
    | None => None
    | Some lh =>
      let pm := _analyze_price_action t in
      let risk := _calculate_risk t in
      match _calculate_opportunity t with
      | None => None
      | Some score =>
        Some {| market_cap_tier := tier;
                volume_activity := va;
                liquidity_health := lh;
                price_momentum := pm;
                risk_level := risk;
                opportunity_score := score |}
      end
    end
  end.

(** The three gates of the filter loop; a failed gate is a [continue].
    The volume ratio is computed after the market-cap test; [None] is
    its [ZeroDivisionError]. *)
Definition passes_gates (profile : Profile) (t : TokenData) : option bool :=
  if negb (Qleb (fst (market_cap_range profile)) (market_cap t)
           && Qleb (market_cap t) (snd (market_cap_range profile)))
  then Some false
  else
    match volume_to_mcap_of t with
    | None => None
    | Some volume_ratio =>
      if negb (Qleb (fst (volume_to_mcap_ratio profile)) volume_ratio
               && Qleb volume_ratio (snd (volume_to_mcap_ratio profile)))
      then Some false
      else if Qltb (liquidity_usd t) (liquidity_threshold profile)
      then Some false
      else Some true
    end.

(** The record appended for a token that passed the gates. *)
Definition profile_metrics (t : TokenData) : option SimilarityMetrics :=
  match analyze_token t with
  | None => None
  | Some a =>
    Some {| sm_token := t;
            similarity_score := inject_Z (opportunity_score a) / 100;
            matching_features :=
              [("market_cap_match"%string, 1); ("volume_ratio_match"%string, 1);
               ("liquidity_match"%string, 1)];
            analysis := a |}
  end.

(** The loop that builds [filtered]; an exception inside the loop leaves
    the whole function. *)
Fixpoint collect (profile : Profile) (candidates : list TokenData)
    : option (list SimilarityMetrics) :=
  match candidates with
  | [] => Some []
  | t :: rest =>
    match passes_gates profile t with
    | None => None
    | Some false => collect profile rest
    | Some true =>
      match profile_metrics t with
      | None => None
      | Some m =>
        match collect profile rest with
        | None => None
        | Some filtered => Some (m :: filtered)
        end
      end
    end
  end.

(** [list.sort(key=lambda x: x.similarity_score, reverse=True)]: a stable
    sort into descending key order, here by insertion. *)
Fixpoint insert_desc (x : SimilarityMetrics) (l : list SimilarityMetrics)
    : list SimilarityMetrics :=
  match l with
  | [] => [x]
  | y :: l' =>
    if Qltb (similarity_score x) (similarity_score y)
    then y :: insert_desc x l'
    else x :: y :: l'
  end.

Definition sort_desc (l : list SimilarityMetrics) : list SimilarityMetrics :=
  foldr insert_desc [] l.

(** [find_dust_like_tokens] and [find_priceless_like_tokens] *)
Definition find_dust_like_tokens (candidates : list TokenData)
    : option (list SimilarityMetrics) :=
  sort_desc <$> collect dust_profile candidates.

Definition find_priceless_like_tokens (candidates : list TokenData)
    : option (list SimilarityMetrics) :=
  sort_desc <$> collect priceless_profile candidates.

End WithClock.

End TokenSimilarity.

(** ** multi_timeframe_analyzer.py, continued: aggregation *)

Module TimeframeAggregation.
Import PyNum DexScreener TimeframeAnalyzer.
Local Open Scope Q_scope.

Definition timeframe_weights : gmap string Q :=
  {[ "1h"%string := 0.15; "4h"%string := 0.25; "12h"%string := 0.25;
     "24h"%string := 0.20; "3d"%string := 0.15 ]}.

Definition momentum_scores (m : Momentum) : Z :=
  match m with
  | StrongBullish => 2
  | Bullish => 1
  | Neutral => 0
  | Bearish => -1
  | StrongBearish => -2
  end.

(** One iteration of the loop of [calculate_overall_trend]; [None] is
    the [KeyError] of [self.timeframe_weights[tf]]. *)
Definition trend_step (tf : string) (data : TimeframeData) (acc : option Q)
    : option Q :=
  match acc with
  | None => None
  | Some weighted_score =>
    match timeframe_weights !! tf with
    | None => None
    | Some weight =>
      Some (weighted_score
            + inject_Z (momentum_scores (price_momentum data)) * weight)
    end
  end.

Definition classify_trend (weighted_score : Q) : Momentum :=
  if Qltb 1.5 weighted_score then StrongBullish
  else if Qltb 0.5 weighted_score then Bullish
  else if Qltb (-0.5) weighted_score then Neutral
  else if Qltb (-1.5) weighted_score then Bearish
  else StrongBearish.

(** [calculate_overall_trend] *)
Definition calculate_overall_trend (tfs : gmap string TimeframeData)
    : option Momentum :=
  classify_trend <$> map_fold trend_step (Some 0) tfs.

Definition is_bullish (m : Momentum) : bool :=
  match m with Bullish | StrongBullish => true | _ => false end.

(** [calculate_entry_timing] *)
Definition calculate_entry_timing (tok : TokenData)
    (tfs : gmap string TimeframeData) (overall_trend : Momentum) : EntryTiming :=
  match tfs !! "1h"%string, tfs !! "4h"%string with
  | Some short_term, Some _ =>
    if is_bullish overall_trend then
      if Qltb 30 (price_change short_term) && Qltb 10 (volatility short_term)
      then WaitDip
      else if Qltb (price_usd tok) (support_level short_term * 1.1)
      then Immediate
      else if Qltb (resistance_level short_term * 0.95) (price_usd tok)
      then WaitBreakout
      else Immediate
    else Avoid
  | _, _ => WaitDip
  end.

(** Python's [max] on integers. *)
Definition py_maxZ (a b : Z) : Z := if (a <? b)%Z then b else a.

Definition is_increasing (v : VolumeTrend) : bool :=
  match v with Increasing => true | _ => false end.

(** [calculate_confidence_level].  All increments are integers, so the
    result is one.  On an empty dictionary [np.mean] yields NaN and both
    volatility tests fail; the mean 0 of the model fails them as well. *)
Definition calculate_confidence_level (tfs : gmap string TimeframeData)
    (overall_trend : Momentum) (risk_reward : Q) : Z :=
  let confidence := 50%Z in
  let trend_alignment :=
    Z.of_nat (length (filter (λ tf, is_bullish (price_momentum tf) = true)
                             (tf_values tfs))) in
  let confidence := (confidence + trend_alignment * 5)%Z in
  let volume_increasing :=
    Z.of_nat (length (filter (λ tf, is_increasing (volume_trend tf) = true)
                             (tf_values tfs))) in
  let confidence := (confidence + volume_increasing * 5)%Z in
  let confidence :=
    if Qltb 2 risk_reward then (confidence + 15)%Z
    else if Qltb 1.5 risk_reward then (confidence + 10)%Z
    else if Qltb 1 risk_reward then (confidence + 5)%Z
    else confidence in
  let avg_volatility := np_mean (volatility <$> tf_values tfs) in
  let confidence :=
    if Qltb 20 avg_volatility then (confidence - 10)%Z
    else if Qltb 15 avg_volatility then (confidence - 5)%Z
    else confidence in
  py_minZ (py_maxZ confidence 0) 100.

(** The three integer parts of [calculate_overall_score]. *)
Definition trend_points (overall_trend : Momentum) : Z :=
  match overall_trend with
  | StrongBullish => 30
  | Bullish => 20
  | Neutral => 10
  | _ => 0
  end.

Definition volume_score (volume_ratio : Q) : Z :=
  if Qltb 2 volume_ratio then 20
  else if Qltb 1 volume_ratio then 15
  else if Qltb 0.5 volume_ratio then 10
  else if Qltb 0.2 volume_ratio then 5
  else 0.

Definition market_cap_score (tok : TokenData) : Z :=
  let mc := market_cap tok in
  if Qleb 1_000_000 mc && Qleb mc 10_000_000 then 20
  else if Qleb 500_000 mc && Qleb mc 20_000_000 then 15
  else if Qleb 100_000 mc && Qleb mc 50_000_000 then 10
  else 0.

(** [calculate_overall_score]; [None] is the [ZeroDivisionError] of
    [token.volume_24h / (token.market_cap + 1)], a division of Python
    floats that raises at a market cap of -1. *)
Definition calculate_overall_score (tok : TokenData)
    (tfs : gmap string TimeframeData) (overall_trend : Momentum)
    (risk_reward confidence : Q) : option Q :=
  let score := 0%Z in
  let score := (score + trend_points overall_trend)%Z in
  match py_div (volume_24h tok) (market_cap tok + 1) with
  | None => None
  | Some volume_ratio =>
    let score := (score + volume_score volume_ratio)%Z in
    let score := (score + market_cap_score tok)%Z in
    let score := inject_Z score + py_min (risk_reward * 5) 15 in
    let score := score + confidence * 0.15 in
    Some (py_min score 100)
  end.

Definition timeframe_labels : list string :=
  ["1h"; "4h"; "12h"; "24h"; "3d"]%string.

(** The loop of [analyze_token] that fills the dictionary, one entry per
    label; [analyze tf] is what [analyze_timeframe] returned for the
    label [tf]. *)
Definition build_timeframes (analyze : string → TimeframeData)
    : gmap string TimeframeData :=
  foldl (λ timeframes tf, <[tf := analyze tf]> timeframes) ∅ timeframe_labels.

(** [analyze_token] from the filled dictionary on: the aggregated
    metrics in the order the source computes them.  [None] stands for an
    exception of [calculate_overall_trend] or of
    [calculate_overall_score]; [now] is [datetime.utcnow()]. *)
Definition aggregate_metrics (tok : TokenData)
    (timeframes : gmap string TimeframeData) (now : Q)
    : option MultiTimeframeAnalysis :=
  match calculate_overall_trend timeframes with
  | None => None
  | Some overall_trend =>
    let entry_timing := calculate_entry_timing tok timeframes overall_trend in
    let risk_reward := calculate_risk_reward tok timeframes in
    let confidence :=
      calculate_confidence_level timeframes overall_trend risk_reward in
    match calculate_overall_score tok timeframes overall_trend risk_reward
            (inject_Z confidence) with
    | None => None
    | Some overall_score =>
      Some {| token := tok;
              timeframes := timeframes;
              overall_trend := overall_trend;
              overall_score := overall_score;
              entry_timing := entry_timing;
              risk_reward_ratio := risk_reward;
              confidence_level := inject_Z confidence;
              analysis_timestamp := now |}
    end
  end.

(** [analyze_token] from the per-timeframe results on, when each of the
    five calls of [analyze_timeframe] has returned. *)
Definition analyze_token (tok : TokenData) (analyze : string → TimeframeData)
    (now : Q) : option MultiTimeframeAnalysis :=
  aggregate_metrics tok (build_timeframes analyze) now.

(** *** The call without history: mock data and [analyze_timeframe] *)

(** What one call of the analyzer reads from outside: the values that
    [np.random.normal] and [np.random.uniform] return, by label and by
    index of the draw, and the clock at the end of the call.  Without a
    [size] argument both generators return Python floats. *)
Record AnalyzerRun : Type := mkRun {
  normal : string → nat → Q;
  uniform : string → nat → Q;
  utcnow : Q
}.

(** The pairs [(timeframe, points)] of the two generators. *)
Definition mock_points : list (string * nat) :=
  [("1h", 12); ("4h", 12); ("12h", 12); ("24h", 24); ("3d", 36)]%string%nat.

(** The inner loop of [_generate_mock_price_history]:
    [price *= (1 + change)] and [prices.append(price)] for each draw. *)
Fixpoint random_walk (price : Q) (changes : list Q) : list Q :=
  match changes with
  | [] => []
  | change :: rest =>
    let price := price * (1 + change) in
    price :: random_walk price rest
  end.

(** [prices[-1] = current_price]; the list is never empty here, each
    label having at least 12 points. *)
Definition set_last (prices : list Q) (current_price : Q) : list Q :=
  <[pred (length prices) := current_price]> prices.

(** [_generate_mock_price_history]; [None] is the [ZeroDivisionError] of
    the start price. *)
Definition _generate_mock_price_history (tok : TokenData)
    (draw : string → nat → Q) : option (gmap string (list Q)) :=
  let current_price := price_usd tok in
  let price_change := price_change_24h tok / 100 in
  foldl (λ acc entry,
           match acc with
           | None => None
           | Some history =>
             match py_div current_price (1 + price_change) with
             | None => None
             | Some price =>
               let prices :=
                 random_walk price (draw entry.1 <$> seq 0 entry.2) in
               Some (<[entry.1 := set_last prices current_price]> history)
             end
           end)
        (Some ∅) mock_points.

(** [_generate_mock_volume_history] *)
Definition _generate_mock_volume_history (tok : TokenData)
    (draw : string → nat → Q) : gmap string (list Q) :=
  let base_volume := volume_24h tok / 24 in
  foldl (λ history entry,
           <[entry.1 := (λ u, base_volume * u) <$> (draw entry.1 <$> seq 0 entry.2)]>
             history)
        ∅ mock_points.

(** The list comprehension of [calculate_volatility],
    [(prices[i] - prices[i-1]) / prices[i-1]] for [i] from 1 on.  The
    prices of the mock history are Python floats (the start price is a
    quotient of two floats, each step multiplies by one plus a float
    draw, and the last entry is the token's price), so a zero before
    the last one raises. *)
Fixpoint price_returns (prices : list Q) : option (list Q) :=
  match prices with
  | previous :: rest =>
    match rest with
    | [] => Some []
    | current :: _ =>
      match py_div (current - previous) previous with
      | None => None
      | Some r =>
        match price_returns rest with
        | None => None
        | Some returns => Some (r :: returns)
        end
      end
    end
  | [] => Some []
  end.

Section WithNumpy.

(** [np.percentile(prices, q)] and [np.std(returns)], as the floats
    they return. *)
Variable np_percentile : list Q → Q → Q.
Variable np_std : list Q → Q.

(** [calculate_support_resistance] *)
Definition calculate_support_resistance (prices : list Q) : Q * Q :=
  if is_empty prices then (0, 0)
  else
    let support := np_percentile prices 20 in
    let resistance := np_percentile prices 80 in
    (support, resistance).

(** [calculate_volatility] *)
Definition calculate_volatility (prices : list Q) : option Q :=
  if (length prices <? 2)%nat then Some 0
  else
    match price_returns prices with
    | None => None
    | Some returns =>
      Some (if is_empty returns then 0 else np_std returns * 100)
    end.

(** [analyze_timeframe]; [None] is a [ZeroDivisionError], of the price
    change [(prices[-1] - prices[0]) / prices[0]] or of the volatility.
    The averages of [calculate_volume_trend] are numpy scalars, whose
    division does not raise. *)
Definition analyze_timeframe (tok : TokenData) (tf : string)
    (historical_prices historical_volumes : list Q) : option TimeframeData :=
  match
    match historical_prices with
    | [] => Some (price_change_24h tok)
    | first :: _ =>
      match py_div (List.last historical_prices first - first) first with
      | None => None
      | Some r => Some (r * 100)
      end
    end
  with
  | None => None
  | Some price_change =>
    let volume_avg :=
      if is_empty historical_volumes then volume_24h tok
      else np_mean historical_volumes in
    let volume_trend := calculate_volume_trend historical_volumes in
    let price_momentum := calculate_price_momentum price_change in
    let levels := calculate_support_resistance historical_prices in
    match calculate_volatility historical_prices with
    | None => None
    | Some volatility =>
      Some {| timeframe := tf;
              price_change := price_change;
              volume_avg := volume_avg;
              volume_trend := volume_trend;
              price_momentum := price_momentum;
              support_level := levels.1;
              resistance_level := levels.2;
              volatility := volatility |}
    end
  end.

(** The loop of [analyze_token] over the five labels, with
    [price_history.get(tf, [])] and [volume_history.get(tf, [])]; the
    first exception of [analyze_timeframe] leaves the loop. *)
Definition analyze_timeframes (tok : TokenData)
    (price_history volume_history : gmap string (list Q))
    : option (gmap string TimeframeData) :=
  foldl (λ acc tf,
           match acc with
           | None => None
           | Some timeframes =>
             match analyze_timeframe tok tf
                     (default [] (price_history !! tf))
                     (default [] (volume_history !! tf)) with
             | None => None
             | Some data => Some (<[tf := data]> timeframes)
             end
           end)
        (Some ∅) timeframe_labels.

(** [analyze_token(token)] with no history given, which is how the agent
    calls it: both histories are generated, the five timeframes are
    analysed and the metrics aggregated.  An exception at any of these
    steps leaves the call. *)
Definition analyze_token_without_history (tok : TokenData) (run : AnalyzerRun)
    : Outcome MultiTimeframeAnalysis :=
  match _generate_mock_price_history tok (normal run) with
  | None => Raised
  | Some price_history =>
    let volume_history := _generate_mock_volume_history tok (uniform run) in
    match analyze_timeframes tok price_history volume_history with
    | None => Raised
    | Some timeframes =>
      match aggregate_metrics tok timeframes (utcnow run) with
      | None => Raised
      | Some analysis => Returned analysis
      end
    end
  end.

End WithNumpy.

End TimeframeAggregation.

(** ** ai_trading_agent.py *)

Module TradingAgent.
Import PyNum DexScreener PortfolioTracker.
Local Open Scope Q_scope.

Inductive TradingStrategy : Type := SCALPING | SWING | POSITION.

Inductive DecisionAction : Type := DBuy | DSell | DHold.

Record TradingDecision : Type := mkDecision {
  d_action : DecisionAction;
  d_token : TokenData;
  d_reason : string;
  d_confidence : Q;
  suggested_amount : Q;
  d_strategy : TradingStrategy;
  d_analysis : TimeframeAnalyzer.MultiTimeframeAnalysis
}.

(** The part of [AgentState] and of the agent's configuration that the
    functions below read, with the portfolio the agent owns. *)
Record AITradingAgent : Type := mkAgent {
  portfolio : Portfolio;
  current_strategy_preference : TradingStrategy;
  min_capital_reserve : Q;
  max_position_size : Q;
  max_positions : Z;
  min_confidence : Q;
  stop_loss_pct : Q;
  take_profit_targets : TradingStrategy → option Q
}.

(** [AITradingAgent.__init__] *)
Definition init (starting : Q) : AITradingAgent :=
  {| portfolio := fresh starting;
     current_strategy_preference := SWING;
     min_capital_reserve := 500;
     max_position_size := 0.2;
     max_positions := 5;
     min_confidence := 65;
     stop_loss_pct := 15;
     take_profit_targets := λ s,
       Some match s with SCALPING => 25 | SWING => 50 | POSITION => 100 end |}.

Definition with_portfolio (ag : AITradingAgent) (pf : Portfolio) : AITradingAgent :=
  {| portfolio := pf;
     current_strategy_preference := current_strategy_preference ag;
     min_capital_reserve := min_capital_reserve ag;
     max_position_size := max_position_size ag;
     max_positions := max_positions ag;
     min_confidence := min_confidence ag;
     stop_loss_pct := stop_loss_pct ag;
     take_profit_targets := take_profit_targets ag |}.

(** [get_available_capital] *)
Definition get_available_capital (ag : AITradingAgent) : Q :=
  let total_value := get_total_value (portfolio ag) in
  py_max 0 (total_value - min_capital_reserve ag).

(** [calculate_position_size] *)
Definition calculate_position_size (ag : AITradingAgent)
    (token_price confidence : Q) : Q :=
  let available := get_available_capital ag in
  let confidence_factor := (confidence - 50) / 50 in
  let position_pct := 0.1 + 0.1 * confidence_factor in
  let position_value := available * position_pct in
  if Qltb 0 token_price then position_value / token_price else 0.

Section ExitEvaluation.

(** [np.percentile] and [np.std], which the analyzer calls. *)
Variable np_percentile : list Q → Q → Q.
Variable np_std : list Q → Q.

(** Python's ["{:.1f}"] rendering of a float; only its result is spliced
    into the reason strings. *)
Variable fmt1 : Q → string.

Definition stop_loss_reason (pnl : Q) : string :=
  "Stop loss triggered (" ++ fmt1 pnl ++ "%)".

Definition take_profit_reason (pnl : Q) : string :=
  "Take profit target reached (" ++ fmt1 pnl ++ "%)".

Definition reversal_reason (pnl : Q) : string :=
  "Trend reversal detected, securing " ++ fmt1 pnl ++ "% profit".

Definition scalping_reason (pnl : Q) : string :=
  "Scalping time limit reached with " ++ fmt1 pnl ++ "% profit".

(** The [if]/[elif] chain of [_analyze_existing_position]: the reason of the
    first rule that fires, if any.  [now] is [datetime.utcnow()] in seconds. *)
Definition exit_rule (ag : AITradingAgent) (position : Position)
    (an : TimeframeAnalyzer.MultiTimeframeAnalysis) (now : Q) : option string :=
  let pnl := pnl_percent position in
  if Qleb pnl (- stop_loss_pct ag) then Some (stop_loss_reason pnl)
  else if Qleb (default 50 (take_profit_targets ag (current_strategy_preference ag)))
               pnl
  then Some (take_profit_reason pnl)
  else if match TimeframeAnalyzer.overall_trend an with
          | TimeframeAnalyzer.Bearish | TimeframeAnalyzer.StrongBearish => true
          | _ => false
          end && Qltb 10 pnl
  then Some (reversal_reason pnl)
  else match current_strategy_preference ag with
       | SCALPING =>
         let hours_held := (now - entry_time position) / 3600 in
         if Qltb 4 hours_held && Qltb 5 pnl
         then Some (scalping_reason pnl)
         else None
       | _ => None
       end.

(** [_analyze_existing_position].  [run] is what the call
    [self.analyzer.analyze_token(token)] reads from the random generator
    and the clock; the call runs after the price update and can raise.
    [now] is the later [datetime.utcnow()] of the scalping rule.  The
    function mutates the stored position, so the agent after the call is
    returned as well. *)
Definition _analyze_existing_position (ag : AITradingAgent) (tok : TokenData)
    (run : TimeframeAggregation.AnalyzerRun) (now : Q)
    : Outcome (option TradingDecision) * AITradingAgent :=
  match positions (portfolio ag) !! address tok with
  | None => (Returned None, ag)
  | Some position0 =>
    let position := update_price position0 (price_usd tok) in
    let pf := portfolio ag in
    let pf' :=
      {| starting_balance := starting_balance pf;
         current_balance := current_balance pf;
         positions := <[address tok := position]> (positions pf);
         trade_history := trade_history pf;
         total_realized_pnl := total_realized_pnl pf;
         total_unrealized_pnl := total_unrealized_pnl pf;
         win_count := win_count pf;
         loss_count := loss_count pf |} in
    let ag' := with_portfolio ag pf' in
    match TimeframeAggregation.analyze_token_without_history
            np_percentile np_std tok run with
    | Raised => (Raised, ag')
    | Returned an =>
      match exit_rule ag position an now with
      | Some why =>
        (Returned (Some {| d_action := DSell;
                           d_token := tok;
                           d_reason := why;
                           d_confidence := 90;
                           suggested_amount := quantity position;
                           d_strategy := current_strategy_preference ag;
                           d_analysis := an |}),
         ag')
      | None => (Returned None, ag')
      end
    end
  end.

End ExitEvaluation.

End TradingAgent.

(** ** portfolio_tracker.py, continued: statistics and [PortfolioManager] *)

Module PortfolioManager.
Import PyNum PortfolioTracker.
Local Open Scope Q_scope.

(** [Portfolio.get_roi]; [None] stands for the [ZeroDivisionError] that a
    starting balance of 0 raises. *)
Definition get_roi (pf : Portfolio) : option Q :=
  if Qeq_bool (starting_balance pf) 0 then None
  else Some (((get_total_value pf - starting_balance pf) / starting_balance pf)
             * 100).

(** [Portfolio.get_win_rate]; the counters are integers and [/] is the
    true division. *)
Definition get_win_rate (pf : Portfolio) : Q :=
  let total_trades := (win_count pf + loss_count pf)%Z in
  if (0 <? total_trades)%Z
  then (inject_Z (win_count pf) / inject_Z total_trades) * 100
  else 0.

Record Manager : Type := mkManager {
  mgr_portfolio : Portfolio;
  mgr_max_positions : Z;
  position_size_percent : Q
}.

(** [PortfolioManager.__init__] *)
Definition new_manager (starting : Q) : Manager :=
  mkManager (fresh starting) 10 10.

(** [PortfolioManager.should_buy] *)
Definition should_buy (mgr : Manager) (opportunity_score : Q)
    (risk_level : TokenSimilarity.RiskLevel) (current_positions : Z) : bool :=
  if (mgr_max_positions mgr <=? current_positions)%Z then false
  else if match risk_level with TokenSimilarity.Extreme => true | _ => false end
  then false
  else if Qleb 85 opportunity_score then true
  else if Qleb 75 opportunity_score
          && match risk_level with TokenSimilarity.Low => true | _ => false end
  then true
  else false.

(** [PortfolioManager.should_sell]; [now] is [datetime.utcnow()] in
    seconds.  The position is refreshed in place, so it is returned
    beside the answer. *)
Definition should_sell (position0 : Position) (current_price now : Q)
    : (bool * string) * Position :=
  let position := update_price position0 current_price in
  if Qleb (pnl_percent position) (-20)
  then ((true, "Stop loss triggered (-20%)"%string), position)
  else if Qleb 50 (pnl_percent position)
  then ((true, "Take profit target reached (+50%)"%string), position)
  else
    let hours_held := (now - entry_time position) / 3600 in
    if Qltb 24 hours_held && Qltb (pnl_percent position) 10
    then ((true, "24hr time exit with low gains"%string), position)
    else ((false, EmptyString), position).

(** [PortfolioManager.calculate_position_size] *)
Definition calculate_position_size (mgr : Manager) (token_price : Q) : Q :=
  let available_balance := current_balance (mgr_portfolio mgr) in
  let position_value := available_balance * (position_size_percent mgr / 100) in
  if Qltb 0 token_price then position_value / token_price else 0.

End PortfolioManager.

(** ** ai_trading_agent.py, continued: entry decisions and execution *)

Module AgentExecution.
Import PyNum DexScreener PortfolioTracker TimeframeAnalyzer TradingAgent.
Local Open Scope Q_scope.

(** The agent with the counters of [AgentState] and the two collections
    it keeps. *)
Record AgentRuntime : Type := mkRuntime {
  agent : AITradingAgent;
  total_trades : Z;
  successful_trades : Z;
  failed_trades : Z;
  total_profit : Q;
  analyzed_tokens : gmap string MultiTimeframeAnalysis;
  watchlist : list string
}.

Definition start (starting : Q) : AgentRuntime :=
  mkRuntime (init starting) 0 0 0 0 ∅ [].

Definition with_agent (rt : AgentRuntime) (ag : AITradingAgent) : AgentRuntime :=
  mkRuntime ag (total_trades rt) (successful_trades rt) (failed_trades rt)
    (total_profit rt) (analyzed_tokens rt) (watchlist rt).

(** [can_open_position] *)
Definition can_open_position (ag : AITradingAgent) : bool :=
  (Z.of_nat (size (positions (portfolio ag))) <? max_positions ag)%Z
  && Qltb 50 (get_available_capital ag).

(** [_select_strategy]; the average divides by the number of timeframes
    and raises on an empty dictionary. *)
Definition _select_strategy (an : MultiTimeframeAnalysis)
    : Outcome TradingStrategy :=
  let vols := volatility <$> tf_values (timeframes an) in
  match vols with
  | [] => Raised
  | _ =>
    let avg_volatility := Qsum vols / inject_Z (Z.of_nat (length vols)) in
    if Qltb 15 avg_volatility then Returned SCALPING
    else if match overall_trend an with StrongBullish => true | _ => false end
            && Qltb 2 (risk_reward_ratio an)
    then Returned POSITION
    else Returned SWING
  end.

Definition momentum_name (m : Momentum) : string :=
  match m with
  | StrongBullish => "strong_bullish"
  | Bullish => "bullish"
  | Neutral => "neutral"
  | Bearish => "bearish"
  | StrongBearish => "strong_bearish"
  end.

Section Decisions.

(** [np.percentile] and [np.std], which the analyzer calls. *)
Variable np_percentile : list Q → Q → Q.
Variable np_std : list Q → Q.

(** The ["{:.0f}"] and ["{:.1f}"] renderings of a float. *)
Variable fmt0 : Q → string.
Variable fmt1 : Q → string.

(** The age in hours that the similarity detector derives from
    [created_at] and its clock, when the string parses. *)
Variable age_of : string → option Q.

Definition buy_reason (an : MultiTimeframeAnalysis) : string :=
  "High score (" ++ fmt0 (overall_score an) ++ "), "
  ++ momentum_name (overall_trend an) ++ " trend, good entry".

(** [analyze_token_opportunity]; [run] is what the one call of the
    analyzer that the function makes reads from the random generator and
    the clock, [now] the later clock reading of the exit rules.  An
    exception of the analyzer, of the similarity detector or of
    [_select_strategy] leaves the function. *)
Definition analyze_token_opportunity (rt : AgentRuntime) (tok : TokenData)
    (run : TimeframeAggregation.AnalyzerRun) (now : Q)
    : Outcome (option TradingDecision) * AgentRuntime :=
  let ag := agent rt in
  match positions (portfolio ag) !! address tok with
  | Some _ =>
    let r := _analyze_existing_position np_percentile np_std fmt1 ag tok run now in
    (r.1, with_agent rt r.2)
  | None =>
    match TimeframeAggregation.analyze_token_without_history
            np_percentile np_std tok run with
    | Raised => (Raised, rt)
    | Returned an =>
      let rt1 :=
        mkRuntime ag (total_trades rt) (successful_trades rt) (failed_trades rt)
          (total_profit rt) (<[address tok := an]> (analyzed_tokens rt))
          (watchlist rt) in
      if Qltb (confidence_level an) (min_confidence ag) then (Returned None, rt1)
      else if match entry_timing an with Avoid => true | _ => false end
      then (Returned None, rt1)
      else
        match TokenSimilarity.analyze_token age_of tok with
        | None => (Raised, rt1)
        | Some token_metrics =>
          if Qleb 80 (overall_score an)
             && match entry_timing an with Immediate => true | _ => false end
          then
            match _select_strategy an with
            | Raised => (Raised, rt1)
            | Returned strategy =>
              let position_size :=
                calculate_position_size ag (price_usd tok)
                  (confidence_level an) in
              (Returned (Some {| d_action := DBuy;
                                 d_token := tok;
                                 d_reason := buy_reason an;
                                 d_confidence := confidence_level an;
                                 suggested_amount := position_size;
                                 d_strategy := strategy;
                                 d_analysis := an |}),
               rt1)
            end
          else if Qleb 70 (overall_score an)
                  && match entry_timing an with WaitDip => true | _ => false end
          then
            if decide (address tok ∈ watchlist rt1) then (Returned None, rt1)
            else (Returned None,
                  mkRuntime ag (total_trades rt1) (successful_trades rt1)
                    (failed_trades rt1) (total_profit rt1) (analyzed_tokens rt1)
                    (watchlist rt1 ++ [address tok]))
          else (Returned None, rt1)
        end
    end
  end.

End Decisions.

(** The position stored at [addr] replaced by its refreshed copy. *)
Definition store_position (pf : Portfolio) (addr : string) (p : Position)
    : Portfolio :=
  {| starting_balance := starting_balance pf;
     current_balance := current_balance pf;
     positions := <[addr := p]> (positions pf);
     trade_history := trade_history pf;
     total_realized_pnl := total_realized_pnl pf;
     total_unrealized_pnl := total_unrealized_pnl pf;
     win_count := win_count pf;
     loss_count := loss_count pf |}.

(** [execute_decision]; [now] is [datetime.utcnow()].  The result is
    [Some] of the returned boolean, or [None] when the action is neither
    buy nor sell and the function falls off its end. *)
Definition execute_decision (rt : AgentRuntime) (decision : TradingDecision)
    (now : Q) : option bool * AgentRuntime :=
  let ag := agent rt in
  match d_action decision with
  | DBuy =>
    if negb (can_open_position ag) then (Some false, rt)
    else
      let position :=
        new_position (symbol (d_token decision)) (address (d_token decision))
          (price_usd (d_token decision)) (price_usd (d_token decision))
          (suggested_amount decision) now in
      let cost := entry_price position * quantity position in
      if Qltb (current_balance (portfolio ag)) cost then (Some false, rt)
      else
        (Some true,
         mkRuntime (with_portfolio ag (add_position (portfolio ag) position))
           (total_trades rt + 1)%Z (successful_trades rt) (failed_trades rt)
           (total_profit rt) (analyzed_tokens rt) (watchlist rt))
  | DSell =>
    let addr := address (d_token decision) in
    match positions (portfolio ag) !! addr with
    | Some position0 =>
      let position := update_price position0 (price_usd (d_token decision)) in
      let pnl := pnl_usd position in
      let r := close_position (store_position (portfolio ag) addr position)
                 addr (price_usd (d_token decision)) (d_reason decision) now in
      if r.1 then
        (Some true,
         mkRuntime (with_portfolio ag r.2) (total_trades rt)
           (if Qltb 0 pnl then (successful_trades rt + 1)%Z
            else successful_trades rt)
           (if Qltb 0 pnl then failed_trades rt
            else (failed_trades rt + 1)%Z)
           (total_profit rt + pnl) (analyzed_tokens rt) (watchlist rt))
      else (Some false, with_agent rt (with_portfolio ag r.2))
    | None =>
      let r := close_position (portfolio ag) addr
                 (price_usd (d_token decision)) (d_reason decision) now in
      (Some r.1, with_agent rt (with_portfolio ag r.2))
    end
  | DHold => (None, rt)
  end.

End AgentExecution.

(** ** Sample inputs used by the scenarios below *)

Module Scenarios.
Import PyNum DexScreener PortfolioTracker.
Local Open Scope Q_scope.

(** A position bought and sold at the same price. *)
Definition breakeven_position : Position :=
  new_position "TKN" "0xA" 2 2 10 0.

(** Two buys of the same address. *)
Definition first_buy : Position := new_position "TKN" "0xA" 1 1 100 0.
Definition second_buy : Position := new_position "TKN" "0xA" 2 2 50 10.

(** The stop-loss scenario: entry price 1.0, quantity 100, quoted at 0.84. *)
Definition falling_position : Position := new_position "TKN" "0xA" 1 1 100 0.

Definition falling_token : TokenData :=
  mkTokenData "0xA" "TKN" "Token" 0.84 (-16) 0 0 0 0 "bsc" "0xP" "2024-01-01T00:00:00Z".

Definition falling_analysis : TimeframeAnalyzer.MultiTimeframeAnalysis :=
  TimeframeAnalyzer.mkAnalysis falling_token ∅ TimeframeAnalyzer.Neutral
    0 TimeframeAnalyzer.Avoid 1 50 0.

Definition falling_agent : TradingAgent.AITradingAgent :=
  TradingAgent.with_portfolio (TradingAgent.init 1000)
    (add_position (fresh 1000) falling_position).

(** A stand-in for the one-decimal rendering of a float. *)
Definition sample_fmt1 (q : Q) : string := "-16.0".

(** A run of the analyzer in which every normal draw is 0 and every
    uniform draw is 1, with stand-ins for the percentile (a twentieth
    of the rank) and for the standard deviation. *)
Definition calm_run : TimeframeAggregation.AnalyzerRun :=
  TimeframeAggregation.mkRun (λ _ _, 0) (λ _ _, 1) 0.

Definition sample_percentile (prices : list Q) (q : Q) : Q := q / 20.

Definition sample_std (returns : list Q) : Q := 0.

(** A token quoted exactly at the single support level 2, resistance 5. *)
Definition flat_timeframe : TimeframeAnalyzer.TimeframeData :=
  TimeframeAnalyzer.mkTimeframeData "1h" 0 0 TimeframeAnalyzer.Stable
    TimeframeAnalyzer.Neutral 2 5 0.

Definition no_levels_timeframe : TimeframeAnalyzer.TimeframeData :=
  TimeframeAnalyzer.mkTimeframeData "1h" 0 0 TimeframeAnalyzer.Stable
    TimeframeAnalyzer.Neutral 0 0 0.

Definition token_at_support : TokenData :=
  mkTokenData "0xB" "SUP" "Support" 2 0 0 0 0 0 "bsc" "0xQ" "2024-01-01T00:00:00Z".

(** A candidate above the DUST market-cap range with the best possible
    volume, momentum and liquidity, and one inside the range. *)
Definition oversized_token : TokenData :=
  mkTokenData "0xC" "BIG" "Big" 1 50 150_000_000 500_000 60_000_000 0
    "bsc" "0xR" "2024-01-01T00:00:00Z".

Definition dust_sized_token : TokenData :=
  mkTokenData "0xD" "DST" "Dusty" 1 50 10_000_000 500_000 5_000_000 0
    "bsc" "0xS" "2024-01-01T00:00:00Z".

(** A token whose market cap is -1, where [market_cap + 1] is 0. *)
Definition negative_cap_token : TokenData :=
  mkTokenData "0xE" "NEG" "Negative" 1 0 1000 1000 (-1) 0
    "bsc" "0xT" "2024-01-01T00:00:00Z".

(** A held token whose 24h change is -100. *)
Definition wiped_token : TokenData :=
  mkTokenData "0xA" "TKN" "Token" 0.84 (-100) 0 0 0 0 "bsc" "0xP"
    "2024-01-01T00:00:00Z".

Definition no_age (created : string) : option Q := None.

(** A position refreshed at its entry price before it is added, as the
    demo initialisers do. *)
Definition priced_buy : Position := update_price first_buy 1.

(** Two open positions, both priced once, then a price map that only
    knows the first address. *)
Definition pos_a : Position := new_position "AAA" "0xA" 1 1 100 0.
Definition pos_b : Position := new_position "BBB" "0xB" 1 1 100 0.

Definition full_prices : gmap string Q := {[ "0xA"%string := 1; "0xB"%string := 2 ]}.
Definition partial_prices : gmap string Q := {[ "0xA"%string := 1.5 ]}.

Definition two_positions : Portfolio :=
  update_all_prices (add_position (add_position (fresh 1000) pos_a) pos_b)
    full_prices.

End Scenarios.

(** ** Formulas and predicates used in the statements *)

Module Specification.
Import PyNum.
Local Open Scope Q_scope.

(** [clamp(x, lo, hi)] *)
Definition clamp (x lo hi : Q) : Q := py_max lo (py_min x hi).

(** Position sizing in the specification's words:
    [available_capital * (0.10 + 0.10 * clamp((confidence - 50)/50, 0, 1)) / price]. *)
Definition spec_position_size (ag : TradingAgent.AITradingAgent)
    (token_price confidence : Q) : Q :=
  TradingAgent.get_available_capital ag
  * (0.10 + 0.10 * clamp ((confidence - 50) / 50) 0 1) / token_price.

(** Descending order of the sort key of [find_dust_like_tokens]. *)
Definition score_desc (x y : TokenSimilarity.SimilarityMetrics) : Prop :=
  TokenSimilarity.similarity_score y <= TokenSimilarity.similarity_score x.

(** What one pass of [update_all_prices] does to the position stored at
    [addr]: refreshed when the price map has the address, left alone
    otherwise. *)
Definition refresh (price_updates : gmap string Q) (addr : string)
    (p : PortfolioTracker.Position) : PortfolioTracker.Position :=
  match price_updates !! addr with
  | Some new_price => PortfolioTracker.update_price p new_price
  | None => p
  end.

Definition refresh_map (price_updates : gmap string Q)
    (m : gmap string PortfolioTracker.Position)
    : gmap string PortfolioTracker.Position :=
  map_imap (λ addr p, Some (refresh price_updates addr p)) m.

(** The pnl an open position adds to the running total of
    [update_all_prices]: its pnl when its address is in the price map,
    nothing otherwise. *)
Definition counted_pnl (price_updates : gmap string Q)
    (entry : string * PortfolioTracker.Position) : Q :=
  match price_updates !! entry.1 with
  | Some _ => PortfolioTracker.pnl_usd entry.2
  | None => 0
  end.

(** Sum of [pnl_usd] over all open positions. *)
Definition open_pnl (pf : PortfolioTracker.Portfolio) : Q :=
  Qsum (PortfolioTracker.pnl_usd
          <$> PortfolioTracker.values (PortfolioTracker.positions pf)).

(** Sum of [quantity * entry_price] over all open positions. *)
Definition cost_basis_total (pf : PortfolioTracker.Portfolio) : Q :=
  Qsum ((λ p, PortfolioTracker.quantity p * PortfolioTracker.entry_price p)
          <$> PortfolioTracker.values (PortfolioTracker.positions pf)).

(** The cash-side identity: cash plus the cost basis of what is open is
    the starting balance plus what has been realized. *)
Definition cash_identity (pf : PortfolioTracker.Portfolio) : Prop :=
  PortfolioTracker.current_balance pf + cost_basis_total pf
  == PortfolioTracker.starting_balance pf
     + PortfolioTracker.total_realized_pnl pf.

(** The two sides of the reconciliation. *)
Definition reconciled (pf : PortfolioTracker.Portfolio) : Prop :=
  PortfolioTracker.get_total_value pf
  == PortfolioTracker.starting_balance pf
     + PortfolioTracker.total_realized_pnl pf
     + PortfolioTracker.total_unrealized_pnl pf.

(** The price map has a price for every open address. *)
Definition covers (price_updates : gmap string Q)
    (pf : PortfolioTracker.Portfolio) : Prop :=
  ∀ a, is_Some (PortfolioTracker.positions pf !! a) → is_Some (price_updates !! a).

(** A run in which [add_position] is only applied to an address that has
    no open position at that moment. *)
Fixpoint fresh_adds (pf : PortfolioTracker.Portfolio)
    (ops : list PortfolioTracker.Op) : Prop :=
  match ops with
  | [] => True
  | op :: rest =>
    match op with
    | PortfolioTracker.OpAdd pos =>
      PortfolioTracker.positions pf !! PortfolioTracker.token_address pos = None
    | _ => True
    end ∧ fresh_adds (PortfolioTracker.step pf op) rest
  end.

End Specification.

(** ** Further vocabulary and sample inputs *)

Module Vocabulary.
Import PyNum DexScreener PortfolioTracker.
Local Open Scope Q_scope.

Definition is_sell (t : Trade) : bool :=
  match action t with Sell => true | Buy => false end.

Definition is_buy (t : Trade) : bool :=
  match action t with Buy => true | Sell => false end.

(** Number of sell, respectively buy, records in a trade history. *)
Definition sells (h : list Trade) : Z :=
  Z.of_nat (length (filter (λ t, is_sell t = true) h)).

Definition buys (h : list Trade) : Z :=
  Z.of_nat (length (filter (λ t, is_buy t = true) h)).

Definition is_add (op : Op) : bool :=
  match op with OpAdd _ => true | _ => false end.

(** Number of [add_position] calls in a run. *)
Definition adds (ops : list Op) : Z :=
  Z.of_nat (length (filter (λ op, is_add op = true) ops)).

(** A position bought at 2, with quantity 5. *)
Definition held_position : Position := new_position "TKN" "0xA" 2 2 5 0.

Definition one_position : Portfolio := add_position (fresh 1000) held_position.

(** A dictionary with a label that has no weight. *)
Definition five_minute_only : gmap string TimeframeAnalyzer.TimeframeData :=
  {[ "5m"%string := Scenarios.flat_timeframe ]}.

(** Per-timeframe results that are bullish on every label. *)
Definition bullish_timeframe (tf : string) : TimeframeAnalyzer.TimeframeData :=
  TimeframeAnalyzer.mkTimeframeData tf 25 0 TimeframeAnalyzer.Stable
    TimeframeAnalyzer.Bullish 1 3 5.

(** An agent holding one position, and decisions about its token. *)
Definition holding_runtime : AgentExecution.AgentRuntime :=
  AgentExecution.with_agent (AgentExecution.start 1000)
    (TradingAgent.with_portfolio (TradingAgent.init 1000) one_position).

Definition quoted_token : TokenData :=
  mkTokenData "0xA" "TKN" "Token" 3 10 0 0 0 0 "bsc" "0xP"
    "2024-01-01T00:00:00Z".

Definition fresh_token : TokenData :=
  mkTokenData "0xF" "NEW" "Newcomer" 2 30 0 0 0 0 "bsc" "0xN"
    "2024-01-01T00:00:00Z".

Definition strong_analysis : TimeframeAnalyzer.MultiTimeframeAnalysis :=
  TimeframeAnalyzer.mkAnalysis fresh_token
    (TimeframeAggregation.build_timeframes bullish_timeframe)
    TimeframeAnalyzer.Bullish 85 TimeframeAnalyzer.Immediate 2 80 0.

Definition decision_for (act : TradingAgent.DecisionAction) (tok : TokenData)
    (amount : Q) : TradingAgent.TradingDecision :=
  TradingAgent.mkDecision act tok "sample" 90 amount TradingAgent.SWING
    strong_analysis.

Definition sample_fmt0 (q : Q) : string := "85".

(** A token that is not held, up 30% in 24 hours, with a market cap of
    5,000,000 and a 24h volume of three times that. *)
Definition rising_token : TokenData :=
  mkTokenData "0xF" "NEW" "Newcomer" 1 30 15_000_003 500_000 5_000_000 0
    "bsc" "0xN" "2024-01-01T00:00:00Z".

(** The share of one timeframe in the weighted score of
    [calculate_overall_trend]. *)
Definition weighted_momentum
    (entry : string * TimeframeAnalyzer.TimeframeData) : Q :=
  inject_Z (TimeframeAggregation.momentum_scores
              (TimeframeAnalyzer.price_momentum entry.2))
  * default 0 (TimeframeAggregation.timeframe_weights !! entry.1).

End Vocabulary.

(** * Properties *)

(** ** Comparisons and sums *)

Section NumFacts.
Import PyNum.
Local Open Scope Q_scope.

Lemma Qltb_lt (a b : Q) : Qltb a b = true ↔ a < b.
Proof.
  unfold Qltb. rewrite negb_true_iff, <- not_true_iff_false, Qle_bool_iff.
  split; [apply Qnot_le_lt | apply Qlt_not_le].
Qed.

Lemma Qltb_ge (a b : Q) : Qltb a b = false ↔ b <= a.
Proof. unfold Qltb. rewrite negb_false_iff. apply Qle_bool_iff. Qed.

Lemma Qleb_le (a b : Q) : Qleb a b = true ↔ a <= b.
Proof. apply Qle_bool_iff. Qed.

Lemma Qleb_gt (a b : Q) : Qleb a b = false ↔ b < a.
Proof.
  unfold Qleb. rewrite <- not_true_iff_false, Qle_bool_iff.
  split; [apply Qnot_le_lt | apply Qlt_not_le].
Qed.

Lemma py_min_le_r (a b : Q) : py_min a b <= b.
Proof.
  unfold py_min. destruct (Qltb b a) eqn:E.
  - apply Qle_refl.
  - now apply Qltb_ge.
Qed.

Lemma py_min_glb (a b c : Q) : c <= a → c <= b → c <= py_min a b.
Proof. intros. unfold py_min. now destruct (Qltb b a). Qed.

Lemma py_max_spec (a b : Q) : a <= py_max a b ∧ b <= py_max a b.
Proof.
  unfold py_max. destruct (Qltb a b) eqn:E.
  - apply Qltb_lt in E. split; [now apply Qlt_le_weak | apply Qle_refl].
  - apply Qltb_ge in E. split; [apply Qle_refl | exact E].
Qed.

Lemma py_div_some (a b : Q) : ¬ b == 0 → py_div a b = Some (a / b).
Proof.
  intros H. unfold py_div. destruct (Qeq_bool b 0) eqn:E; [|reflexivity].
  apply Qeq_bool_iff in E. contradiction.
Qed.

Lemma py_div_inv (a b r : Q) : py_div a b = Some r → r = a / b ∧ ¬ b == 0.
Proof.
  unfold py_div. destruct (Qeq_bool b 0) eqn:E; [discriminate|].
  intros [= <-]. split; [reflexivity|].
  intros H. apply Qeq_bool_iff in H. congruence.
Qed.

Lemma py_div_none (a b : Q) : py_div a b = None ↔ b == 0.
Proof.
  unfold py_div. destruct (Qeq_bool b 0) eqn:E.
  - apply Qeq_bool_iff in E. tauto.
  - split; [discriminate|]. intros H. apply Qeq_bool_iff in H. congruence.
Qed.

Lemma Qsum_cons (x : Q) (xs : list Q) : Qsum (x :: xs) = x + Qsum xs.
Proof. reflexivity. Qed.

Lemma Qsum_app (xs ys : list Q) : Qsum (xs ++ ys) == Qsum xs + Qsum ys.
Proof.
  induction xs as [|x xs IH]; simpl.
  - now rewrite Qplus_0_l.
  - unfold Qsum in IH. rewrite IH. apply Qplus_assoc.
Qed.

Lemma Qsum_perm (xs ys : list Q) : xs ≡ₚ ys → Qsum xs == Qsum ys.
Proof.
  induction 1 as [|x xs ys _ IH|x y xs|xs ys zs _ IH1 _ IH2]; simpl.
  - reflexivity.
  - unfold Qsum in IH. now rewrite IH.
  - rewrite !Qplus_assoc. now rewrite (Qplus_comm y x).
  - now rewrite IH1.
Qed.

End NumFacts.

(** ** Opportunity score *)

Section OpportunityFacts.
Import PyNum DexScreener TokenSimilarity Scenarios.
Local Open Scope Z_scope.

Lemma volume_points_range ratio : 0 <= volume_points ratio <= 30.
Proof. unfold volume_points. repeat case_match; lia. Qed.

Lemma momentum_points_range t : 0 <= momentum_points t <= 20.
Proof. unfold momentum_points. repeat case_match; lia. Qed.

Lemma liquidity_points_range t : 0 <= liquidity_points t <= 20.
Proof. unfold liquidity_points. repeat case_match; lia. Qed.

Lemma mcap_points_range t : 0 <= mcap_points t <= 30.
Proof. unfold mcap_points. repeat case_match; lia. Qed.

(** [_calculate_opportunity] raises exactly at a market cap of -1, where
    the divisor of the volume ratio is 0. *)
Lemma opportunity_raises_iff (t : TokenData) :
  _calculate_opportunity t = None ↔ (market_cap t + 1 == 0)%Q.
Proof.
  unfold _calculate_opportunity, volume_to_mcap_of. cbv zeta.
  rewrite <- (py_div_none (volume_24h t)).
  destruct (py_div (volume_24h t) (market_cap t + 1)%Q); split; congruence.
Qed.

(** C9 as stated fails: at a market cap of -1 the volume ratio divides
    by 0 and [_calculate_opportunity] raises instead of returning a
    score. *)
Lemma opportunity_score_raises_at_minus_one :
  (market_cap negative_cap_token == -1)%Q ∧
  _calculate_opportunity negative_cap_token = None.
Proof. split; reflexivity. Qed.

(** C9, as the code has it.  For every token whose market cap is not
    -1, whatever its volume, liquidity and price change,
    [_calculate_opportunity] returns the sum of a volume part in [0,30],
    a momentum part in [0,20], a liquidity part in [0,20] and a
    market-cap part in [0,30], cut at 100; the score lies in [0,100].
    At a market cap of -1 it raises. *)
Theorem opportunity_score_bounds (t : TokenData) :
  (¬ (market_cap t + 1 == 0)%Q →
   ∃ score,
     _calculate_opportunity t = Some score ∧
     0 <= volume_points (volume_24h t / (market_cap t + 1)) <= 30 ∧
     0 <= momentum_points t <= 20 ∧
     0 <= liquidity_points t <= 20 ∧
     0 <= mcap_points t <= 30 ∧
     score =
       Z.min (volume_points (volume_24h t / (market_cap t + 1))
              + momentum_points t + liquidity_points t + mcap_points t) 100 ∧
     0 <= score <= 100) ∧
  ((market_cap t + 1 == 0)%Q → _calculate_opportunity t = None).
Proof.
  split; [|apply opportunity_raises_iff].
  intros Hmc.
  pose proof (volume_points_range (volume_24h t / (market_cap t + 1))).
  pose proof (momentum_points_range t).
  pose proof (liquidity_points_range t). pose proof (mcap_points_range t).
  unfold _calculate_opportunity, volume_to_mcap_of.
  rewrite (py_div_some _ _ Hmc). cbv zeta. rewrite Z.add_0_l.
  eexists. split; [reflexivity|]. unfold py_minZ.
  destruct (Z.ltb_spec 100
    (volume_points (volume_24h t / (market_cap t + 1)) + momentum_points t
     + liquidity_points t + mcap_points t)); repeat split; lia.
Qed.

(** A token inside the DUST range: volume part 20, momentum 20,
    liquidity 20 and market-cap part 30, a score of 90. *)
Lemma opportunity_score_bounds_witness :
  ¬ (market_cap dust_sized_token + 1 == 0)%Q ∧
  _calculate_opportunity dust_sized_token = Some 90 ∧
  ∃ score, _calculate_opportunity dust_sized_token = Some score
           ∧ 0 <= score <= 100.
Proof.
  assert (¬ (market_cap dust_sized_token + 1 == 0)%Q) as Hne
    by (vm_compute; discriminate).
  split; [exact Hne|]. split; [reflexivity|].
  destruct (opportunity_score_bounds dust_sized_token) as [Hsome _].
  destruct (Hsome Hne) as (score & H1 & _ & _ & _ & _ & _ & H2).
  exists score. split; assumption.
Defined.

End OpportunityFacts.

(** ** Closing and opening positions *)

Section PortfolioFacts.
Import PyNum PortfolioTracker Scenarios.
Local Open Scope Q_scope.

Lemma close_position_absent pf a s w n :
  positions pf !! a = None → close_position pf a s w n = (false, pf).
Proof. intros H. unfold close_position. now rewrite H. Qed.

(** C10.  When [close_position] finds the position it returns [True]; a
    final pnl of exactly zero adds one to [loss_count] and leaves
    [win_count] alone; [win_count] grows exactly when the final pnl is
    strictly positive; and each successful close adds one to exactly one
    of the two counters. *)
Theorem close_zero_pnl_counts_as_loss
    (pf : Portfolio) (a : string) (pos : Position) (sell : Q) (w : string) (n : Q) :
  positions pf !! a = Some pos →
  let r := close_position pf a sell w n in
  let pnl := pnl_usd (update_price pos sell) in
  fst r = true ∧
  (pnl == 0 →
     loss_count (snd r) = (loss_count pf + 1)%Z ∧ win_count (snd r) = win_count pf) ∧
  (win_count (snd r) = (win_count pf + 1)%Z ↔ 0 < pnl) ∧
  ((win_count (snd r) = (win_count pf + 1)%Z ∧ loss_count (snd r) = loss_count pf) ∨
   (win_count (snd r) = win_count pf ∧ loss_count (snd r) = (loss_count pf + 1)%Z)).
Proof.
  intros Hpos r pnl. subst r. unfold close_position. rewrite Hpos. cbn [fst snd].
  fold pnl. cbn [win_count loss_count].
  destruct (Qltb 0 pnl) eqn:E.
  - apply Qltb_lt in E. split; [reflexivity|]. split; [|split].
    + intros H0. rewrite H0 in E. now apply Qlt_irrefl in E.
    + split; auto.
    + left. split; reflexivity.
  - apply Qltb_ge in E. split; [reflexivity|]. split; [|split].
    + intros _. split; reflexivity.
    + split; [intros H; lia|].
      intros H. exfalso. apply (Qlt_irrefl 0). eapply Qlt_le_trans; eauto.
    + right. split; reflexivity.
Qed.

Lemma close_zero_pnl_counts_as_loss_witness :
  let pf := add_position (fresh 1000) breakeven_position in
  let r := close_position pf "0xA" 2 "Take profit" 60 in
  fst r = true ∧ loss_count (snd r) = 1%Z ∧ win_count (snd r) = 0%Z.
Proof.
  intros pf r.
  destruct (close_zero_pnl_counts_as_loss pf "0xA" breakeven_position 2
              "Take profit" 60) as (Hret & Hzero & _ & _).
  { reflexivity. }
  split; [exact Hret|]. apply Hzero. reflexivity.
Defined.

(** C2, as the code has it.  [add_position] has no test on the address:
    when the address already holds a position, that position is replaced
    by the new one, every other address keeps its position, the cost
    [quantity * entry_price] is deducted from the cash balance and one buy
    trade is appended to the history. *)
Theorem add_position_overwrites
    (pf : Portfolio) (pos old : Position) :
  positions pf !! token_address pos = Some old →
  let pf' := add_position pf pos in
  positions pf' !! token_address pos = Some pos ∧
  (∀ a, a ≠ token_address pos → positions pf' !! a = positions pf !! a) ∧
  current_balance pf' = current_balance pf - quantity pos * entry_price pos ∧
  ∃ t, trade_history pf' = trade_history pf ++ [t] ∧
       action t = Buy ∧ trade_address t = token_address pos ∧
       value_usd t = quantity pos * entry_price pos.
Proof.
  intros _ pf'. subst pf'. unfold add_position. cbn.
  split; [apply lookup_insert_eq|].
  split; [intros a Ha; now apply lookup_insert_ne|].
  split; [reflexivity|].
  eexists. split; [reflexivity|]. cbn. auto.
Qed.

Lemma add_position_overwrites_witness :
  let pf := add_position (fresh 1000) first_buy in
  positions (add_position pf second_buy) !! "0xA" = Some second_buy.
Proof.
  intros pf.
  apply (add_position_overwrites pf second_buy first_buy).
  reflexivity.
Defined.

(** C2 as stated fails: the address is open, and the second
    [add_position] replaces the position, deducts cash and records a
    trade. *)
Lemma add_position_existing_not_refused :
  let pf := add_position (fresh 1000) first_buy in
  let pf' := add_position pf second_buy in
  positions pf !! "0xA" = Some first_buy ∧
  positions pf' ≠ positions pf ∧
  ¬ current_balance pf' == current_balance pf ∧
  trade_history pf' ≠ trade_history pf.
Proof.
  intros pf pf'. split; [reflexivity|]. split; [|split].
  - intros H. assert (positions pf' !! "0xA" = positions pf !! "0xA") as H'
      by now rewrite H.
    discriminate H'.
  - intros H. vm_compute in H. discriminate H.
  - intros H. apply (f_equal length) in H. discriminate H.
Qed.

End PortfolioFacts.

(** ** When the analyzer raises *)

Section AnalyzerCallFacts.
Import PyNum DexScreener TimeframeAnalyzer TimeframeAggregation.
Local Open Scope Q_scope.

Variable np_percentile : list Q → Q → Q.
Variable np_std : list Q → Q.

(** The score raises exactly at a market cap of -1. *)
Lemma overall_score_none_iff tok tfs t (rr conf : Q) :
  calculate_overall_score tok tfs t rr conf = None ↔ market_cap tok + 1 == 0.
Proof.
  unfold calculate_overall_score. cbv zeta.
  rewrite <- (py_div_none (volume_24h tok)).
  destruct (py_div (volume_24h tok) (market_cap tok + 1)); split; congruence.
Qed.

(** A 24h change of -100 makes the start price of the mock history
    divide by 0. *)
Lemma mock_history_raises tok draw :
  price_change_24h tok == -100 → _generate_mock_price_history tok draw = None.
Proof.
  intros H. unfold _generate_mock_price_history, mock_points. cbv zeta.
  cbn [foldl].
  assert (1 + price_change_24h tok / 100 == 0) as H0
    by (rewrite H; reflexivity).
  now rewrite (proj2 (py_div_none (price_usd tok) _) H0).
Qed.

(** The history of the first label starts with the start price times
    one plus the first draw. *)
Lemma mock_history_first tok draw history :
  _generate_mock_price_history tok draw = Some history →
  ∃ start rest,
    start == price_usd tok / (1 + price_change_24h tok / 100) ∧
    history !! "1h"%string
    = Some (start * (1 + draw "1h"%string 0%nat) :: rest).
Proof.
  unfold _generate_mock_price_history, mock_points. cbv zeta. cbn [foldl].
  destruct (py_div (price_usd tok) (1 + price_change_24h tok / 100))
    as [start|] eqn:E; [|discriminate].
  apply py_div_inv in E as [E _].
  intros [= <-]. exists start. eexists. split; [now rewrite E|].
  rewrite !lookup_insert_ne by discriminate. rewrite lookup_insert_eq.
  reflexivity.
Qed.

(** A first price of 0 makes the price change of [analyze_timeframe]
    divide by 0. *)
Lemma analyze_timeframe_raises tok tf first rest volumes :
  first == 0 →
  analyze_timeframe np_percentile np_std tok tf (first :: rest) volumes = None.
Proof.
  intros H. unfold analyze_timeframe.
  now rewrite (proj2 (py_div_none _ first) H).
Qed.

(** Three inputs at which the call without history raises, whatever the
    random draws are: a 24h change of -100 (the start price of the mock
    history), a price of 0 (every generated price is 0, and the price
    change of the first timeframe divides by the first of them), and a
    market cap of -1 (the volume ratio of the overall score). *)
Lemma analyzer_raises tok run :
  price_change_24h tok == -100 ∨ price_usd tok == 0 ∨ market_cap tok == -1 →
  analyze_token_without_history np_percentile np_std tok run = Raised.
Proof.
  intros H. unfold analyze_token_without_history.
  destruct (_generate_mock_price_history tok (normal run))
    as [price_history|] eqn:Eh; [|reflexivity].
  destruct H as [H|[H|H]].
  - rewrite (mock_history_raises tok _ H) in Eh. discriminate.
  - destruct (mock_history_first _ _ _ Eh) as (start & rest & Hs & Hl).
    unfold analyze_timeframes, timeframe_labels. cbn [foldl]. rewrite Hl.
    unfold default. cbn [from_option id].
    rewrite analyze_timeframe_raises; [reflexivity|].
    rewrite Hs, H. unfold Qdiv. ring.
  - destruct (analyze_timeframes _ _ _ _ _) as [tfs|]; [|reflexivity].
    unfold aggregate_metrics.
    destruct (calculate_overall_trend tfs) as [trend|]; [|reflexivity].
    rewrite (proj2 (overall_score_none_iff tok tfs trend _ _));
      [reflexivity | rewrite H; reflexivity].
Qed.

End AnalyzerCallFacts.

(** ** Position sizing and exit rules of the agent *)

Section AgentFacts.
Import PyNum DexScreener PortfolioTracker TradingAgent Specification Scenarios.
Local Open Scope Q_scope.

Lemma clamp_inside (x : Q) : 0 <= x → x <= 1 → clamp x 0 1 == x.
Proof.
  intros H0 H1. unfold clamp, py_max, py_min.
  destruct (Qltb 1 x) eqn:E1.
  { apply Qltb_lt in E1. lra. }
  destruct (Qltb 0 x) eqn:E0; [reflexivity|].
  apply Qltb_ge in E0. lra.
Qed.

(** On the upper half of the confidence scale the code and the
    specification's formula agree. *)
Lemma position_size_agrees_from_50 ag (token_price confidence : Q) :
  50 <= confidence → confidence <= 100 → 0 < token_price →
  calculate_position_size ag token_price confidence
  == spec_position_size ag token_price confidence.
Proof.
  intros Hlo Hhi Hp. unfold calculate_position_size, spec_position_size.
  apply Qltb_lt in Hp. rewrite Hp.
  rewrite (clamp_inside ((confidence - 50) / 50)).
  - assert (0.10 == 0.1) as -> by reflexivity. reflexivity.
  - apply Qle_shift_div_l; lra.
  - apply Qle_shift_div_r; lra.
Qed.

Lemma clamp_below (x : Q) : x < 0 → clamp x 0 1 = 0.
Proof.
  intros H. unfold clamp, py_max, py_min.
  destruct (Qltb 1 x) eqn:E1.
  { apply Qltb_lt in E1. lra. }
  destruct (Qltb 0 x) eqn:E0; [|reflexivity].
  apply Qltb_lt in E0. lra.
Qed.

(** Below confidence 50 the code invests strictly less than the clamped
    formula, which stays at 10% of the available capital. *)
Lemma position_size_short_below_50 ag (token_price confidence : Q) :
  confidence < 50 → 0 < token_price → 0 < get_available_capital ag →
  calculate_position_size ag token_price confidence
  < spec_position_size ag token_price confidence.
Proof.
  intros Hc Hp Ha. unfold calculate_position_size, spec_position_size.
  apply Qltb_lt in Hp as Hpb. rewrite Hpb.
  assert ((confidence - 50) / 50 < 0) as Hx
    by (apply Qlt_shift_div_r; lra).
  rewrite (clamp_below _ Hx).
  unfold Qdiv at 1 3. apply Qmult_lt_r; [now apply Qinv_lt_0_compat|].
  apply Qmult_lt_l; [exact Ha|]. lra.
Qed.

(** C5 at confidence 0: an agent with 1000 in cash has 500 of available
    capital; at price 1 the code sizes the position at 0 (an invested
    fraction of 0%), where the clamped formula gives 50 (10%). *)
Theorem position_size_at_zero_confidence :
  get_available_capital (init 1000) == 500 ∧
  calculate_position_size (init 1000) 1 0 == 0 ∧
  spec_position_size (init 1000) 1 0 == 50.
Proof. repeat split; vm_compute; reflexivity. Qed.

Lemma exit_rule_stop_loss fmt1 ag position an now :
  pnl_percent position <= - stop_loss_pct ag →
  exit_rule fmt1 ag position an now
  = Some (stop_loss_reason fmt1 (pnl_percent position)).
Proof.
  intros H. unfold exit_rule. apply Qleb_le in H. now rewrite H.
Qed.

(** C6 as stated fails.  The position of the scenario (entry 1.0,
    quantity 100) is quoted at 0.84, a pnl_percent of -16, by a token
    whose 24h change is -100.  The analyzer is called between the price
    update and the stop-loss test; its mock history divides by
    [1 + price_change_24h / 100], which is 0 here, so the call raises
    and the exit evaluation emits no decision, whatever the random
    draws and the clock are. *)
Lemma stop_loss_lost_to_analyzer_error :
  pnl_percent (update_price falling_position (price_usd wiped_token)) == -16 ∧
  positions (portfolio falling_agent) !! address wiped_token
  = Some falling_position ∧
  ∀ np_percentile np_std run now,
    fst (_analyze_existing_position np_percentile np_std sample_fmt1
           falling_agent wiped_token run now) = Raised.
Proof.
  split; [reflexivity|]. split; [reflexivity|].
  intros np_percentile np_std run now. reflexivity.
Qed.

(** C6, as the code has it.  With the stop loss at 15%, whenever the
    position's pnl_percent after the price update is at most -15 and
    the call of the analyzer that follows the update returns, the exit
    evaluation returns a sell decision with confidence 90 whose reason
    is the stop-loss text, whatever the take-profit targets, the trend
    of the analysis, the strategy preference and the holding time are.
    When the call of the analyzer raises, the exit evaluation raises as
    well and emits no decision; this is the case, whatever the random
    draws are, for a token with a 24h change of -100, a price of 0 or a
    market cap of -1. *)
Theorem stop_loss_wins
    (np_percentile : list Q → Q → Q) (np_std : list Q → Q)
    (fmt1 : Q → string) (ag : AITradingAgent) (tok : TokenData)
    (run : TimeframeAggregation.AnalyzerRun) (now : Q) (pos : Position) :
  stop_loss_pct ag == 15 →
  positions (portfolio ag) !! address tok = Some pos →
  pnl_percent (update_price pos (price_usd tok)) <= -15 →
  (TimeframeAggregation.analyze_token_without_history
     np_percentile np_std tok run ≠ Raised →
   ∃ d, fst (_analyze_existing_position np_percentile np_std fmt1
               ag tok run now) = Returned (Some d) ∧
        d_action d = DSell ∧ d_confidence d = 90 ∧
        d_reason d
        = stop_loss_reason fmt1
            (pnl_percent (update_price pos (price_usd tok))) ∧
        String.prefix "Stop loss" (d_reason d) = true) ∧
  (TimeframeAggregation.analyze_token_without_history
     np_percentile np_std tok run = Raised →
   fst (_analyze_existing_position np_percentile np_std fmt1 ag tok run now)
   = Raised) ∧
  (price_change_24h tok == -100 ∨ price_usd tok == 0 ∨ market_cap tok == -1 →
   fst (_analyze_existing_position np_percentile np_std fmt1 ag tok run now)
   = Raised).
Proof.
  intros Hsl Hpos Hpnl.
  assert (TimeframeAggregation.analyze_token_without_history
            np_percentile np_std tok run = Raised →
          fst (_analyze_existing_position np_percentile np_std fmt1
                 ag tok run now) = Raised) as Hraise.
  { intros E. unfold _analyze_existing_position. now rewrite Hpos, E. }
  split; [|split; [exact Hraise|]].
  - unfold _analyze_existing_position. rewrite Hpos.
    destruct (TimeframeAggregation.analyze_token_without_history _ _ tok run)
      as [an|]; [intros _ | congruence].
    rewrite exit_rule_stop_loss by (rewrite Hsl; exact Hpnl).
    eexists. split; [reflexivity|]. cbn [d_action d_confidence d_reason].
    repeat split.
  - intros H. apply Hraise. now apply analyzer_raises.
Qed.

(** The scenario of the specification: entry 1.0, quantity 100, price
    0.84, hence a pnl_percent of -16; the token's 24h change is -16 and
    the analyzer returns. *)
Lemma stop_loss_wins_witness :
  pnl_percent (update_price falling_position 0.84) == -16 ∧
  ∃ d, fst (_analyze_existing_position sample_percentile sample_std
              sample_fmt1 falling_agent falling_token calm_run 7200)
       = Returned (Some d) ∧
       d_action d = DSell ∧ d_confidence d = 90 ∧
       String.prefix "Stop loss" (d_reason d) = true.
Proof.
  split; [reflexivity|].
  destruct (stop_loss_wins sample_percentile sample_std sample_fmt1
              falling_agent falling_token calm_run 7200 falling_position)
    as [Hret _].
  - reflexivity.
  - reflexivity.
  - vm_compute. discriminate.
  - destruct Hret as (d & H1 & H2 & H3 & _ & H5).
    + vm_compute. discriminate.
    + exists d. auto.
Defined.

End AgentFacts.

(** ** Volume trend *)

Section VolumeTrendFacts.
Import PyNum TimeframeAnalyzer.
Local Open Scope Q_scope.

Lemma Qltb_div_r (x b c : Q) : 0 < c → Qltb x (b / c) = true ↔ x * c < b.
Proof.
  intros Hc. rewrite Qltb_lt. split; intros H.
  - destruct (Qlt_le_dec (x * c) b) as [|Hle]; [assumption|].
    apply (Qle_shift_div_r _ _ _ Hc) in Hle. lra.
  - now apply Qlt_shift_div_l.
Qed.

Lemma Qltb_div_l (x b c : Q) : 0 < c → Qltb (b / c) x = true ↔ b < x * c.
Proof.
  intros Hc. rewrite Qltb_lt. split; intros H.
  - destruct (Qlt_le_dec b (x * c)) as [|Hle]; [assumption|].
    apply (Qle_shift_div_l _ _ _ Hc) in Hle. lra.
  - now apply Qlt_shift_div_r.
Qed.

(** The three outcomes of [calculate_volume_trend] on a series of at
    least two elements, in terms of the two half means. *)
Lemma volume_trend_cases (volumes : list Q) :
  (2 <= length volumes)%nat →
  let a := np_mean (first_half volumes) in
  let b := np_mean (second_half volumes) in
  0 < a + 1 →
  (1.3 * (a + 1) < b → calculate_volume_trend volumes = Increasing) ∧
  (b <= 1.3 * (a + 1) → b < 0.7 * (a + 1) →
     calculate_volume_trend volumes = Decreasing) ∧
  (b <= 1.3 * (a + 1) → 0.7 * (a + 1) <= b →
     calculate_volume_trend volumes = Stable).
Proof.
  intros Hlen a b Ha. unfold calculate_volume_trend.
  replace (length volumes <? 2)%nat with false
    by (symmetry; apply Nat.ltb_ge; exact Hlen).
  fold a b.
  destruct (Qltb 1.3 (b / (a + 1))) eqn:E1.
  - apply Qltb_div_r in E1; [|exact Ha]. repeat split; intros; try reflexivity; lra.
  - assert (b <= 1.3 * (a + 1)) as Hle.
    { destruct (Qlt_le_dec (1.3 * (a + 1)) b) as [Hlt|]; [|assumption].
      apply (Qltb_div_r _ _ _ Ha) in Hlt. congruence. }
    destruct (Qltb (b / (a + 1)) 0.7) eqn:E2.
    + apply Qltb_div_l in E2; [|exact Ha].
      repeat split; intros; try reflexivity; lra.
    + assert (0.7 * (a + 1) <= b) as Hge.
      { destruct (Qlt_le_dec b (0.7 * (a + 1))) as [Hlt|]; [|assumption].
        apply (Qltb_div_l _ _ _ Ha) in Hlt. congruence. }
      repeat split; intros; try reflexivity; lra.
Qed.

(** C4, as the code has it.  The ratio is the second-half mean over the
    first-half mean plus one.  For a series of at least two elements with
    a non-negative first-half mean [a]: a second-half mean of [2a] is
    increasing when [a > 13/7], stable when [7/13 <= a <= 13/7] and
    decreasing when [a < 7/13]; a second-half mean of [a/2] is decreasing;
    equal means are stable when [a >= 7/3] and decreasing when [a < 7/3]. *)
Theorem volume_trend_against_shifted_mean (volumes : list Q) :
  (2 <= length volumes)%nat →
  let a := np_mean (first_half volumes) in
  let b := np_mean (second_half volumes) in
  0 <= a →
  (b == 2 * a →
     (13 / 7 < a → calculate_volume_trend volumes = Increasing) ∧
     (7 / 13 <= a → a <= 13 / 7 → calculate_volume_trend volumes = Stable) ∧
     (a < 7 / 13 → calculate_volume_trend volumes = Decreasing)) ∧
  (b == 0.5 * a → calculate_volume_trend volumes = Decreasing) ∧
  (b == a →
     (7 / 3 <= a → calculate_volume_trend volumes = Stable) ∧
     (a < 7 / 3 → calculate_volume_trend volumes = Decreasing)).
Proof.
  intros Hlen a b Ha.
  destruct (volume_trend_cases volumes Hlen) as (Hinc & Hdec & Hst).
  { fold a. lra. }
  fold a b in Hinc, Hdec, Hst.
  assert (13 / 7 == 13 # 7) as E1 by reflexivity.
  assert (7 / 13 == 7 # 13) as E2 by reflexivity.
  assert (7 / 3 == 7 # 3) as E3 by reflexivity.
  rewrite E1, E2, E3.
  split; [|split].
  - intros Hb. split; [|split].
    + intros H. apply Hinc. lra.
    + intros H1 H2. apply Hst; lra.
    + intros H. apply Hdec; lra.
  - intros Hb. apply Hdec; lra.
  - intros Hb. split.
    + intros H. apply Hst; lra.
    + intros H. apply Hdec; lra.
Qed.

Lemma volume_trend_against_shifted_mean_witness :
  calculate_volume_trend [2; 2; 4; 4] = Increasing ∧
  calculate_volume_trend [4; 2] = Decreasing ∧
  calculate_volume_trend [3; 3] = Stable.
Proof.
  split; [|split].
  - destruct (volume_trend_against_shifted_mean [2; 2; 4; 4]) as ((H & _) & _).
    + simpl. lia.
    + vm_compute. discriminate.
    + reflexivity.
    + apply H. reflexivity.
  - destruct (volume_trend_against_shifted_mean [4; 2]) as (_ & H & _).
    + simpl. lia.
    + vm_compute. discriminate.
    + apply H. reflexivity.
  - destruct (volume_trend_against_shifted_mean [3; 3]) as (_ & _ & H & _).
    + simpl. lia.
    + vm_compute. discriminate.
    + reflexivity.
    + apply H. vm_compute. discriminate.
Defined.

(** C4 as stated fails: in [1; 2] the second-half mean is twice the
    first-half mean and the series is classified stable; in [1; 1] the
    half means are equal and the series is classified decreasing. *)
Lemma volume_trend_doubling_is_stable :
  (2 <= length [1; 2])%nat ∧
  np_mean (second_half [1; 2]) == 2 * np_mean (first_half [1; 2]) ∧
  calculate_volume_trend [1; 2] = Stable ∧
  calculate_volume_trend [1; 2] ≠ Increasing ∧
  np_mean (second_half [1; 1]) == np_mean (first_half [1; 1]) ∧
  calculate_volume_trend [1; 1] = Decreasing ∧
  calculate_volume_trend [1; 1] ≠ Stable.
Proof.
  repeat split; try (vm_compute; reflexivity); try (simpl; lia);
    vm_compute; discriminate.
Qed.

End VolumeTrendFacts.

(** ** Risk/reward ratio *)

Section RiskRewardFacts.
Import PyNum DexScreener TimeframeAnalyzer Scenarios.
Local Open Scope Q_scope.

Lemma is_empty_true {A} (l : list A) : is_empty l = true ↔ l = [].
Proof. destruct l; simpl; split; congruence. Qed.

(** A comprehension [[level(tf) for tf in values if level(tf) > 0]] is
    empty exactly when no timeframe of the dictionary has a positive
    level. *)
Lemma positive_levels_nil (level : TimeframeData → Q)
    (tfs : gmap string TimeframeData) :
  level <$> filter (λ tf, Qltb 0 (level tf) = true) (tf_values tfs) = [] ↔
  ∀ k tf, tfs !! k = Some tf → level tf <= 0.
Proof.
  unfold tf_values. split.
  - intros H k tf Hk. apply fmap_nil_inv in H.
    destruct (Qlt_le_dec 0 (level tf)) as [Hpos|]; [|assumption].
    exfalso. apply (filter_nil_not_elem_of _ _ tf H).
    + now apply Qltb_lt.
    + apply list_elem_of_fmap. exists (k, tf). split; [reflexivity|].
      now apply elem_of_map_to_list.
  - intros H.
    destruct (filter _ _) as [|tf l] eqn:E; [reflexivity|exfalso].
    assert (tf ∈ filter (λ tf, Qltb 0 (level tf) = true)
                   (map_to_list tfs).*2) as Hin by (rewrite E; left).
    apply list_elem_of_filter in Hin as [Hpos Hin].
    apply list_elem_of_fmap in Hin as ([k tf'] & -> & Hin).
    apply elem_of_map_to_list in Hin. apply Qltb_lt in Hpos.
    specialize (H _ _ Hin). simpl in *. lra.
Qed.

Lemma supports_nil (tfs : gmap string TimeframeData) :
  supports tfs = [] ↔ ∀ k tf, tfs !! k = Some tf → support_level tf <= 0.
Proof. apply (positive_levels_nil support_level). Qed.

Lemma resistances_nil (tfs : gmap string TimeframeData) :
  resistances tfs = [] ↔ ∀ k tf, tfs !! k = Some tf → resistance_level tf <= 0.
Proof. apply (positive_levels_nil resistance_level). Qed.

Lemma risk_reward_range tok tfs :
  0 <= calculate_risk_reward tok tfs ∧ calculate_risk_reward tok tfs <= 3.
Proof.
  unfold calculate_risk_reward.
  destruct (is_empty (supports tfs) || is_empty (resistances tfs)).
  { split; lra. }
  set (loss := Qabs (price_usd tok - np_mean (supports tfs))).
  set (gain := Qabs (np_mean (resistances tfs) - price_usd tok)).
  destruct (Qeq_bool loss 0) eqn:E.
  { split; lra. }
  apply Qeq_bool_neq in E.
  pose proof (Qabs_nonneg (price_usd tok - np_mean (supports tfs))) as Hl.
  pose proof (Qabs_nonneg (np_mean (resistances tfs) - price_usd tok)) as Hg.
  fold loss in Hl. fold gain in Hg.
  assert (0 < loss) as Hpos.
  { destruct (Qlt_le_dec 0 loss) as [|Hle]; [assumption|].
    exfalso. apply E. lra. }
  split.
  - apply py_min_glb; [|lra]. apply Qle_shift_div_l; [exact Hpos|lra].
  - apply py_min_le_r.
Qed.

(** C7.  [calculate_risk_reward] always lies in [0,3]; it is 1 when no
    timeframe has a positive support level or none has a positive
    resistance level; and, past that default, it is 3 when the token
    price equals the average of the positive support levels. *)
Theorem risk_reward_bounds_and_defaults
    (tok : TokenData) (tfs : gmap string TimeframeData) :
  (0 <= calculate_risk_reward tok tfs ∧ calculate_risk_reward tok tfs <= 3) ∧
  ((∀ k tf, tfs !! k = Some tf → support_level tf <= 0) ∨
   (∀ k tf, tfs !! k = Some tf → resistance_level tf <= 0) →
   calculate_risk_reward tok tfs = 1) ∧
  ((∃ k tf, tfs !! k = Some tf ∧ 0 < support_level tf) →
   (∃ k tf, tfs !! k = Some tf ∧ 0 < resistance_level tf) →
   price_usd tok == np_mean (supports tfs) →
   calculate_risk_reward tok tfs = 3).
Proof.
  split; [apply risk_reward_range|]. split.
  - intros H. unfold calculate_risk_reward.
    destruct H as [H|H].
    + apply supports_nil in H. now rewrite H.
    + apply resistances_nil in H. rewrite H. now rewrite orb_true_r.
  - intros (k1 & tf1 & Hk1 & Hs) (k2 & tf2 & Hk2 & Hr) Hprice.
    unfold calculate_risk_reward.
    destruct (is_empty (supports tfs)) eqn:Es.
    { apply is_empty_true in Es.
      pose proof (proj1 (supports_nil tfs) Es _ _ Hk1). lra. }
    destruct (is_empty (resistances tfs)) eqn:Er.
    { apply is_empty_true in Er.
      pose proof (proj1 (resistances_nil tfs) Er _ _ Hk2). lra. }
    cbn [orb].
    assert (Qabs (price_usd tok - np_mean (supports tfs)) == 0) as Hz.
    { rewrite Hprice.
      assert (np_mean (supports tfs) - np_mean (supports tfs) == 0) as -> by ring.
      reflexivity. }
    apply Qeq_eq_bool in Hz. now rewrite Hz.
Qed.

Lemma risk_reward_bounds_and_defaults_witness :
  calculate_risk_reward token_at_support {[ "1h"%string := no_levels_timeframe ]} = 1 ∧
  calculate_risk_reward token_at_support {[ "1h"%string := flat_timeframe ]} = 3.
Proof.
  split.
  - apply (risk_reward_bounds_and_defaults token_at_support
             {[ "1h"%string := no_levels_timeframe ]}).
    left. intros k tf H. apply lookup_singleton_Some in H as [_ <-].
    vm_compute. discriminate.
  - apply (risk_reward_bounds_and_defaults token_at_support
             {[ "1h"%string := flat_timeframe ]}).
    + exists "1h"%string, flat_timeframe. split; [apply lookup_singleton_eq|reflexivity].
    + exists "1h"%string, flat_timeframe. split; [apply lookup_singleton_eq|reflexivity].
    + vm_compute. reflexivity.
Defined.

End RiskRewardFacts.

(** ** Reference-profile filter *)

Section ProfileFacts.
Import PyNum DexScreener TokenSimilarity Specification Scenarios.
Local Open Scope Q_scope.

Variable age_of : string → option Q.

Lemma insert_desc_perm x l : insert_desc x l ≡ₚ x :: l.
Proof.
  induction l as [|y l IH]; simpl; [reflexivity|].
  destruct (Qltb (similarity_score x) (similarity_score y)); [|reflexivity].
  rewrite IH. apply Permutation_swap.
Qed.

Lemma sort_desc_perm l : sort_desc l ≡ₚ l.
Proof.
  induction l as [|x l IH]; simpl; [reflexivity|].
  rewrite insert_desc_perm. now rewrite IH.
Qed.

Lemma insert_desc_hd x y l :
  similarity_score x <= similarity_score y →
  HdRel score_desc y l → HdRel score_desc y (insert_desc x l).
Proof.
  intros Hxy Hhd. destruct l as [|z l]; simpl.
  - constructor. exact Hxy.
  - destruct (Qltb (similarity_score x) (similarity_score z)).
    + constructor. now inversion Hhd.
    + constructor. exact Hxy.
Qed.

Lemma insert_desc_sorted x l :
  Sorted score_desc l → Sorted score_desc (insert_desc x l).
Proof.
  induction 1 as [|y l Hs IH Hhd]; simpl.
  - repeat constructor.
  - destruct (Qltb (similarity_score x) (similarity_score y)) eqn:E.
    + apply Qltb_lt in E. constructor; [exact IH|].
      apply insert_desc_hd; [now apply Qlt_le_weak | exact Hhd].
    + apply Qltb_ge in E. constructor.
      * now constructor.
      * constructor. exact E.
Qed.

Lemma sort_desc_sorted l : Sorted score_desc (sort_desc l).
Proof.
  induction l as [|x l IH]; simpl; [constructor|].
  now apply insert_desc_sorted.
Qed.

Lemma score_desc_trans : Relations_1.Transitive score_desc.
Proof. intros x y z Hxy Hyz. unfold score_desc in *. lra. Qed.

Lemma volume_ratio_defined t :
  ¬ market_cap t + 1 == 0 →
  volume_to_mcap_of t = Some (volume_24h t / (market_cap t + 1)).
Proof. apply py_div_some. Qed.

Lemma opportunity_defined t :
  ¬ market_cap t + 1 == 0 →
  _calculate_opportunity t
  = Some (py_minZ (0 + volume_points (volume_24h t / (market_cap t + 1))
                   + momentum_points t + liquidity_points t
                   + mcap_points t)%Z 100).
Proof.
  intros H. unfold _calculate_opportunity.
  now rewrite (volume_ratio_defined t H).
Qed.

(** The record appended for a token: it exists whenever the market cap
    is not -1, and it carries the token and its opportunity score. *)
Lemma profile_metrics_defined t :
  ¬ market_cap t + 1 == 0 →
  ∃ m, profile_metrics age_of t = Some m.
Proof.
  intros H. unfold profile_metrics, analyze_token, _analyze_volume,
    _analyze_liquidity.
  rewrite (volume_ratio_defined t H), (py_div_some _ _ H),
    (opportunity_defined t H).
  eexists. reflexivity.
Qed.

Lemma profile_metrics_inv t m :
  profile_metrics age_of t = Some m →
  sm_token m = t ∧
  ∃ score, _calculate_opportunity t = Some score ∧
           similarity_score m = inject_Z score / 100.
Proof.
  unfold profile_metrics, analyze_token.
  destruct (_analyze_volume t); [|discriminate].
  destruct (_analyze_liquidity t); [|discriminate].
  destruct (_calculate_opportunity t) as [score|]; [|discriminate].
  intros [= <-]. split; [reflexivity|]. exists score. split; reflexivity.
Qed.

(** The three gates, and the division between the first and the second:
    a token passes exactly when the five comparisons hold. *)
Lemma passes_gates_iff profile t :
  passes_gates profile t = Some true ↔
  (market_cap_range profile).1 <= market_cap t ∧
  market_cap t <= (market_cap_range profile).2 ∧
  ¬ market_cap t + 1 == 0 ∧
  (volume_to_mcap_ratio profile).1 <= volume_24h t / (market_cap t + 1) ∧
  volume_24h t / (market_cap t + 1) <= (volume_to_mcap_ratio profile).2 ∧
  liquidity_threshold profile <= liquidity_usd t.
Proof.
  unfold passes_gates, volume_to_mcap_of.
  destruct (Qleb (market_cap_range profile).1 (market_cap t)) eqn:E1;
    [apply Qleb_le in E1 | apply Qleb_gt in E1; split; [discriminate | lra]].
  destruct (Qleb (market_cap t) (market_cap_range profile).2) eqn:E2;
    [apply Qleb_le in E2 | apply Qleb_gt in E2; split; [discriminate | lra]].
  cbn [andb negb].
  destruct (py_div (volume_24h t) (market_cap t + 1)) as [r|] eqn:Er.
  - apply py_div_inv in Er as [-> Hne].
    destruct (Qleb (volume_to_mcap_ratio profile).1 _) eqn:E3;
      [apply Qleb_le in E3 | apply Qleb_gt in E3; split; [discriminate | lra]].
    destruct (Qleb _ (volume_to_mcap_ratio profile).2) eqn:E4;
      [apply Qleb_le in E4 | apply Qleb_gt in E4; split; [discriminate | lra]].
    cbn [andb negb].
    destruct (Qltb (liquidity_usd t) (liquidity_threshold profile)) eqn:E5;
      [apply Qltb_lt in E5; split; [discriminate | lra] | apply Qltb_ge in E5].
    split; [intros _; repeat split; assumption | reflexivity].
  - apply py_div_none in Er. split; [discriminate | tauto].
Qed.

(** With a lower market-cap bound above -1 the gates never raise: the
    division is only reached by tokens inside the range. *)
Lemma passes_gates_defined profile t :
  -1 < (market_cap_range profile).1 → ∃ b, passes_gates profile t = Some b.
Proof.
  intros Hlo. unfold passes_gates.
  destruct (Qleb (market_cap_range profile).1 (market_cap t)) eqn:E1;
    [apply Qleb_le in E1 | eauto].
  destruct (Qleb (market_cap t) (market_cap_range profile).2); [|eauto].
  cbn [andb negb]. rewrite volume_ratio_defined by lra.
  repeat match goal with
  | |- context [if ?c then _ else _] => destruct c
  end; eauto.
Qed.

(** The filter loop returns for both reference profiles, and it keeps
    exactly the candidates that pass the gates. *)
Lemma collect_spec profile candidates :
  -1 < (market_cap_range profile).1 →
  ∃ filtered, collect age_of profile candidates = Some filtered ∧
    ∀ m, m ∈ filtered ↔
         ∃ t, t ∈ candidates ∧ passes_gates profile t = Some true
              ∧ profile_metrics age_of t = Some m.
Proof.
  intros Hlo. induction candidates as [|t rest (filtered & IHc & IH)].
  - exists []. split; [reflexivity|]. intros m.
    split; [intros H; inversion H | intros (t & H & _); inversion H].
  - cbn [collect]. rewrite IHc.
    destruct (passes_gates_defined profile t Hlo) as ([|] & E); rewrite E.
    + assert (¬ market_cap t + 1 == 0) as Hne by (apply passes_gates_iff in E; tauto).
      destruct (profile_metrics_defined t Hne) as (m0 & Em). rewrite Em.
      exists (m0 :: filtered). split; [reflexivity|]. intros m.
      rewrite elem_of_cons, IH. split.
      * intros [->|(t' & Hin & Hg & Hm)].
        -- exists t. split; [left|]. split; assumption.
        -- exists t'. split; [now right|]. split; assumption.
      * intros (t' & Hin & Hg & Hm). apply elem_of_cons in Hin as [->|Hin].
        -- left. congruence.
        -- right. exists t'. split; [exact Hin|]. split; assumption.
    + exists filtered. split; [reflexivity|]. intros m. rewrite IH. split.
      * intros (t' & Hin & Hg & Hm). exists t'. split; [now right|]. split; assumption.
      * intros (t' & Hin & Hg & Hm). apply elem_of_cons in Hin as [->|Hin].
        -- congruence.
        -- exists t'. split; [exact Hin|]. split; assumption.
Qed.

Lemma reference_profile_bound profile :
  profile = dust_profile ∨ profile = priceless_profile →
  -1 < (market_cap_range profile).1.
Proof. intros [-> | ->]; reflexivity. Qed.

(** C8.  [find_dust_like_tokens] returns for every candidate list.
    Every entry it returns comes from a candidate whose market cap lies
    in [1,000,000, 50,000,000]; in particular no entry has a market cap
    of 60,000,000, whatever the opportunity score.  Each entry's
    similarity score is the token's opportunity score divided by 100,
    the result holds exactly the candidates that pass the three gates,
    and it is sorted by similarity score in descending order. *)
Theorem dust_gate_and_order (candidates : list TokenData) :
  ∃ out, find_dust_like_tokens age_of candidates = Some out ∧
  (∀ m, m ∈ out →
     sm_token m ∈ candidates ∧
     1_000_000 <= market_cap (sm_token m) ∧
     market_cap (sm_token m) <= 50_000_000 ∧
     ¬ market_cap (sm_token m) == 60_000_000 ∧
     ∃ score, _calculate_opportunity (sm_token m) = Some score ∧
              similarity_score m = inject_Z score / 100) ∧
  (∃ filtered, collect age_of dust_profile candidates = Some filtered ∧
               out ≡ₚ filtered) ∧
  StronglySorted score_desc out.
Proof.
  destruct (collect_spec dust_profile candidates) as (filtered & Hc & Hin);
    [reflexivity|].
  exists (sort_desc filtered). unfold find_dust_like_tokens. rewrite Hc.
  split; [reflexivity|]. split; [|split].
  - intros m Hm. rewrite sort_desc_perm in Hm.
    apply Hin in Hm as (t & Ht & Hg & Hm).
    apply profile_metrics_inv in Hm as (-> & Hscore).
    apply passes_gates_iff in Hg as (Hlo & Hhi & _). cbn in Hlo, Hhi.
    repeat split; try assumption.
    intros H60. rewrite H60 in Hhi. vm_compute in Hhi. now apply Hhi.
  - exists filtered. split; [reflexivity | apply sort_desc_perm].
  - apply Sorted_StronglySorted; [apply score_desc_trans | apply sort_desc_sorted].
Qed.

End ProfileFacts.

Section ProfileScenario.
Import PyNum DexScreener TokenSimilarity Specification Scenarios.
Local Open Scope Q_scope.

(** The scenario of the specification: a candidate with a market cap of
    60,000,000 is dropped although nothing else speaks against it, and
    the candidate inside the range is returned. *)
Lemma oversized_token_rejected :
  ∃ m, profile_metrics no_age dust_sized_token = Some m ∧
       find_dust_like_tokens no_age [oversized_token; dust_sized_token]
       = Some [m].
Proof. eexists. split; vm_compute; reflexivity. Qed.

Lemma dust_gate_and_order_witness :
  ∃ out m,
    find_dust_like_tokens no_age [oversized_token; dust_sized_token] = Some out ∧
    m ∈ out ∧ sm_token m = dust_sized_token ∧
    market_cap (sm_token m) <= 50_000_000 ∧
    ¬ market_cap (sm_token m) == 60_000_000.
Proof.
  destruct (dust_gate_and_order no_age [oversized_token; dust_sized_token])
    as (out & Hout & Hall & _).
  destruct oversized_token_rejected as (m & Hm & Hfound).
  rewrite Hfound in Hout. injection Hout as <-.
  assert (m ∈ [m]) as Hin by left.
  destruct (Hall _ Hin) as (_ & _ & Hhi & H60 & _).
  exists [m], m. split; [exact Hfound|]. split; [exact Hin|].
  split; [|split; [exact Hhi | exact H60]].
  vm_compute in Hm. injection Hm as <-. reflexivity.
Defined.

End ProfileScenario.

(** ** Sums over the positions dictionary and the price-update pass *)

Section UpdateFacts.
Import PyNum PortfolioTracker Specification.
Local Open Scope Q_scope.

Lemma Qsum_fmap_perm {A} (g : A → Q) (l1 l2 : list A) :
  l1 ≡ₚ l2 → Qsum (g <$> l1) == Qsum (g <$> l2).
Proof. intros H. apply Qsum_perm. now apply fmap_Permutation. Qed.

Lemma Qsum_fmap_ext {A} (g h : A → Q) (l : list A) :
  (∀ x, x ∈ l → g x == h x) → Qsum (g <$> l) == Qsum (h <$> l).
Proof.
  induction l as [|x l IH]; intros H; [reflexivity|].
  rewrite !fmap_cons, !Qsum_cons, IH.
  - rewrite (H x); [reflexivity | left].
  - intros y Hy. apply H. now right.
Qed.

Lemma Qsum_fmap_plus {A} (g h : A → Q) (l : list A) :
  Qsum ((λ x, g x + h x) <$> l) == Qsum (g <$> l) + Qsum (h <$> l).
Proof.
  induction l as [|x l IH]; [reflexivity|].
  rewrite !fmap_cons, !Qsum_cons, IH. ring.
Qed.

Lemma Qsum_map_insert {A} (g : string * A → Q) (m : gmap string A) i x :
  m !! i = None →
  Qsum (g <$> map_to_list (<[i:=x]> m)) == g (i, x) + Qsum (g <$> map_to_list m).
Proof.
  intros H. rewrite (Qsum_fmap_perm g _ _ (map_to_list_insert m i x H)).
  reflexivity.
Qed.

Lemma Qsum_map_delete {A} (g : string * A → Q) (m : gmap string A) i x :
  m !! i = Some x →
  Qsum (g <$> map_to_list m) == g (i, x) + Qsum (g <$> map_to_list (delete i m)).
Proof.
  intros H. rewrite <- (Qsum_fmap_perm g _ _ (map_to_list_delete m i x H)).
  reflexivity.
Qed.

(** Sums over [values] are sums over the entries. *)
Lemma Qsum_values {A} (g : A → Q) (m : gmap string A) :
  g <$> values m = (λ kv, g kv.2) <$> map_to_list m.
Proof. unfold values. now rewrite <- list_fmap_compose. Qed.

Lemma refresh_map_lookup pu (m : gmap string Position) a :
  refresh_map pu m !! a = refresh pu a <$> m !! a.
Proof.
  unfold refresh_map. rewrite map_lookup_imap. now destruct (m !! a).
Qed.

Lemma refresh_map_insert pu (m : gmap string Position) i x :
  refresh_map pu (<[i:=x]> m) = <[i := refresh pu i x]> (refresh_map pu m).
Proof.
  apply map_eq. intros a. rewrite refresh_map_lookup.
  destruct (decide (i = a)) as [->|Hne].
  - now rewrite !lookup_insert_eq.
  - rewrite !lookup_insert_ne by assumption. now rewrite refresh_map_lookup.
Qed.

Lemma Qsum_refresh_map (h : string * Position → Q) pu (m : gmap string Position) :
  Qsum (h <$> map_to_list (refresh_map pu m))
  == Qsum ((λ kv, h (kv.1, refresh pu kv.1 kv.2)) <$> map_to_list m).
Proof.
  induction m as [|i x m Hi IH] using map_ind.
  - unfold refresh_map. rewrite map_imap_empty, map_to_list_empty. reflexivity.
  - rewrite refresh_map_insert.
    rewrite Qsum_map_insert by (rewrite refresh_map_lookup, Hi; reflexivity).
    rewrite Qsum_map_insert by assumption.
    rewrite IH. reflexivity.
Qed.

(** The loop of [update_all_prices], run over the whole dictionary. *)
Lemma update_fold_spec pu (m0 : gmap string Position) :
  let st := map_fold (update_step pu) (m0, 0) m0 in
  st.1 = refresh_map pu m0 ∧
  st.2 == Qsum ((λ kv, counted_pnl pu (kv.1, refresh pu kv.1 kv.2))
                  <$> map_to_list m0).
Proof.
  set (P := λ (r : gmap string Position * Q) (m : gmap string Position),
    (∀ a, r.1 !! a =
          match m !! a, pu !! a with
          | Some pos, Some x => Some (update_price pos x)
          | _, _ => m0 !! a
          end) ∧
    r.2 == Qsum ((λ kv, counted_pnl pu (kv.1, refresh pu kv.1 kv.2))
                   <$> map_to_list m)).
  assert (P (map_fold (update_step pu) (m0, 0) m0) m0) as [Hpos Htot].
  { apply (map_fold_weak_ind P).
    - split.
      + intros a. now rewrite lookup_empty.
      + rewrite map_to_list_empty. reflexivity.
    - intros i x m r Hi [IHpos IHtot]. unfold update_step. split.
      + intros a. destruct (pu !! i) as [p|] eqn:Ep; cbn [fst].
        * destruct (decide (i = a)) as [->|Hne].
          -- now rewrite !lookup_insert_eq, Ep.
          -- rewrite !lookup_insert_ne by assumption. apply IHpos.
        * destruct (decide (i = a)) as [->|Hne].
          -- rewrite IHpos, Hi, lookup_insert_eq, Ep. reflexivity.
          -- rewrite lookup_insert_ne by assumption. apply IHpos.
      + rewrite Qsum_map_insert by assumption.
        unfold counted_pnl at 1. cbn [fst snd].
        change (refresh pu i x)
          with (match pu !! i with Some np => update_price x np | None => x end).
        destruct (pu !! i) as [p|] eqn:Ep; cbn [snd].
        * rewrite IHtot. ring.
        * rewrite IHtot. ring. }
  split; [|exact Htot].
  apply map_eq. intros a. rewrite Hpos, refresh_map_lookup. unfold refresh.
  destruct (m0 !! a), (pu !! a); reflexivity.
Qed.

Lemma update_all_prices_positions pf pu :
  positions (update_all_prices pf pu) = refresh_map pu (positions pf).
Proof. apply update_fold_spec. Qed.

Lemma update_all_prices_total pf pu :
  total_unrealized_pnl (update_all_prices pf pu)
  == Qsum (counted_pnl pu <$> map_to_list (positions (update_all_prices pf pu))).
Proof.
  rewrite update_all_prices_positions, Qsum_refresh_map.
  apply update_fold_spec.
Qed.

End UpdateFacts.

(** ** Partial price maps *)

Section PartialUpdateFacts.
Import PyNum PortfolioTracker Specification Scenarios.
Local Open Scope Q_scope.

(** C3, as the code has it.  After [update_all_prices] the positions
    whose address is in the price map are refreshed at the given price
    and all others are left as they were; cash, realized pnl, counters
    and history are untouched; and [total_unrealized_pnl] is the sum of
    pnl over the open positions whose address is in the price map, so a
    position absent from the map adds nothing to the total. *)
Theorem update_all_prices_partial_map (pf : Portfolio) (pu : gmap string Q) :
  let pf' := update_all_prices pf pu in
  (∀ a x, pu !! a = Some x →
     positions pf' !! a = (λ p, update_price p x) <$> positions pf !! a) ∧
  (∀ a, pu !! a = None → positions pf' !! a = positions pf !! a) ∧
  total_unrealized_pnl pf'
  == Qsum (counted_pnl pu <$> map_to_list (positions pf')) ∧
  current_balance pf' = current_balance pf ∧
  total_realized_pnl pf' = total_realized_pnl pf ∧
  trade_history pf' = trade_history pf.
Proof.
  intros pf'. subst pf'. split; [|split; [|split]].
  - intros a x Hx. rewrite update_all_prices_positions, refresh_map_lookup.
    unfold refresh. rewrite Hx. reflexivity.
  - intros a Hx. rewrite update_all_prices_positions, refresh_map_lookup.
    unfold refresh. rewrite Hx. now destruct (positions pf !! a).
  - apply update_all_prices_total.
  - repeat split.
Qed.

Lemma update_all_prices_partial_map_witness :
  let pf' := update_all_prices two_positions partial_prices in
  positions pf' !! "0xA" = Some (update_price pos_a 1.5) ∧
  positions pf' !! "0xB" = positions two_positions !! "0xB".
Proof.
  intros pf'. subst pf'.
  destruct (update_all_prices_partial_map two_positions partial_prices)
    as (Hin & Hout & _).
  split.
  - rewrite (Hin "0xA"%string 1.5) by reflexivity. reflexivity.
  - apply Hout. reflexivity.
Defined.

(** C3 as stated fails.  Both positions are open; "0xB" was last priced at
    2 and carries a pnl of 100.  A price map with "0xA" only leaves "0xB"
    as it was, yet the new total is the pnl of "0xA" alone (50), not the
    sum over all open positions (150). *)
Lemma partial_map_drops_absent_pnl :
  let pf' := update_all_prices two_positions partial_prices in
  positions pf' !! "0xB" = Some (update_price pos_b 2) ∧
  pnl_usd (update_price pos_b 2) == 100 ∧
  total_unrealized_pnl pf' == 50 ∧
  open_pnl pf' == 150 ∧
  ¬ total_unrealized_pnl pf' == open_pnl pf'.
Proof.
  intros pf'. repeat split; try (vm_compute; reflexivity).
  intros H. vm_compute in H. discriminate H.
Qed.

End PartialUpdateFacts.

(** ** Reconciliation *)

Section ReconciliationFacts.
Import PyNum PortfolioTracker Specification Scenarios.
Local Open Scope Q_scope.

Lemma cash_identity_fresh b : cash_identity (fresh b).
Proof.
  unfold cash_identity, cost_basis_total, values. cbn [fresh positions].
  rewrite map_to_list_empty. cbn. ring.
Qed.

Lemma cost_basis_add pf pos :
  positions pf !! token_address pos = None →
  cost_basis_total (add_position pf pos)
  == quantity pos * entry_price pos + cost_basis_total pf.
Proof.
  intros H. unfold cost_basis_total. rewrite !Qsum_values.
  cbn [add_position positions].
  now rewrite Qsum_map_insert.
Qed.

Lemma cost_basis_delete pf a pos :
  positions pf !! a = Some pos →
  cost_basis_total pf
  == quantity pos * entry_price pos
     + Qsum ((λ p, quantity p * entry_price p) <$> values (delete a (positions pf))).
Proof.
  intros H. unfold cost_basis_total. rewrite !Qsum_values.
  now rewrite (Qsum_map_delete _ _ a pos H).
Qed.

Lemma refresh_cost_basis pu a p :
  quantity (refresh pu a p) * entry_price (refresh pu a p)
  = quantity p * entry_price p.
Proof. unfold refresh. now destruct (pu !! a). Qed.

Lemma cost_basis_update pf pu :
  cost_basis_total (update_all_prices pf pu) == cost_basis_total pf.
Proof.
  unfold cost_basis_total. rewrite !Qsum_values.
  rewrite update_all_prices_positions, Qsum_refresh_map.
  apply Qsum_fmap_ext. intros [a p] _. cbn [fst snd].
  now rewrite refresh_cost_basis.
Qed.

Lemma cash_identity_add pf pos :
  positions pf !! token_address pos = None →
  cash_identity pf → cash_identity (add_position pf pos).
Proof.
  unfold cash_identity. intros Hnew H. rewrite cost_basis_add by assumption.
  cbn [add_position current_balance starting_balance total_realized_pnl]. lra.
Qed.

Lemma cash_identity_close pf a sell w n :
  cash_identity pf → cash_identity (close_position pf a sell w n).2.
Proof.
  unfold cash_identity. intros H. unfold close_position.
  destruct (positions pf !! a) as [pos|] eqn:E; [|exact H].
  rewrite (cost_basis_delete pf a pos E) in H.
  unfold cost_basis_total.
  cbn [snd current_balance starting_balance total_realized_pnl positions
       update_price position_value_usd pnl_usd quantity entry_price].
  lra.
Qed.

Lemma cash_identity_update pf pu :
  cash_identity pf → cash_identity (update_all_prices pf pu).
Proof.
  unfold cash_identity. intros H. rewrite cost_basis_update.
  cbn [update_all_prices current_balance starting_balance total_realized_pnl].
  exact H.
Qed.

Lemma cash_identity_run ops : ∀ pf,
  fresh_adds pf ops → cash_identity pf → cash_identity (run pf ops).
Proof.
  induction ops as [|op ops IH]; intros pf Hwf Hid; [exact Hid|].
  destruct Hwf as [Hop Hrest]. cbn [run foldl]. apply IH; [exact Hrest|].
  destruct op as [pos|pu|a sell w n]; cbn [step].
  - now apply cash_identity_add.
  - now apply cash_identity_update.
  - now apply cash_identity_close.
Qed.

(** Right after a pass whose price map covers every open address, the
    total value splits into cost basis and counted pnl. *)
Lemma full_update_reconciles pf pu :
  covers pu pf → cash_identity pf → reconciled (update_all_prices pf pu).
Proof.
  intros Hcov Hid. unfold reconciled, get_total_value.
  rewrite update_all_prices_total.
  rewrite Qsum_values, update_all_prices_positions, !Qsum_refresh_map.
  cbn [update_all_prices current_balance starting_balance total_realized_pnl].
  unfold cash_identity, cost_basis_total in Hid. rewrite Qsum_values in Hid.
  rewrite (Qsum_fmap_ext _
    (λ kv, quantity kv.2 * entry_price kv.2
           + counted_pnl pu (kv.1, refresh pu kv.1 kv.2))).
  - rewrite Qsum_fmap_plus. lra.
  - intros [a p] Hin. apply elem_of_map_to_list in Hin.
    destruct (Hcov a) as [x Hx]; [now exists p|].
    unfold counted_pnl, refresh. cbn [fst snd]. rewrite Hx.
    cbn [update_price position_value_usd pnl_usd]. ring.
Qed.

Lemma covers_by_entries pu pf :
  Forall (λ kv, is_Some (pu !! kv.1)) (map_to_list (positions pf)) → covers pu pf.
Proof.
  intros H a [p Hp]. rewrite Forall_forall in H.
  apply (H (a, p)). now apply elem_of_map_to_list.
Qed.

Lemma fresh_adds_take n : ∀ ops pf,
  fresh_adds pf ops → fresh_adds pf (take n ops).
Proof.
  induction n as [|n IH]; intros [|op ops] pf H; cbn; try exact I.
  destruct H as [Hop Hrest]. split; [exact Hop|]. now apply IH.
Qed.

(** C1, as the code has it.  Take any run from a fresh portfolio in
    which [add_position] is only applied to addresses that are not open.
    After every operation of the run (after its first [n] operations, for
    every [n]) the cash balance plus the cost basis of the open positions
    equals the starting balance plus the realized pnl; and an
    [update_all_prices] at that point whose price map covers every open
    address leaves the portfolio reconciled: cash plus the sum of the
    position values equals starting balance plus realized plus unrealized
    pnl. *)
Theorem reconciliation_after_full_update (b : Q) (ops : list Op) (n : nat) :
  fresh_adds (fresh b) ops →
  let pf := run (fresh b) (take n ops) in
  cash_identity pf ∧
  ∀ pu, covers pu pf → reconciled (update_all_prices pf pu).
Proof.
  intros Hwf pf.
  assert (cash_identity pf) as Hid.
  { apply cash_identity_run; [|apply cash_identity_fresh].
    now apply fresh_adds_take. }
  split; [exact Hid|].
  intros pu Hcov. now apply full_update_reconciles.
Qed.

Lemma reconciliation_after_full_update_witness :
  reconciled
    (update_all_prices
       (run (fresh 1000) [OpAdd pos_a; OpAdd pos_b;
                          OpClose "0xA" 3 "Take profit" 60])
       full_prices).
Proof.
  apply (reconciliation_after_full_update 1000
           [OpAdd pos_a; OpAdd pos_b; OpClose "0xA" 3 "Take profit" 60] 3).
  - repeat split; reflexivity.
  - apply covers_by_entries. vm_compute. repeat econstructor.
Defined.

(** C1 as stated fails.  A position added as the executor builds it (its
    value still at the default 0) leaves cash plus position value at 900
    against a starting balance of 1000; and after buying at 1, a pass at
    price 2 and a close at 2, cash is 1100 while starting balance plus
    realized plus the unrealized pnl left from the pass is 1200. *)
Lemma reconciliation_broken_by_add_and_close :
  ¬ reconciled (run (fresh 1000) [OpAdd first_buy]) ∧
  ¬ reconciled
      (run (fresh 1000)
         [OpAdd priced_buy; OpUpdate {[ "0xA"%string := 2 ]};
          OpClose "0xA" 2 "Take profit" 60]).
Proof.
  split; intros H; vm_compute in H; discriminate H.
Qed.

End ReconciliationFacts.

(** * Further properties of the code *)

(** ** Position updates and closing *)

Section PositionFacts.
Import PyNum PortfolioTracker Vocabulary.
Local Open Scope Q_scope.

(** X1.  The derived fields of a position depend on the last price only:
    a second [update_price] overrides the first, so repeating an update
    with the same price changes nothing. *)
Theorem update_price_last_wins (p : Position) (x y : Q) :
  update_price (update_price p x) y = update_price p y ∧
  update_price (update_price p x) x = update_price p x.
Proof. split; reflexivity. Qed.

(** X2.  For a position with positive quantity and positive entry price,
    the pnl_percent after an update is the relative price move in
    percent, whatever the quantity; with a cost basis that is not
    positive it is 0. *)
Theorem pnl_percent_is_relative_move (p : Position) (x : Q) :
  (0 < quantity p → 0 < entry_price p →
   pnl_percent (update_price p x)
   == (x - entry_price p) / entry_price p * 100) ∧
  (quantity p * entry_price p <= 0 → pnl_percent (update_price p x) = 0).
Proof.
  split.
  - intros Hq He. cbn [update_price pnl_percent].
    assert (0 < quantity p * entry_price p) as Hc
      by (apply Qmult_lt_0_compat; assumption).
    apply Qltb_lt in Hc as Hb. rewrite Hb.
    field. split; intros H0; rewrite H0 in *; lra.
  - intros Hc. cbn [update_price pnl_percent].
    apply Qltb_ge in Hc. now rewrite Hc.
Qed.

Lemma pnl_percent_is_relative_move_witness :
  pnl_percent (update_price held_position 3) == 50.
Proof.
  destruct (pnl_percent_is_relative_move held_position 3) as [H _].
  rewrite H; reflexivity.
Defined.

(** X3.  A close of an open address returns [True], removes that address
    and no other, credits the cash balance with quantity times the sell
    price, adds the difference to the cost basis to the realized pnl and
    appends exactly one sell trade for that price. *)
Theorem close_position_removes
    (pf : Portfolio) (a : string) (pos : Position) (sell : Q) (w : string) (n : Q) :
  positions pf !! a = Some pos →
  let r := close_position pf a sell w n in
  r.1 = true ∧
  positions r.2 !! a = None ∧
  (∀ b, b ≠ a → positions r.2 !! b = positions pf !! b) ∧
  current_balance r.2 = current_balance pf + quantity pos * sell ∧
  total_realized_pnl r.2
  = total_realized_pnl pf
    + (quantity pos * sell - quantity pos * entry_price pos) ∧
  ∃ t, trade_history r.2 = trade_history pf ++ [t] ∧ action t = Sell ∧
       price t = sell ∧ value_usd t = quantity pos * sell ∧ reason t = w.
Proof.
  intros Hpos r. subst r. unfold close_position. rewrite Hpos.
  cbn [fst snd positions current_balance total_realized_pnl trade_history].
  split; [reflexivity|]. split; [apply lookup_delete_eq|].
  split; [intros b Hb; now apply lookup_delete_ne|].
  split; [reflexivity|]. split; [reflexivity|].
  eexists. split; [reflexivity|]. cbn. auto.
Qed.

Lemma close_position_removes_witness :
  let r := close_position one_position "0xA" 3 "Take profit" 60 in
  r.1 = true ∧ positions r.2 !! "0xA" = None.
Proof.
  intros r. subst r.
  destruct (close_position_removes one_position "0xA" held_position 3
              "Take profit" 60) as (H1 & H2 & _).
  { reflexivity. }
  split; assumption.
Defined.

(** X4.  A position cannot be closed twice: after a successful close a
    second close of the same address returns [False] and leaves the
    portfolio as the first close left it. *)
Theorem close_position_twice
    (pf : Portfolio) (a : string) (pos : Position)
    (s1 s2 : Q) (w1 w2 : string) (n1 n2 : Q) :
  positions pf !! a = Some pos →
  let pf1 := (close_position pf a s1 w1 n1).2 in
  close_position pf1 a s2 w2 n2 = (false, pf1).
Proof.
  intros Hpos pf1. apply close_position_absent. subst pf1.
  unfold close_position. rewrite Hpos. cbn [snd positions].
  apply lookup_delete_eq.
Qed.

Lemma close_position_twice_witness :
  (close_position (close_position one_position "0xA" 3 "Take profit" 60).2
     "0xA" 4 "Take profit" 70).1 = false.
Proof.
  rewrite (close_position_twice one_position "0xA" held_position).
  - reflexivity.
  - reflexivity.
Defined.

End PositionFacts.

(** ** Counters and history along a run *)

Section RunFacts.
Import PyNum PortfolioTracker PortfolioManager Specification Vocabulary.
Local Open Scope Q_scope.

Lemma sells_app h t : sells (h ++ [t]) = (sells h + if is_sell t then 1 else 0)%Z.
Proof.
  unfold sells. rewrite filter_app, length_app, filter_cons, filter_nil.
  destruct (is_sell t); case_decide; try congruence; cbn [length]; lia.
Qed.

Lemma buys_app h t : buys (h ++ [t]) = (buys h + if is_buy t then 1 else 0)%Z.
Proof.
  unfold buys. rewrite filter_app, length_app, filter_cons, filter_nil.
  destruct (is_buy t); case_decide; try congruence; cbn [length]; lia.
Qed.

(** What one operation does to the counters and to the two kinds of
    records in the history. *)
Lemma step_counters pf op :
  let pf' := step pf op in
  (win_count pf <= win_count pf')%Z ∧ (loss_count pf <= loss_count pf')%Z ∧
  (win_count pf' + loss_count pf' - sells (trade_history pf')
   = win_count pf + loss_count pf - sells (trade_history pf))%Z ∧
  (buys (trade_history pf')
   = buys (trade_history pf) + if is_add op then 1 else 0)%Z ∧
  starting_balance pf' = starting_balance pf.
Proof.
  destruct op as [pos|pu|a sell w n]; cbn [step is_add].
  - cbn [add_position win_count loss_count trade_history starting_balance].
    rewrite sells_app, buys_app. cbn [is_sell is_buy action].
    repeat split; try lia; reflexivity.
  - cbn [update_all_prices win_count loss_count trade_history starting_balance].
    repeat split; try lia; reflexivity.
  - unfold close_position. destruct (positions pf !! a) as [pos|]; cbn [snd].
    + cbn [win_count loss_count trade_history starting_balance].
      rewrite sells_app, buys_app. cbn [is_sell is_buy action].
      destruct (Qltb 0 _); repeat split; try lia; reflexivity.
    + repeat split; try lia; reflexivity.
Qed.

Lemma run_counters ops : ∀ pf,
  let pf' := run pf ops in
  (win_count pf <= win_count pf')%Z ∧ (loss_count pf <= loss_count pf')%Z ∧
  (win_count pf' + loss_count pf' - sells (trade_history pf')
   = win_count pf + loss_count pf - sells (trade_history pf))%Z ∧
  (buys (trade_history pf') = buys (trade_history pf) + adds ops)%Z ∧
  starting_balance pf' = starting_balance pf.
Proof.
  induction ops as [|op ops IH]; intros pf.
  - cbn [run foldl]. cbn zeta. change (adds []) with 0%Z.
    repeat split; try lia; reflexivity.
  - cbn [run foldl]. specialize (IH (step pf op)). cbn zeta in IH.
    fold (run (step pf op) ops) in *.
    destruct IH as (I1 & I2 & I3 & I4 & I5).
    destruct (step_counters pf op) as (S1 & S2 & S3 & S4 & S5).
    assert (adds (op :: ops) = (adds ops + if is_add op then 1 else 0)%Z) as Ha.
    { unfold adds. rewrite filter_cons.
      destruct (is_add op); case_decide; try congruence; cbn [length]; lia. }
    cbn zeta. repeat split; try lia. congruence.
Qed.

Lemma run_counters_fresh (b : Q) (ops : list Op) :
  (0 <= win_count (run (fresh b) ops))%Z ∧
  (0 <= loss_count (run (fresh b) ops))%Z ∧
  (win_count (run (fresh b) ops) + loss_count (run (fresh b) ops)
   = sells (trade_history (run (fresh b) ops)))%Z ∧
  buys (trade_history (run (fresh b) ops)) = adds ops ∧
  starting_balance (run (fresh b) ops) = b.
Proof.
  destruct (run_counters ops (fresh b)) as (H1 & H2 & H3 & H4 & H5).
  change (win_count (fresh b)) with 0%Z in *.
  change (loss_count (fresh b)) with 0%Z in *.
  change (sells (trade_history (fresh b))) with 0%Z in *.
  change (buys (trade_history (fresh b))) with 0%Z in *.
  change (starting_balance (fresh b)) with b in *.
  repeat split; try lia. exact H5.
Qed.

(** X5.  In every run from a fresh portfolio both counters are
    non-negative, their sum is the number of sell records in the trade
    history, and the number of buy records is the number of
    [add_position] calls. *)
Theorem counters_count_sells (b : Q) (ops : list Op) :
  let pf := run (fresh b) ops in
  (0 <= win_count pf)%Z ∧ (0 <= loss_count pf)%Z ∧
  (win_count pf + loss_count pf)%Z = sells (trade_history pf) ∧
  buys (trade_history pf) = adds ops.
Proof.
  destruct (run_counters_fresh b ops) as (H1 & H2 & H3 & H4 & _).
  cbn zeta. repeat split; lia.
Qed.

Lemma step_history pf op : trade_history pf `prefix_of` trade_history (step pf op).
Proof.
  destruct op as [pos|pu|a sell w n]; cbn [step].
  - now eexists.
  - exists []. cbn [update_all_prices trade_history]. now rewrite app_nil_r.
  - unfold close_position. destruct (positions pf !! a); cbn [snd].
    + now eexists.
    + exists []. now rewrite app_nil_r.
Qed.

(** X6.  The trade history is append-only: whatever operations follow,
    the history before them is a prefix of the history after them. *)
Theorem trade_history_append_only (pf : Portfolio) (ops : list Op) :
  trade_history pf `prefix_of` trade_history (run pf ops).
Proof.
  revert pf. induction ops as [|op ops IH]; intros pf; [reflexivity|].
  cbn [run foldl]. etrans; [apply step_history | apply IH].
Qed.

Lemma win_rate_range pf :
  (0 <= win_count pf)%Z → (0 <= loss_count pf)%Z →
  0 <= get_win_rate pf ∧ get_win_rate pf <= 100.
Proof.
  intros Hw Hl. unfold get_win_rate.
  destruct (Z.ltb_spec 0 (win_count pf + loss_count pf)) as [Hpos|Hz];
    [|split; lra].
  assert (0 < inject_Z (win_count pf + loss_count pf)) as Hq
    by (change 0 with (inject_Z 0); now rewrite <- Zlt_Qlt).
  assert (0 <= inject_Z (win_count pf)) as Hqw
    by (change 0 with (inject_Z 0); now rewrite <- Zle_Qle).
  assert (inject_Z (win_count pf) <= inject_Z (win_count pf + loss_count pf))
    as Hle by (rewrite <- Zle_Qle; lia).
  split.
  - apply Qmult_le_0_compat; [|lra]. apply Qle_shift_div_l; [exact Hq|lra].
  - assert (inject_Z (win_count pf) / inject_Z (win_count pf + loss_count pf) <= 1)
      by (apply Qle_shift_div_r; [exact Hq|lra]).
    lra.
Qed.

(** X7.  In every run from a fresh portfolio the win rate lies between 0
    and 100, and it is 0 as long as no position has been closed. *)
Theorem win_rate_bounds (b : Q) (ops : list Op) :
  let pf := run (fresh b) ops in
  (0 <= get_win_rate pf ∧ get_win_rate pf <= 100) ∧
  (sells (trade_history pf) = 0%Z → get_win_rate pf = 0).
Proof.
  destruct (run_counters_fresh b ops) as (H1 & H2 & H3 & _).
  cbn zeta. split.
  - apply win_rate_range; assumption.
  - intros Hs. unfold get_win_rate.
    replace (win_count (run (fresh b) ops) + loss_count (run (fresh b) ops))%Z
      with 0%Z by lia.
    reflexivity.
Qed.

Lemma win_rate_bounds_witness :
  get_win_rate (run (fresh 1000) [OpAdd held_position; OpUpdate ∅]) = 0.
Proof.
  apply (win_rate_bounds 1000 [OpAdd held_position; OpUpdate ∅]).
  reflexivity.
Defined.

(** X8.  Return on investment agrees with the reported total pnl right
    after a full price pass: in a run from a fresh portfolio with a
    non-zero balance in which no add overwrites an open address, after
    [update_all_prices] with a price for every open address [get_roi]
    returns the total pnl as a percentage of the starting balance. *)
Theorem roi_matches_total_pnl (b : Q) (ops : list Op) (pu : gmap string Q) :
  ¬ b == 0 →
  fresh_adds (fresh b) ops →
  covers pu (run (fresh b) ops) →
  let pf := update_all_prices (run (fresh b) ops) pu in
  ∃ roi, get_roi pf = Some roi ∧ roi == get_total_pnl pf / b * 100.
Proof.
  intros Hb Hwf Hcov pf.
  assert (starting_balance pf = b) as Hstart.
  { subst pf. cbn [update_all_prices starting_balance].
    now destruct (run_counters_fresh b ops) as (_ & _ & _ & _ & ->). }
  assert (reconciled pf) as Hrec.
  { apply full_update_reconciles; [exact Hcov|].
    apply cash_identity_run; [exact Hwf | apply cash_identity_fresh]. }
  unfold get_roi. rewrite Hstart.
  destruct (Qeq_bool b 0) eqn:E; [apply Qeq_bool_eq in E; contradiction|].
  eexists. split; [reflexivity|].
  unfold reconciled in Hrec. rewrite Hstart in Hrec. unfold get_total_pnl.
  rewrite Hrec. field. exact Hb.
Qed.

Lemma roi_matches_total_pnl_witness :
  ∃ roi, get_roi (update_all_prices
                    (run (fresh 1000) [OpAdd held_position])
                    {[ "0xA"%string := 3 ]}) = Some roi ∧ roi == 0.5.
Proof.
  destruct (roi_matches_total_pnl 1000 [OpAdd held_position]
              {[ "0xA"%string := 3 ]}) as (roi & H1 & H2).
  - vm_compute. discriminate.
  - repeat split; reflexivity.
  - apply covers_by_entries. vm_compute. repeat econstructor.
  - exists roi. split; [exact H1|]. rewrite H2. vm_compute. reflexivity.
Defined.

End RunFacts.

(** ** Buy and sell rules of the portfolio manager *)

Section ManagerFacts.
Import PyNum PortfolioTracker PortfolioManager Vocabulary.
Local Open Scope Q_scope.

(** X9.  [should_buy] never approves a purchase at the position cap or
    for a token of extreme risk, every approval has a score of at least
    75, and an approval stays an approval when the score goes up. *)
Theorem should_buy_safe_and_monotone
    (mgr : Manager) (s : Q) (r : TokenSimilarity.RiskLevel) (n : Z) :
  should_buy mgr s r n = true →
  (n < mgr_max_positions mgr)%Z ∧ r ≠ TokenSimilarity.Extreme ∧ 75 <= s ∧
  ∀ s', s <= s' → should_buy mgr s' r n = true.
Proof.
  unfold should_buy.
  destruct (Z.leb_spec (mgr_max_positions mgr) n) as [|Hn]; [discriminate|].
  destruct r; try discriminate.
  - destruct (Qleb 85 s) eqn:E1; [|rewrite andb_false_r; discriminate].
    intros _. apply Qleb_le in E1.
    repeat split; [exact Hn | discriminate | lra |].
    intros s' Hs. assert (Qleb 85 s' = true) as -> by (apply Qleb_le; lra).
    reflexivity.
  - destruct (Qleb 85 s) eqn:E1; [|rewrite andb_false_r; discriminate].
    intros _. apply Qleb_le in E1.
    repeat split; [exact Hn | discriminate | lra |].
    intros s' Hs. assert (Qleb 85 s' = true) as -> by (apply Qleb_le; lra).
    reflexivity.
  - destruct (Qleb 85 s) eqn:E1.
    + intros _. apply Qleb_le in E1.
      repeat split; [exact Hn | discriminate | lra |].
      intros s' Hs. assert (Qleb 85 s' = true) as -> by (apply Qleb_le; lra).
      reflexivity.
    + destruct (Qleb 75 s) eqn:E2; [|discriminate].
      intros _. apply Qleb_le in E2.
      repeat split; [exact Hn | discriminate | exact E2 |].
      intros s' Hs. assert (Qleb 75 s' = true) as -> by (apply Qleb_le; lra).
      now destruct (Qleb 85 s').
Qed.

Lemma should_buy_safe_and_monotone_witness :
  should_buy (new_manager 1000) 90 TokenSimilarity.Low 3 = true.
Proof.
  destruct (should_buy_safe_and_monotone (new_manager 1000) 80
              TokenSimilarity.Low 3) as (_ & _ & _ & H).
  - reflexivity.
  - apply H. vm_compute. discriminate.
Defined.

(** X10.  [should_sell] refreshes the position at the quoted price.  A
    pnl_percent of -20 or less always sells with the stop-loss reason;
    and a position is kept only while its pnl_percent is strictly
    between -20 and 50 and, once it has been held for more than 24
    hours, at least 10. *)
Theorem should_sell_rules (pos : Position) (quote now : Q) :
  let r := should_sell pos quote now in
  let pnl := pnl_percent (update_price pos quote) in
  r.2 = update_price pos quote ∧
  (pnl <= -20 → r.1 = (true, "Stop loss triggered (-20%)"%string)) ∧
  (r.1.1 = false →
   -20 < pnl ∧ pnl < 50 ∧
   (24 < (now - entry_time pos) / 3600 → 10 <= pnl)).
Proof.
  intros r pnl. subst r. unfold should_sell. fold pnl.
  destruct (Qleb pnl (-20)) eqn:E1.
  { apply Qleb_le in E1. repeat split; try discriminate. }
  apply Qleb_gt in E1.
  destruct (Qleb 50 pnl) eqn:E2.
  { repeat split; try discriminate. intros H. lra. }
  apply Qleb_gt in E2.
  cbn [entry_time update_price].
  destruct (Qltb 24 ((now - entry_time pos) / 3600)) eqn:E3; cbn [andb].
  - destruct (Qltb pnl 10) eqn:E4.
    + repeat split; try discriminate; intros; lra.
    + apply Qltb_ge in E4. repeat split; try assumption; intros; lra.
  - apply Qltb_ge in E3. repeat split; try assumption; intros; lra.
Qed.

Lemma should_sell_rules_witness :
  (should_sell held_position 1.5 60).1
  = (true, "Stop loss triggered (-20%)"%string).
Proof.
  apply (should_sell_rules held_position 1.5 60).
  vm_compute. discriminate.
Defined.

(** X11.  The manager sizes a position so that, at a positive price, its
    cost is the configured percentage of the cash balance (10% for a
    manager as constructed); at a price that is not positive the size
    is 0. *)
Theorem manager_position_cost (mgr : Manager) (token_price : Q) :
  (0 < token_price →
   calculate_position_size mgr token_price * token_price
   == current_balance (mgr_portfolio mgr) * (position_size_percent mgr / 100)) ∧
  (token_price <= 0 → calculate_position_size mgr token_price = 0).
Proof.
  unfold calculate_position_size. split.
  - intros Hp. apply Qltb_lt in Hp as Hb. rewrite Hb. field. lra.
  - intros Hp. apply Qltb_ge in Hp. now rewrite Hp.
Qed.

Lemma manager_position_cost_witness :
  calculate_position_size (new_manager 1000) 4 * 4 == 100.
Proof.
  destruct (manager_position_cost (new_manager 1000) 4) as [H _].
  rewrite H; reflexivity.
Defined.

End ManagerFacts.

(** ** Aggregation over timeframes *)

Section AggregationFacts.
Import PyNum DexScreener TimeframeAnalyzer TimeframeAggregation.
Local Open Scope Q_scope.

(** X12.  [calculate_price_momentum] is monotone: a larger price change
    never gets a more bearish label. *)
Theorem price_momentum_monotone (a b : Q) :
  a <= b →
  (momentum_scores (calculate_price_momentum a)
   <= momentum_scores (calculate_price_momentum b))%Z.
Proof.
  intros Hab. unfold calculate_price_momentum.
  repeat match goal with
  | |- context [Qltb ?x ?y] =>
    let E := fresh "E" in
    destruct (Qltb x y) eqn:E;
    [apply Qltb_lt in E | apply Qltb_ge in E]
  end; cbn [momentum_scores]; try lia; exfalso; lra.
Qed.

Lemma price_momentum_monotone_witness :
  (momentum_scores (calculate_price_momentum (-40))
   <= momentum_scores (calculate_price_momentum 60))%Z.
Proof. apply price_momentum_monotone. vm_compute. discriminate. Defined.

Lemma py_minZ_min a b : py_minZ a b = Z.min a b.
Proof. unfold py_minZ. destruct (Z.ltb_spec b a); lia. Qed.

Lemma py_maxZ_max a b : py_maxZ a b = Z.max a b.
Proof. unfold py_maxZ. destruct (Z.ltb_spec a b); lia. Qed.

Lemma confidence_level_bounds
    (tfs : gmap string TimeframeData) (overall_trend : Momentum) (rr : Q) :
  (40 <= calculate_confidence_level tfs overall_trend rr <= 100)%Z.
Proof.
  unfold calculate_confidence_level. cbv zeta.
  rewrite py_minZ_min, py_maxZ_max.
  repeat match goal with
  | |- context [if ?c then _ else _] => destruct c
  end; lia.
Qed.

(** X16.  [calculate_confidence_level] always lies between 40 and 100,
    whatever the timeframes, the trend and the risk/reward ratio: the
    only deductions from the base of 50 are the two volatility
    penalties, of at most 10, and the bonuses are cut at 100. *)
Theorem confidence_level_range
    (tfs : gmap string TimeframeData) (overall_trend : Momentum) (rr : Q) :
  (40 <= calculate_confidence_level tfs overall_trend rr)%Z ∧
  (calculate_confidence_level tfs overall_trend rr <= 100)%Z ∧
  (calculate_confidence_level ∅ overall_trend 0 = 50)%Z.
Proof.
  destruct (confidence_level_bounds tfs overall_trend rr) as [H1 H2].
  repeat split; try assumption.
Qed.

Lemma py_min_le_l (a b : Q) : py_min a b <= a.
Proof.
  unfold py_min. destruct (Qltb b a) eqn:E.
  - apply Qltb_lt in E. now apply Qlt_le_weak.
  - apply Qle_refl.
Qed.

Lemma trend_points_range t : (0 <= trend_points t <= 30)%Z.
Proof. destruct t; cbn; lia. Qed.

Lemma volume_score_range ratio : (0 <= volume_score ratio <= 20)%Z.
Proof. unfold volume_score. repeat case_match; lia. Qed.

Lemma market_cap_score_range tok : (0 <= market_cap_score tok <= 20)%Z.
Proof. unfold market_cap_score. cbv zeta. repeat case_match; lia. Qed.

Lemma overall_score_bounds tok tfs t (rr conf score : Q) :
  calculate_overall_score tok tfs t rr conf = Some score →
  score <= 100 ∧
  (0 <= rr → 0 <= conf → 0 <= score) ∧
  (is_bullish t = false → conf <= 100 → score <= 80) ∧
  (trend_points t = 0%Z → conf <= 100 → score <= 70).
Proof.
  unfold calculate_overall_score. cbv zeta. rewrite Z.add_0_l.
  destruct (py_div (volume_24h tok) (market_cap tok + 1)) as [ratio|];
    [|discriminate].
  intros [= <-].
  pose proof (trend_points_range t) as Ht.
  pose proof (volume_score_range ratio) as Hv.
  pose proof (market_cap_score_range tok) as Hm.
  pose proof (py_min_le_r (rr * 5) 15) as Hr.
  set (ints := (trend_points t + volume_score ratio + market_cap_score tok)%Z).
  assert (0 <= inject_Z ints) as Hi0
    by (change 0 with (inject_Z 0); rewrite <- Zle_Qle; subst ints; lia).
  split; [apply py_min_le_r|]. split; [|split].
  - intros Hrr Hc. apply py_min_glb; [|lra].
    assert (0 <= py_min (rr * 5) 15) by (apply py_min_glb; lra).
    lra.
  - intros Hb Hc.
    assert (inject_Z ints <= 50) as Hi.
    { change 50 with (inject_Z 50). rewrite <- Zle_Qle. subst ints.
      destruct t; try discriminate; cbn [trend_points] in *; lia. }
    eapply Qle_trans; [apply py_min_le_l|]. lra.
  - intros Hb Hc.
    assert (inject_Z ints <= 40) as Hi.
    { change 40 with (inject_Z 40). rewrite <- Zle_Qle. subst ints. lia. }
    eapply Qle_trans; [apply py_min_le_l|]. lra.
Qed.

(** X17.  [calculate_overall_score] raises exactly at a market cap of
    -1, where the volume ratio divides by 0.  The score it returns
    otherwise never exceeds 100 and, for a non-negative risk/reward
    ratio and confidence, is never negative.  With a confidence of at
    most 100, a bearish or strongly bearish trend keeps the score at 70
    or below, under the buy threshold of 80. *)
Theorem overall_score_range_and_bearish_cap
    (tok : TokenData) (tfs : gmap string TimeframeData) (t : Momentum)
    (rr conf : Q) :
  (calculate_overall_score tok tfs t rr conf = None
   ↔ market_cap tok + 1 == 0) ∧
  (¬ market_cap tok + 1 == 0 →
   ∃ score, calculate_overall_score tok tfs t rr conf = Some score) ∧
  (∀ score, calculate_overall_score tok tfs t rr conf = Some score →
     score <= 100 ∧
     (0 <= rr → 0 <= conf → 0 <= score) ∧
     (t = Bearish ∨ t = StrongBearish → conf <= 100 → score <= 70)).
Proof.
  pose proof (overall_score_none_iff tok tfs t rr conf) as Hnone.
  split; [exact Hnone|]. split.
  - intros Hne.
    destruct (calculate_overall_score tok tfs t rr conf) as [score|];
      [eauto | tauto].
  - intros score Hs.
    destruct (overall_score_bounds tok tfs t rr conf score Hs)
      as (H1 & H2 & _ & H4).
    split; [exact H1|]. split; [exact H2|].
    intros [->| ->] Hc; now apply H4.
Qed.

Lemma overall_score_range_and_bearish_cap_witness :
  ∃ score,
    calculate_overall_score Scenarios.dust_sized_token ∅ Bearish 3 100
    = Some score ∧ score <= 70.
Proof.
  destruct (overall_score_range_and_bearish_cap Scenarios.dust_sized_token ∅
              Bearish 3 100) as (_ & Hsome & Hall).
  destruct Hsome as (score & Hs).
  - vm_compute. discriminate.
  - exists score. split; [exact Hs|].
    apply (Hall score Hs); [now left | vm_compute; discriminate].
Defined.

(** X15.  [calculate_entry_timing] answers wait_dip when the 1h or the
    4h entry is missing, avoid when both are there and the overall trend
    is not bullish, and immediate or wait_breakout only for a bullish
    or strongly bullish trend with both entries present. *)
Theorem entry_timing_defaults
    (tok : TokenData) (tfs : gmap string TimeframeData) (t : Momentum) :
  (tfs !! "1h"%string = None ∨ tfs !! "4h"%string = None →
   calculate_entry_timing tok tfs t = WaitDip) ∧
  (is_Some (tfs !! "1h"%string) → is_Some (tfs !! "4h"%string) →
   is_bullish t = false → calculate_entry_timing tok tfs t = Avoid) ∧
  (calculate_entry_timing tok tfs t = Immediate ∨
   calculate_entry_timing tok tfs t = WaitBreakout →
   is_bullish t = true ∧
   is_Some (tfs !! "1h"%string) ∧ is_Some (tfs !! "4h"%string)).
Proof.
  unfold calculate_entry_timing. split; [|split].
  - intros [-> | H]; [reflexivity|]. rewrite H. now destruct (tfs !! "1h"%string).
  - intros [s ->] [m ->] ->. reflexivity.
  - destruct (tfs !! "1h"%string) as [s|]; [|intros [?|?]; discriminate].
    destruct (tfs !! "4h"%string) as [m|]; [|intros [?|?]; discriminate].
    destruct (is_bullish t); [|intros [?|?]; discriminate].
    intros _. repeat split; eauto.
Qed.

Lemma entry_timing_defaults_witness :
  calculate_entry_timing Scenarios.token_at_support
    {[ "1h"%string := Scenarios.flat_timeframe ]} StrongBullish = WaitDip.
Proof.
  apply (entry_timing_defaults Scenarios.token_at_support
           {[ "1h"%string := Scenarios.flat_timeframe ]} StrongBullish).
  right. reflexivity.
Defined.

End AggregationFacts.

(** ** Overall trend *)

Section TrendFacts.
Import PyNum DexScreener TimeframeAnalyzer TimeframeAggregation Vocabulary.
Local Open Scope Q_scope.

(** The loop of [calculate_overall_trend]: it fails exactly when some
    key has no weight, and otherwise adds up the weighted scores. *)
Lemma trend_fold_spec (tfs : gmap string TimeframeData) :
  (map_fold trend_step (Some 0) tfs = None ↔
   ∃ k d, tfs !! k = Some d ∧ timeframe_weights !! k = None) ∧
  (∀ w, map_fold trend_step (Some 0) tfs = Some w →
        w == Qsum (weighted_momentum <$> map_to_list tfs)).
Proof.
  apply (map_fold_weak_ind (λ r m,
    (r = None ↔ ∃ k d, m !! k = Some d ∧ timeframe_weights !! k = None) ∧
    (∀ w, r = Some w → w == Qsum (weighted_momentum <$> map_to_list m)))).
  - split.
    + split; [discriminate|]. intros (k & d & H & _).
      rewrite lookup_empty in H. discriminate.
    + intros w [= <-]. rewrite map_to_list_empty. reflexivity.
  - intros i x m r Hi [IHn IHs]. unfold trend_step.
    destruct r as [w0|].
    + destruct (timeframe_weights !! i) as [wt|] eqn:Ew.
      * split.
        -- split; [discriminate|]. intros (k & d & Hk & Hw).
           destruct (decide (i = k)) as [<-|Hne]; [congruence|].
           rewrite lookup_insert_ne in Hk by assumption.
           exfalso. assert (Some w0 = None) as H0 by (apply IHn; eauto).
           discriminate H0.
        -- intros w [= <-]. rewrite Qsum_map_insert by assumption.
           unfold weighted_momentum at 1. cbn [fst snd]. rewrite Ew.
           change (default 0 (Some wt)) with wt.
           rewrite <- (IHs w0 eq_refl). ring.
      * split; [|discriminate].
        split; [|reflexivity]. intros _. exists i, x.
        split; [apply lookup_insert_eq | exact Ew].
    + split; [|discriminate].
      split; [|reflexivity]. intros _.
      destruct (proj1 IHn eq_refl) as (k & d & Hk & Hw).
      exists k, d. split; [|exact Hw].
      rewrite lookup_insert_ne; [exact Hk|]. intros <-. congruence.
Qed.

Lemma weight_missing (k : string) :
  timeframe_weights !! k = None ↔ k ∉ timeframe_labels.
Proof.
  unfold timeframe_weights, timeframe_labels.
  rewrite !lookup_insert, lookup_singleton.
  rewrite !not_elem_of_cons.
  repeat case_decide; subst; split; try discriminate; try tauto;
    intros; repeat split; try congruence; try tauto.
  intros H'. now apply not_elem_of_nil in H'.
Qed.

(** X13.  [calculate_overall_trend] raises (a [KeyError]) exactly when
    the dictionary has a key outside the five timeframe labels; in all
    other cases, the empty dictionary included, it returns a label. *)
Theorem overall_trend_raises_on_unknown_label (tfs : gmap string TimeframeData) :
  calculate_overall_trend tfs = None ↔
  ∃ k, is_Some (tfs !! k) ∧ k ∉ timeframe_labels.
Proof.
  unfold calculate_overall_trend. rewrite fmap_None.
  rewrite (proj1 (trend_fold_spec tfs)). split.
  - intros (k & d & Hk & Hw). exists k. split; [eauto|]. now apply weight_missing.
  - intros (k & [d Hk] & Hw). exists k, d. split; [exact Hk|].
    now apply weight_missing.
Qed.

Lemma overall_trend_raises_on_unknown_label_witness :
  calculate_overall_trend five_minute_only = None.
Proof.
  apply overall_trend_raises_on_unknown_label.
  exists "5m"%string. split.
  - now eexists.
  - unfold timeframe_labels. rewrite !not_elem_of_cons.
    repeat split; try discriminate. apply not_elem_of_nil.
Defined.

Lemma build_timeframes_lookup analyze (k : string) :
  build_timeframes analyze !! k
  = if decide (k ∈ timeframe_labels) then Some (analyze k) else None.
Proof.
  unfold build_timeframes, timeframe_labels. cbn [foldl].
  rewrite !lookup_insert, lookup_empty.
  repeat case_decide; subst; try reflexivity; exfalso;
    match goal with
    | H : _ ∉ _ |- _ => apply H; rewrite !elem_of_cons; tauto
    | H : _ ∈ _ |- _ =>
      rewrite !elem_of_cons, elem_of_nil in H; intuition congruence
    end.
Qed.

(** The weighted score over the dictionary that [analyze_token] builds. *)
Lemma built_weighted_sum analyze :
  let s := λ tf : string,
    inject_Z (momentum_scores (price_momentum (analyze tf))) in
  Qsum (weighted_momentum <$> map_to_list (build_timeframes analyze))
  == s "1h"%string * 0.15 + s "4h"%string * 0.25 + s "12h"%string * 0.25
     + s "24h"%string * 0.20 + s "3d"%string * 0.15.
Proof.
  intros s. unfold build_timeframes, timeframe_labels. cbn [foldl].
  rewrite !Qsum_map_insert, map_to_list_empty;
    try (rewrite ?lookup_insert_ne by discriminate; apply lookup_empty).
  unfold weighted_momentum. cbn [fst snd fmap list_fmap Qsum foldr].
  change (timeframe_weights !! "1h"%string) with (Some 0.15).
  change (timeframe_weights !! "4h"%string) with (Some 0.25).
  change (timeframe_weights !! "12h"%string) with (Some 0.25).
  change (timeframe_weights !! "24h"%string) with (Some 0.20).
  change (timeframe_weights !! "3d"%string) with (Some 0.15).
  cbn [default from_option id]. subst s. cbv beta. ring.
Qed.

Lemma built_trend analyze :
  ∃ w, map_fold trend_step (Some 0) (build_timeframes analyze) = Some w ∧
       w == Qsum (weighted_momentum <$> map_to_list (build_timeframes analyze)).
Proof.
  destruct (map_fold trend_step (Some 0) (build_timeframes analyze)) as [w|] eqn:E.
  - exists w. split; [reflexivity|]. now apply trend_fold_spec.
  - exfalso. apply (proj1 (trend_fold_spec _)) in E as (k & d & Hk & Hw).
    rewrite build_timeframes_lookup in Hk. case_decide; [|discriminate].
    now apply weight_missing in Hw.
Qed.

Lemma momentum_scores_range m : (-2 <= momentum_scores m <= 2)%Z.
Proof. destruct m; cbn; lia. Qed.

Lemma classify_trend_inv (w : Q) :
  match classify_trend w with
  | StrongBullish => 1.5 < w
  | Bullish => 0.5 < w ∧ w <= 1.5
  | Neutral => -0.5 < w ∧ w <= 0.5
  | Bearish => -1.5 < w ∧ w <= -0.5
  | StrongBearish => w <= -1.5
  end.
Proof.
  unfold classify_trend.
  destruct (Qltb 1.5 w) eqn:E1; [now apply Qltb_lt in E1 | apply Qltb_ge in E1].
  destruct (Qltb 0.5 w) eqn:E2;
    [apply Qltb_lt in E2; now split | apply Qltb_ge in E2].
  destruct (Qltb (-0.5) w) eqn:E3;
    [apply Qltb_lt in E3; now split | apply Qltb_ge in E3].
  destruct (Qltb (-1.5) w) eqn:E4;
    [apply Qltb_lt in E4; now split | now apply Qltb_ge in E4].
Qed.

Lemma built_trend_value (analyze : string → TimeframeData) :
  ∃ w, map_fold trend_step (Some 0) (build_timeframes analyze) = Some w ∧
  w == inject_Z (momentum_scores (price_momentum (analyze "1h"%string))) * 0.15
     + inject_Z (momentum_scores (price_momentum (analyze "4h"%string))) * 0.25
     + inject_Z (momentum_scores (price_momentum (analyze "12h"%string))) * 0.25
     + inject_Z (momentum_scores (price_momentum (analyze "24h"%string))) * 0.20
     + inject_Z (momentum_scores (price_momentum (analyze "3d"%string))) * 0.15.
Proof.
  destruct (built_trend analyze) as (w & Hfold & Hw).
  exists w. split; [exact Hfold|].
  etransitivity; [exact Hw|]. apply built_weighted_sum.
Qed.

Lemma labels_present :
  "1h"%string ∈ timeframe_labels ∧ "4h"%string ∈ timeframe_labels ∧
  "12h"%string ∈ timeframe_labels ∧ "24h"%string ∈ timeframe_labels ∧
  "3d"%string ∈ timeframe_labels.
Proof. unfold timeframe_labels. rewrite !elem_of_cons. tauto. Qed.

(** X14.  On the dictionary that [analyze_token] builds, one entry per
    label, [calculate_overall_trend] always returns a label.  When all
    five timeframes carry the same momentum the overall trend is that
    momentum; when all five are bullish or strongly bullish the overall
    trend is bullish or strongly bullish; and when none is bullish the
    overall trend is not bullish. *)
Theorem overall_trend_of_built_timeframes (analyze : string → TimeframeData) :
  ∃ m, calculate_overall_trend (build_timeframes analyze) = Some m ∧
    (∀ m0, (∀ tf, tf ∈ timeframe_labels → price_momentum (analyze tf) = m0) →
           m = m0) ∧
    ((∀ tf, tf ∈ timeframe_labels →
            is_bullish (price_momentum (analyze tf)) = true) →
     is_bullish m = true) ∧
    ((∀ tf, tf ∈ timeframe_labels →
            is_bullish (price_momentum (analyze tf)) = false) →
     is_bullish m = false).
Proof.
  destruct (built_trend_value analyze) as (w & Hfold & Hw).
  destruct labels_present as (L1 & L2 & L3 & L4 & L5).
  exists (classify_trend w). split.
  { unfold calculate_overall_trend. now rewrite Hfold. }
  pose proof (classify_trend_inv w) as Hc.
  split; [|split].
  - intros m0 Hall.
    rewrite (Hall _ L1), (Hall _ L2), (Hall _ L3), (Hall _ L4), (Hall _ L5) in Hw.
    destruct (classify_trend w), m0; try reflexivity; exfalso;
      cbv iota beta in Hc; cbn [momentum_scores] in Hw;
      unfold inject_Z in Hw; lra.
  - intros Hall.
    assert (∀ tf, tf ∈ timeframe_labels →
              1 <= inject_Z (momentum_scores (price_momentum (analyze tf)))) as Hs.
    { intros tf Htf. specialize (Hall tf Htf).
      destruct (price_momentum (analyze tf)); try discriminate;
        vm_compute; discriminate. }
    pose proof (Hs _ L1). pose proof (Hs _ L2). pose proof (Hs _ L3).
    pose proof (Hs _ L4). pose proof (Hs _ L5).
    destruct (classify_trend w); try reflexivity; exfalso;
      cbv iota beta in Hc; lra.
  - intros Hall.
    assert (∀ tf, tf ∈ timeframe_labels →
              inject_Z (momentum_scores (price_momentum (analyze tf))) <= 0) as Hs.
    { intros tf Htf. specialize (Hall tf Htf).
      destruct (price_momentum (analyze tf)); try discriminate;
        vm_compute; discriminate. }
    pose proof (Hs _ L1). pose proof (Hs _ L2). pose proof (Hs _ L3).
    pose proof (Hs _ L4). pose proof (Hs _ L5).
    destruct (classify_trend w); try reflexivity; exfalso;
      cbv iota beta in Hc; lra.
Qed.

Lemma overall_trend_of_built_timeframes_witness :
  calculate_overall_trend (build_timeframes bullish_timeframe) = Some Bullish.
Proof.
  destruct (overall_trend_of_built_timeframes bullish_timeframe)
    as (m & Hm & Hsame & _).
  rewrite Hm. f_equal. apply Hsame. intros tf _. reflexivity.
Defined.

End TrendFacts.

(** ** The aggregated analysis as a whole *)

Section AnalysisFacts.
Import PyNum DexScreener TimeframeAnalyzer TimeframeAggregation Vocabulary.
Local Open Scope Q_scope.

Lemma built_has_label analyze (k : string) :
  k ∈ timeframe_labels → build_timeframes analyze !! k = Some (analyze k).
Proof.
  intros H. rewrite build_timeframes_lookup. now case_decide.
Qed.

Lemma entry_timing_avoid_iff tok analyze t :
  calculate_entry_timing tok (build_timeframes analyze) t = Avoid
  ↔ is_bullish t = false.
Proof.
  destruct labels_present as (L1 & L2 & _).
  unfold calculate_entry_timing.
  rewrite (built_has_label analyze _ L1), (built_has_label analyze _ L2).
  destruct (is_bullish t); [|split; reflexivity].
  split; [|discriminate].
  repeat match goal with
  | |- context [if ?c then _ else _] => destruct c
  end; discriminate.
Qed.

(** X18.  Given the five per-timeframe results, [analyze_token] raises
    exactly at a market cap of -1, in the division of the overall
    score.  Otherwise it returns an analysis, for the token it was given
    and with exactly the five labels as keys.  Its risk/reward ratio
    lies in [0,3], its confidence in [40,100] and its overall score in
    [0,100]; and its entry timing is avoid exactly when its overall
    trend is neither bullish nor strongly bullish. *)
Theorem analyze_token_ranges
    (tok : TokenData) (analyze : string → TimeframeData) (now : Q) :
  (market_cap tok + 1 == 0 → analyze_token tok analyze now = None) ∧
  (¬ market_cap tok + 1 == 0 →
   ∃ an, analyze_token tok analyze now = Some an ∧
     token an = tok ∧
     (∀ k, is_Some (timeframes an !! k) ↔ k ∈ timeframe_labels) ∧
     (0 <= risk_reward_ratio an ∧ risk_reward_ratio an <= 3) ∧
     (40 <= confidence_level an ∧ confidence_level an <= 100) ∧
     (0 <= overall_score an ∧ overall_score an <= 100) ∧
     (entry_timing an = Avoid ↔ is_bullish (overall_trend an) = false)).
Proof.
  destruct (built_trend_value analyze) as (w & Hfold & _).
  unfold analyze_token, aggregate_metrics, calculate_overall_trend.
  rewrite Hfold. cbn [fmap option_fmap option_map].
  pose proof (risk_reward_range tok (build_timeframes analyze)) as [Hr0 Hr3].
  pose proof (confidence_level_bounds (build_timeframes analyze)
                (classify_trend w)
                (calculate_risk_reward tok (build_timeframes analyze))) as [Hc0 Hc1].
  assert (40 <= inject_Z (calculate_confidence_level (build_timeframes analyze)
                            (classify_trend w)
                            (calculate_risk_reward tok (build_timeframes analyze))))
    as Hq0 by (change 40 with (inject_Z 40); now rewrite <- Zle_Qle).
  assert (inject_Z (calculate_confidence_level (build_timeframes analyze)
                      (classify_trend w)
                      (calculate_risk_reward tok (build_timeframes analyze)))
          <= 100)
    as Hq1 by (change 100 with (inject_Z 100); now rewrite <- Zle_Qle).
  destruct (calculate_overall_score tok (build_timeframes analyze)
              (classify_trend w)
              (calculate_risk_reward tok (build_timeframes analyze))
              (inject_Z (calculate_confidence_level (build_timeframes analyze)
                           (classify_trend w)
                           (calculate_risk_reward tok (build_timeframes analyze)))))
    as [score|] eqn:Escore.
  - split.
    { intros Hmc. apply (overall_score_none_iff tok (build_timeframes analyze)
                           (classify_trend w)
                           (calculate_risk_reward tok (build_timeframes analyze))
                           (inject_Z (calculate_confidence_level
                                        (build_timeframes analyze)
                                        (classify_trend w)
                                        (calculate_risk_reward tok
                                           (build_timeframes analyze)))))
        in Hmc. congruence. }
    intros _. eexists. split; [reflexivity|].
    cbn [token timeframes risk_reward_ratio confidence_level overall_score
         entry_timing overall_trend].
    split; [reflexivity|]. split; [|split; [|split; [|split]]].
    + intros k. rewrite build_timeframes_lookup. case_decide.
      * split; [tauto | intros _; eauto].
      * split; [intros [? H']; discriminate H' | tauto].
    + split; assumption.
    + split; assumption.
    + split.
      * apply (overall_score_bounds _ _ _ _ _ _ Escore); lra.
      * apply (overall_score_bounds _ _ _ _ _ _ Escore).
    + apply entry_timing_avoid_iff.
  - split; [reflexivity|].
    intros Hmc. apply overall_score_none_iff in Escore. contradiction.
Qed.

Lemma analyze_token_ranges_witness :
  ∃ an, analyze_token rising_token bullish_timeframe 0 = Some an ∧
        40 <= confidence_level an ∧ overall_score an <= 100.
Proof.
  destruct (analyze_token_ranges rising_token bullish_timeframe 0) as [_ H].
  destruct H as (an & Han & _ & _ & _ & [Hc _] & [_ Hs] & _).
  - vm_compute. discriminate.
  - exists an. split; [exact Han|]. split; assumption.
Defined.

End AnalysisFacts.

(** ** The agent: sizing and execution *)

Section ExecutionFacts.
Import PyNum DexScreener PortfolioTracker TimeframeAnalyzer TradingAgent
  AgentExecution Vocabulary.
Local Open Scope Q_scope.

Lemma available_capital_nonneg ag : 0 <= get_available_capital ag.
Proof. unfold get_available_capital. apply py_max_spec. Qed.

(** X19.  For a confidence between 0 and 100 and a positive price, the
    cost of the position the agent sizes (size times price) is never
    negative and never more than 20% of the available capital. *)
Theorem position_cost_at_most_fifth (ag : AITradingAgent) (token_price c : Q) :
  0 <= c → c <= 100 → 0 < token_price →
  0 <= TradingAgent.calculate_position_size ag token_price c * token_price ∧
  TradingAgent.calculate_position_size ag token_price c * token_price
  <= 0.2 * get_available_capital ag.
Proof.
  intros Hc0 Hc1 Hp. unfold TradingAgent.calculate_position_size.
  apply Qltb_lt in Hp as Hb. rewrite Hb.
  pose proof (available_capital_nonneg ag) as Ha.
  set (a := get_available_capital ag) in *.
  set (pct := 0.1 + 0.1 * ((c - 50) / 50)).
  assert (0 <= pct ∧ pct <= 0.2) as [Hp0 Hp1].
  { subst pct. split.
    - assert (-1 <= (c - 50) / 50) by (apply Qle_shift_div_l; lra). lra.
    - assert ((c - 50) / 50 <= 1) by (apply Qle_shift_div_r; lra). lra. }
  assert (a * pct / token_price * token_price == a * pct) as -> by (field; lra).
  split.
  - now apply Qmult_le_0_compat.
  - rewrite (Qmult_comm 0.2 a), (Qmult_comm a pct), (Qmult_comm a 0.2).
    now apply Qmult_le_compat_r.
Qed.

Lemma position_cost_at_most_fifth_witness :
  TradingAgent.calculate_position_size (init 1000) 2 100 * 2 <= 0.2 * 500.
Proof.
  apply (position_cost_at_most_fifth (init 1000) 2 100);
    vm_compute; first [discriminate | reflexivity].
Defined.

Lemma with_portfolio_same ag : with_portfolio ag (portfolio ag) = ag.
Proof. now destruct ag. Qed.

Lemma with_agent_same rt : with_agent rt (agent rt) = rt.
Proof. now destruct rt. Qed.

(** X20.  Executing a buy decision returns a boolean.  A refused buy
    leaves the agent exactly as it was.  An executed buy was allowed by
    [can_open_position], deducts quantity times price from the cash
    balance without making it negative, stores the position under the
    token address, counts one more trade and keeps the number of open
    positions within [max_positions]. *)
Theorem execute_buy_respects_cash_and_cap
    (rt : AgentRuntime) (d : TradingDecision) (now : Q) :
  d_action d = DBuy →
  let r := execute_decision rt d now in
  let pf := portfolio (agent rt) in
  let pf' := portfolio (agent r.2) in
  (r.1 = Some false ∧ r.2 = rt) ∨
  (r.1 = Some true ∧
   can_open_position (agent rt) = true ∧
   current_balance pf'
   = current_balance pf - suggested_amount d * price_usd (d_token d) ∧
   0 <= current_balance pf' ∧
   is_Some (positions pf' !! address (d_token d)) ∧
   (Z.of_nat (size (positions pf')) <= max_positions (agent rt))%Z ∧
   total_trades r.2 = (total_trades rt + 1)%Z).
Proof.
  intros Hd r pf pf'. subst r pf pf'. unfold execute_decision. rewrite Hd.
  destruct (can_open_position (agent rt)) eqn:Hcan; cbn [negb]; [|now left].
  cbn [new_position entry_price quantity].
  destruct (Qltb _ _) eqn:Hcost; [now left|]. right.
  apply Qltb_ge in Hcost.
  cbn [fst snd agent with_portfolio portfolio add_position current_balance
       positions total_trades quantity entry_price token_address new_position].
  split; [reflexivity|]. split; [reflexivity|]. split; [reflexivity|].
  split; [lra|]. split; [rewrite lookup_insert_eq; eauto|].
  split; [|reflexivity].
  unfold can_open_position in Hcan. apply andb_true_iff in Hcan as [Hn _].
  apply Z.ltb_lt in Hn. rewrite map_size_insert.
  destruct (positions (portfolio (agent rt)) !! _); cbn; lia.
Qed.

Lemma execute_buy_respects_cash_and_cap_witness :
  (execute_decision (start 1000) (decision_for DBuy fresh_token 50) 0).1
  = Some true.
Proof.
  destruct (execute_buy_respects_cash_and_cap (start 1000)
              (decision_for DBuy fresh_token 50) 0) as [[H _]|[H _]].
  - reflexivity.
  - vm_compute in H. discriminate H.
  - exact H.
Defined.

(** X21.  Executing a sell decision succeeds exactly when the token has
    an open position.  On success the position is gone, the agent's
    total profit and the portfolio's realized pnl grow by the same
    final pnl, and the agent's successful or failed counter moves
    together with the portfolio's win or loss counter; a refused sell
    leaves the agent as it was. *)
Theorem execute_sell_tracks_portfolio
    (rt : AgentRuntime) (d : TradingDecision) (now : Q) :
  d_action d = DSell →
  let r := execute_decision rt d now in
  let addr := address (d_token d) in
  let pf := portfolio (agent rt) in
  let pf' := portfolio (agent r.2) in
  (positions pf !! addr = None ∧ r.1 = Some false ∧ r.2 = rt) ∨
  (∃ pos, positions pf !! addr = Some pos ∧ r.1 = Some true ∧
     positions pf' !! addr = None ∧
     let pnl := pnl_usd (update_price pos (price_usd (d_token d))) in
     total_profit r.2 = total_profit rt + pnl ∧
     total_realized_pnl pf' = total_realized_pnl pf + pnl ∧
     (successful_trades r.2 - successful_trades rt
      = win_count pf' - win_count pf)%Z ∧
     (failed_trades r.2 - failed_trades rt
      = loss_count pf' - loss_count pf)%Z ∧
     (successful_trades r.2 + failed_trades r.2
      = successful_trades rt + failed_trades rt + 1)%Z).
Proof.
  intros Hd r addr pf pf'. subst r addr pf pf'.
  unfold execute_decision. rewrite Hd.
  destruct (positions (portfolio (agent rt)) !! address (d_token d))
    as [pos|] eqn:Hpos.
  - right. exists pos. split; [reflexivity|].
    unfold close_position, store_position. cbn [positions].
    rewrite lookup_insert_eq. cbn [fst snd].
    cbn [agent with_portfolio portfolio positions total_profit
         total_realized_pnl win_count loss_count successful_trades
         failed_trades update_price pnl_usd quantity entry_price
         position_value_usd].
    split; [reflexivity|]. split; [apply lookup_delete_eq|].
    cbv zeta.
    split; [reflexivity|]. split; [reflexivity|].
    destruct (Qltb 0 _); repeat split; lia.
  - left. split; [reflexivity|].
    rewrite close_position_absent by assumption. cbn [fst snd].
    split; [reflexivity|].
    now rewrite with_portfolio_same, with_agent_same.
Qed.

Lemma execute_sell_tracks_portfolio_witness :
  (execute_decision holding_runtime (decision_for DSell quoted_token 5) 60).1
  = Some true.
Proof.
  destruct (execute_sell_tracks_portfolio holding_runtime
              (decision_for DSell quoted_token 5) 60)
    as [(H & _)|(pos & _ & H & _)].
  - reflexivity.
  - vm_compute in H. discriminate H.
  - exact H.
Defined.

End ExecutionFacts.

(** ** The agent: entry decisions *)

Section DecisionFacts.
Import PyNum DexScreener PortfolioTracker TimeframeAnalyzer TradingAgent
  AgentExecution Vocabulary.
Local Open Scope Q_scope.

Variable np_percentile : list Q → Q → Q.
Variable np_std : list Q → Q.
Variable fmt0 : Q → string.
Variable fmt1 : Q → string.
Variable age_of : string → option Q.

Lemma existing_position_sells tok ag run now d :
  (_analyze_existing_position np_percentile np_std fmt1 ag tok run now).1
  = Returned (Some d) →
  d_action d = DSell ∧ d_token d = tok ∧ d_confidence d = 90 ∧
  TimeframeAggregation.analyze_token_without_history
    np_percentile np_std tok run = Returned (d_analysis d).
Proof.
  unfold _analyze_existing_position.
  destruct (positions (portfolio ag) !! address tok); [|discriminate].
  destruct (TimeframeAggregation.analyze_token_without_history
              np_percentile np_std tok run) as [an|]; [|discriminate].
  destruct (exit_rule _ _ _ _ _); [|discriminate].
  intros [= <-]. repeat split.
Qed.

(** X22.  Whatever [analyze_token_opportunity] decides, it is a sell of
    a token that has an open position, or a buy of a token that has
    none, and it carries the analysis that the analyzer returned in this
    call.  A buy is only decided when the confidence reaches the
    configured minimum, the entry timing is immediate and the overall
    score is at least 80, and its amount is what
    [calculate_position_size] gives for the token's price and the
    analysis' confidence. *)
Theorem opportunity_decisions
    (rt : AgentRuntime) (tok : TokenData)
    (run : TimeframeAggregation.AnalyzerRun) (now : Q) (d : TradingDecision) :
  (analyze_token_opportunity np_percentile np_std fmt0 fmt1 age_of
     rt tok run now).1 = Returned (Some d) →
  d_token d = tok ∧
  ∃ an,
    TimeframeAggregation.analyze_token_without_history
      np_percentile np_std tok run = Returned an ∧
    d_analysis d = an ∧
  ((d_action d = DSell ∧
    is_Some (positions (portfolio (agent rt)) !! address tok)) ∨
   (d_action d = DBuy ∧
    positions (portfolio (agent rt)) !! address tok = None ∧
    min_confidence (agent rt) <= confidence_level an ∧
    entry_timing an = Immediate ∧
    80 <= overall_score an ∧
    suggested_amount d
    = TradingAgent.calculate_position_size (agent rt) (price_usd tok)
        (confidence_level an))).
Proof.
  unfold analyze_token_opportunity.
  destruct (positions (portfolio (agent rt)) !! address tok) as [pos|] eqn:Hpos.
  - cbn [fst]. intros H.
    destruct (existing_position_sells _ _ _ _ _ H) as (Ha & Ht & _ & Han).
    split; [exact Ht|]. exists (d_analysis d).
    split; [exact Han|]. split; [reflexivity|].
    left. split; [exact Ha | eauto].
  - destruct (TimeframeAggregation.analyze_token_without_history
                np_percentile np_std tok run) as [an|]; [|discriminate].
    destruct (Qltb (confidence_level an) (min_confidence (agent rt))) eqn:Ec;
      [discriminate|].
    apply Qltb_ge in Ec.
    destruct (entry_timing an) eqn:Et; cbn [andb]; try discriminate;
      destruct (TokenSimilarity.analyze_token age_of tok); try discriminate;
      rewrite ?andb_false_r, ?andb_true_r.
    + destruct (Qleb 80 (overall_score an)) eqn:Es.
      * apply Qleb_le in Es.
        destruct (_select_strategy an); [|discriminate].
        cbn [fst]. intros [= <-]. cbn.
        split; [reflexivity|]. exists an. split; [reflexivity|].
        split; [reflexivity|]. right. repeat split; assumption.
      * destruct (Qleb 70 (overall_score an)); discriminate.
    + destruct (Qleb 80 (overall_score an)); cbn [andb];
        destruct (Qleb 70 (overall_score an)); cbn [andb];
        try case_decide; discriminate.
    + destruct (Qleb 80 (overall_score an)); cbn [andb];
        destruct (Qleb 70 (overall_score an)); discriminate.
Qed.

Lemma opportunity_state_new rt tok run now :
  positions (portfolio (agent rt)) !! address tok = None →
  ∃ analyzed wl,
    (analyze_token_opportunity np_percentile np_std fmt0 fmt1 age_of
     rt tok run now).2
    = mkRuntime (agent rt) (total_trades rt) (successful_trades rt)
        (failed_trades rt) (total_profit rt) analyzed wl ∧
    (match TimeframeAggregation.analyze_token_without_history
             np_percentile np_std tok run with
     | Returned an => analyzed = <[address tok := an]> (analyzed_tokens rt)
     | Raised => analyzed = analyzed_tokens rt
     end) ∧
    (wl = watchlist rt ∨
     (wl = watchlist rt ++ [address tok] ∧ address tok ∉ watchlist rt)).
Proof.
  intros Hpos. unfold analyze_token_opportunity. rewrite Hpos.
  destruct (TimeframeAggregation.analyze_token_without_history
              np_percentile np_std tok run) as [an|].
  - repeat match goal with
    | |- context [if ?c then _ else _] => destruct c
    | |- context [match _select_strategy ?a with _ => _ end] =>
      destruct (_select_strategy a)
    | |- context [match TokenSimilarity.analyze_token ?a ?t with _ => _ end] =>
      destruct (TokenSimilarity.analyze_token a t)
    end; cbn [snd watchlist]; eexists _, _;
      (split; [reflexivity|]); (split; [reflexivity|]); auto.
  - destruct rt. cbn. eexists _, _. split; [reflexivity|]. auto.
Qed.

Lemma opportunity_state_open rt tok run now pos :
  positions (portfolio (agent rt)) !! address tok = Some pos →
  (analyze_token_opportunity np_percentile np_std fmt0 fmt1 age_of
     rt tok run now).2
  = with_agent rt
      (with_portfolio (agent rt)
         (store_position (portfolio (agent rt)) (address tok)
            (update_price pos (price_usd tok)))).
Proof.
  intros Hpos. unfold analyze_token_opportunity, _analyze_existing_position.
  rewrite Hpos. destruct (TimeframeAggregation.analyze_token_without_history
                            np_percentile np_std tok run); [|reflexivity].
  now destruct (exit_rule _ _ _ _ _).
Qed.

(** X23.  Deciding moves no money: whether it returns or raises,
    [analyze_token_opportunity] leaves the cash balance, the trade
    history, the set of open addresses and the trade counters
    untouched.  The watchlist only grows, by at most the token's
    address, and stays free of duplicates. *)
Theorem opportunity_keeps_books
    (rt : AgentRuntime) (tok : TokenData)
    (run : TimeframeAggregation.AnalyzerRun) (now : Q) :
  let r := analyze_token_opportunity np_percentile np_std fmt0 fmt1 age_of
             rt tok run now in
  let pf := portfolio (agent rt) in
  let pf' := portfolio (agent r.2) in
  current_balance pf' = current_balance pf ∧
  trade_history pf' = trade_history pf ∧
  (∀ a, is_Some (positions pf' !! a) ↔ is_Some (positions pf !! a)) ∧
  total_trades r.2 = total_trades rt ∧
  (∃ extra, watchlist r.2 = watchlist rt ++ extra ∧
            (extra = [] ∨ extra = [address tok])) ∧
  (NoDup (watchlist rt) → NoDup (watchlist r.2)).
Proof.
  intros r pf pf'. subst r pf pf'.
  destruct (positions (portfolio (agent rt)) !! address tok) as [pos|] eqn:Hpos.
  - rewrite (opportunity_state_open _ _ _ _ _ Hpos).
    cbn [with_agent agent with_portfolio portfolio store_position
         current_balance trade_history positions total_trades watchlist].
    repeat split; try reflexivity.
    + destruct (decide (address tok = a)) as [<-|Hne].
      * rewrite Hpos. eauto.
      * now rewrite lookup_insert_ne.
    + destruct (decide (address tok = a)) as [<-|Hne].
      * rewrite lookup_insert_eq. eauto.
      * now rewrite lookup_insert_ne.
    + exists []. split; [now rewrite app_nil_r | now left].
    + auto.
  - destruct (opportunity_state_new rt tok run now Hpos)
      as (analyzed & wl & -> & _ & Hwl).
    cbn [agent total_trades watchlist].
    repeat split; try reflexivity; try tauto.
    + destruct Hwl as [->|[-> _]].
      * exists []. split; [now rewrite app_nil_r | now left].
      * eexists. split; [reflexivity | now right].
    + intros Hnd. destruct Hwl as [->|[-> Hnew]]; [exact Hnd|].
      apply NoDup_app. split; [exact Hnd|]. split.
      * intros x Hx Hx'. apply list_elem_of_singleton in Hx' as ->. contradiction.
      * apply NoDup_singleton.
Qed.

(** The dictionary that the loop over the five labels fills is the one
    built from the five results. *)
Lemma analyze_timeframes_built tok price_history volume_history tfs :
  TimeframeAggregation.analyze_timeframes np_percentile np_std tok
    price_history volume_history = Some tfs →
  ∃ analyze, tfs = TimeframeAggregation.build_timeframes analyze.
Proof.
  unfold TimeframeAggregation.analyze_timeframes,
    TimeframeAggregation.timeframe_labels. cbn [foldl].
  repeat match goal with
  | |- context [TimeframeAggregation.analyze_timeframe ?a ?b ?c ?d ?e ?f] =>
    destruct (TimeframeAggregation.analyze_timeframe a b c d e f);
      [|discriminate]
  end.
  intros [= <-].
  match goal with
  | |- ∃ _, <[_ := ?d5]> (<[_ := ?d4]> (<[_ := ?d3]> (<[_ := ?d2]>
               (<[_ := ?d1]> _)))) = _ =>
    exists (λ tf, if decide (tf = "1h"%string) then d1
                  else if decide (tf = "4h"%string) then d2
                  else if decide (tf = "12h"%string) then d3
                  else if decide (tf = "24h"%string) then d4
                  else d5)
  end.
  reflexivity.
Qed.

(** Every analysis that the call without history returns is one that
    the aggregation returns for some five per-timeframe results. *)
Lemma analyzer_call_aggregates tok run an :
  TimeframeAggregation.analyze_token_without_history
    np_percentile np_std tok run = Returned an →
  ∃ analyze,
    TimeframeAggregation.analyze_token tok analyze
      (TimeframeAggregation.utcnow run) = Some an.
Proof.
  unfold TimeframeAggregation.analyze_token_without_history.
  destruct (TimeframeAggregation._generate_mock_price_history _ _)
    as [price_history|]; [|discriminate].
  destruct (TimeframeAggregation.analyze_timeframes _ _ _ _ _) as [tfs|] eqn:E;
    [|discriminate].
  apply analyze_timeframes_built in E as (analyze & ->).
  destruct (TimeframeAggregation.aggregate_metrics _ _ _) as [a|] eqn:Ea;
    [|discriminate].
  intros [= <-]. exists analyze. exact Ea.
Qed.

(** X24.  [_select_strategy] raises (a division by zero) exactly when
    the analysis has no timeframe at all; on every analysis returned by
    [analyze_token], with the per-timeframe results given or generated
    from the mock history, it returns a strategy. *)
Theorem select_strategy_raises_only_on_empty (an : MultiTimeframeAnalysis) :
  (_select_strategy an = Raised ↔ timeframes an = ∅) ∧
  (∀ tok analyze now,
     TimeframeAggregation.analyze_token tok analyze now = Some an →
     ∃ strategy, _select_strategy an = Returned strategy) ∧
  (∀ tok run,
     TimeframeAggregation.analyze_token_without_history
       np_percentile np_std tok run = Returned an →
     ∃ strategy, _select_strategy an = Returned strategy).
Proof.
  assert (_select_strategy an = Raised ↔ timeframes an = ∅) as Hiff.
  { unfold _select_strategy.
    destruct (volatility <$> tf_values (timeframes an)) as [|v vs] eqn:E.
    - split; [intros _|reflexivity].
      apply fmap_nil_inv in E. unfold tf_values in E.
      apply fmap_nil_inv in E. now apply map_to_list_empty_iff.
    - split.
      + repeat match goal with
        | |- context [if ?c then _ else _] => destruct c
        end; discriminate.
      + intros Hempty. rewrite Hempty in E. unfold tf_values in E.
        rewrite map_to_list_empty in E. discriminate E. }
  assert (∀ tok analyze now,
     TimeframeAggregation.analyze_token tok analyze now = Some an →
     ∃ strategy, _select_strategy an = Returned strategy) as Hagg.
  { intros tok analyze now Han.
    destruct (_select_strategy an) as [st|]; [eauto|exfalso].
    assert (timeframes an = ∅) as E by now apply Hiff.
    unfold TimeframeAggregation.analyze_token,
      TimeframeAggregation.aggregate_metrics in Han.
    destruct (TimeframeAggregation.calculate_overall_trend _); [|discriminate].
    destruct (TimeframeAggregation.calculate_overall_score _ _ _ _ _);
      [|discriminate].
    injection Han as <-. cbn [timeframes] in E.
    assert (TimeframeAggregation.build_timeframes analyze !! "1h"%string = None)
      as H0 by (rewrite E; apply lookup_empty).
    rewrite built_has_label in H0; [discriminate | apply labels_present]. }
  split; [exact Hiff|]. split; [exact Hagg|].
  intros tok run Hcall.
  destruct (analyzer_call_aggregates tok run an Hcall) as (analyze & Han).
  eapply Hagg. exact Han.
Qed.

End DecisionFacts.

Section DecisionScenario.
Import PyNum DexScreener PortfolioTracker TimeframeAnalyzer TradingAgent
  AgentExecution Scenarios Vocabulary.
Local Open Scope Q_scope.

Lemma opportunity_decisions_witness :
  ∃ d, (analyze_token_opportunity sample_percentile sample_std
          sample_fmt0 sample_fmt1 no_age
          (start 1000) rising_token calm_run 0).1 = Returned (Some d) ∧
       d_action d = DBuy ∧ d_token d = rising_token.
Proof.
  eexists. split; [vm_compute; reflexivity|]. split; [reflexivity|].
  eapply (opportunity_decisions sample_percentile sample_std
            sample_fmt0 sample_fmt1 no_age
            (start 1000) rising_token calm_run 0).
  vm_compute. reflexivity.
Defined.

Lemma opportunity_keeps_books_witness :
  NoDup (watchlist (analyze_token_opportunity sample_percentile sample_std
                      sample_fmt0 sample_fmt1 no_age
                      (start 1000) rising_token calm_run 0).2).
Proof.
  apply (opportunity_keeps_books sample_percentile sample_std
           sample_fmt0 sample_fmt1 no_age
           (start 1000) rising_token calm_run 0).
  apply NoDup_nil_2.
Defined.

Lemma select_strategy_raises_only_on_empty_witness :
  _select_strategy Scenarios.falling_analysis = Raised.
Proof.
  apply (select_strategy_raises_only_on_empty sample_percentile sample_std
           Scenarios.falling_analysis).
  reflexivity.
Defined.

End DecisionScenario.

(** ** Parts of the opportunity score *)

(** ** Reference profiles: the three gates and the score floor *)

Section GateFacts.
Import PyNum DexScreener TokenSimilarity Specification Vocabulary.
Local Open Scope Q_scope.

Variable age_of : string → option Q.

(** Both reference profiles: the function returns, and an entry is in
    its result exactly when it is the record of a candidate that passes
    the gates. *)
Lemma profile_result_iff profile candidates :
  profile = dust_profile ∨ profile = priceless_profile →
  ∃ out, sort_desc <$> collect age_of profile candidates = Some out ∧
    StronglySorted score_desc out ∧
    ∀ m, m ∈ out ↔
         ∃ t, t ∈ candidates ∧ passes_gates profile t = Some true
              ∧ profile_metrics age_of t = Some m.
Proof.
  intros Hp.
  destruct (collect_spec age_of profile candidates
              (reference_profile_bound profile Hp)) as (filtered & -> & Hin).
  exists (sort_desc filtered). split; [reflexivity|]. split.
  - apply Sorted_StronglySorted; [apply score_desc_trans | apply sort_desc_sorted].
  - intros m. rewrite sort_desc_perm. apply Hin.
Qed.

(** X25.  [find_priceless_like_tokens] returns for every candidate
    list, and it returns exactly the candidates with a market cap in
    [500,000, 20,000,000], a volume to market-cap ratio in [1, 5] and a
    liquidity of at least 50,000, each with its opportunity score over
    100 as similarity, sorted by descending similarity. *)
Theorem priceless_gates_and_order (candidates : list TokenData) :
  ∃ out, find_priceless_like_tokens age_of candidates = Some out ∧
  (∀ m, m ∈ out ↔
     ∃ t, t ∈ candidates ∧ profile_metrics age_of t = Some m ∧
          500_000 <= market_cap t ∧ market_cap t <= 20_000_000 ∧
          1 <= volume_24h t / (market_cap t + 1) ∧
          volume_24h t / (market_cap t + 1) <= 5 ∧
          50_000 <= liquidity_usd t) ∧
  StronglySorted score_desc out.
Proof.
  destruct (profile_result_iff priceless_profile candidates)
    as (out & Hout & Hsorted & Hin); [now right|].
  exists out. split; [exact Hout|]. split; [|exact Hsorted].
  assert (1.0 == 1) as E1 by reflexivity.
  assert (5.0 == 5) as E5 by reflexivity.
  intros m. rewrite Hin. split.
  - intros (t & Ht & Hg & Hm). exists t.
    apply passes_gates_iff in Hg. cbn in Hg. rewrite E1, E5 in Hg.
    split; [exact Ht|]. split; [exact Hm | tauto].
  - intros (t & Ht & Hm & Hg). exists t.
    split; [exact Ht|]. split; [|exact Hm].
    apply passes_gates_iff. cbn. rewrite E1, E5.
    repeat split; try tauto. lra.
Qed.

(** X26.  [find_dust_like_tokens] returns for every candidate list, and
    it returns exactly the candidates that pass all three gates of the
    DUST profile: market cap in [1,000,000, 50,000,000], volume to
    market-cap ratio in [0.5, 3] and liquidity of at least 100,000. *)
Theorem dust_result_iff_all_gates (candidates : list TokenData) :
  ∃ out, find_dust_like_tokens age_of candidates = Some out ∧
  ∀ m, m ∈ out ↔
    ∃ t, t ∈ candidates ∧ profile_metrics age_of t = Some m ∧
         1_000_000 <= market_cap t ∧ market_cap t <= 50_000_000 ∧
         0.5 <= volume_24h t / (market_cap t + 1) ∧
         volume_24h t / (market_cap t + 1) <= 3 ∧
         100_000 <= liquidity_usd t.
Proof.
  destruct (profile_result_iff dust_profile candidates)
    as (out & Hout & _ & Hin); [now left|].
  exists out. split; [exact Hout|].
  assert (3.0 == 3) as E by reflexivity.
  intros m. rewrite Hin. split.
  - intros (t & Ht & Hg & Hm). exists t.
    apply passes_gates_iff in Hg. cbn in Hg. rewrite E in Hg.
    split; [exact Ht|]. split; [exact Hm | tauto].
  - intros (t & Ht & Hm & Hg). exists t.
    split; [exact Ht|]. split; [|exact Hm].
    apply passes_gates_iff. cbn. rewrite E.
    repeat split; try tauto. lra.
Qed.

Lemma gated_score_floor profile t :
  profile = dust_profile ∨ profile = priceless_profile →
  passes_gates profile t = Some true →
  ∃ score, _calculate_opportunity t = Some score ∧ (25 <= score <= 100)%Z.
Proof.
  intros Hp Hg. apply passes_gates_iff in Hg.
  assert (¬ market_cap t + 1 == 0) as Hne by tauto.
  rewrite (opportunity_defined t Hne). eexists. split; [reflexivity|].
  pose proof (volume_points_range (volume_24h t / (market_cap t + 1))) as Hv.
  pose proof (momentum_points_range t) as Hm.
  pose proof (liquidity_points_range t) as Hl.
  pose proof (mcap_points_range t) as Hc.
  assert (15 <= mcap_points t)%Z as Hc15.
  { unfold mcap_points. cbv zeta.
    repeat match goal with
    | |- context [Qleb ?x ?y] =>
      let E := fresh "E" in
      destruct (Qleb x y) eqn:E; [apply Qleb_le in E | apply Qleb_gt in E]
    | |- context [Qltb ?x ?y] =>
      let E := fresh "E" in
      destruct (Qltb x y) eqn:E; [apply Qltb_lt in E | apply Qltb_ge in E]
    end; cbn [andb]; try lia; exfalso;
      destruct Hp as [-> | ->]; cbn in Hg; lra. }
  assert (10 <= volume_points (volume_24h t / (market_cap t + 1))
                + liquidity_points t)%Z as Hvl.
  { destruct Hp as [-> | ->]; cbn in Hg.
    - assert (10 <= liquidity_points t)%Z; [|lia].
      unfold liquidity_points.
      repeat match goal with
      | |- context [Qltb ?x ?y] =>
        let E := fresh "E" in
        destruct (Qltb x y) eqn:E; [apply Qltb_lt in E | apply Qltb_ge in E]
      end; try lia; exfalso; lra.
    - assert (10 <= volume_points (volume_24h t / (market_cap t + 1)))%Z; [|lia].
      unfold volume_points.
      repeat match goal with
      | |- context [Qltb ?x ?y] =>
        let E := fresh "E" in
        destruct (Qltb x y) eqn:E; [apply Qltb_lt in E | apply Qltb_ge in E]
      end; try lia; exfalso; lra. }
  unfold py_minZ. rewrite Z.add_0_l.
  destruct (Z.ltb_spec 100
    (volume_points (volume_24h t / (market_cap t + 1)) + momentum_points t
     + liquidity_points t + mcap_points t)); lia.
Qed.

(** X27.  Every entry returned by [find_dust_like_tokens] or by
    [find_priceless_like_tokens] has a similarity score between 0.25
    and 1: passing the gates already earns 25 of the 100 points. *)
Theorem profile_similarity_floor (candidates : list TokenData)
    (out : list SimilarityMetrics) (m : SimilarityMetrics) :
  find_dust_like_tokens age_of candidates = Some out ∨
  find_priceless_like_tokens age_of candidates = Some out →
  m ∈ out →
  0.25 <= similarity_score m ∧ similarity_score m <= 1.
Proof.
  intros Hout Hm.
  assert (∃ score, similarity_score m = inject_Z score / 100 ∧
                   (25 <= score <= 100)%Z) as (score & -> & Hlo & Hhi).
  { destruct Hout as [Hout|Hout].
    - destruct (profile_result_iff dust_profile candidates)
        as (out' & Hout' & _ & Hin); [now left|].
      unfold find_dust_like_tokens in Hout. rewrite Hout' in Hout.
      injection Hout as ->. apply Hin in Hm as (t & _ & Hg & Hm).
      destruct (gated_score_floor dust_profile t) as (score & Hs & Hr);
        [now left | exact Hg |].
      apply profile_metrics_inv in Hm as (_ & score' & Hs' & Hsim).
      exists score. split; [congruence | exact Hr].
    - destruct (profile_result_iff priceless_profile candidates)
        as (out' & Hout' & _ & Hin); [now right|].
      unfold find_priceless_like_tokens in Hout. rewrite Hout' in Hout.
      injection Hout as ->. apply Hin in Hm as (t & _ & Hg & Hm).
      destruct (gated_score_floor priceless_profile t) as (score & Hs & Hr);
        [now right | exact Hg |].
      apply profile_metrics_inv in Hm as (_ & score' & Hs' & Hsim).
      exists score. split; [congruence | exact Hr]. }
  rewrite Zle_Qle in Hlo, Hhi.
  change (inject_Z 25) with 25 in Hlo. change (inject_Z 100) with 100 in Hhi.
  split.
  - apply Qle_shift_div_l; lra.
  - apply Qle_shift_div_r; lra.
Qed.

End GateFacts.

Section GateScenario.
Import PyNum DexScreener TokenSimilarity Specification Scenarios Vocabulary.
Local Open Scope Q_scope.

Lemma dust_sized_metrics :
  ∃ m, profile_metrics no_age dust_sized_token = Some m ∧
       find_dust_like_tokens no_age [dust_sized_token] = Some [m] ∧
       find_priceless_like_tokens no_age [dust_sized_token] = Some [m].
Proof. eexists. repeat split; vm_compute; reflexivity. Qed.

Lemma priceless_gates_and_order_witness :
  ∃ out m, find_priceless_like_tokens no_age [dust_sized_token] = Some out ∧
           profile_metrics no_age dust_sized_token = Some m ∧ m ∈ out.
Proof.
  destruct (priceless_gates_and_order no_age [dust_sized_token])
    as (out & Hout & Hin & _).
  destruct dust_sized_metrics as (m & Hm & _).
  exists out, m. split; [exact Hout|]. split; [exact Hm|].
  apply Hin. exists dust_sized_token. split; [left|]. split; [exact Hm|].
  repeat split; vm_compute; discriminate.
Defined.

Lemma dust_result_iff_all_gates_witness :
  ∃ out m,
    find_dust_like_tokens no_age [oversized_token; dust_sized_token] = Some out ∧
    profile_metrics no_age dust_sized_token = Some m ∧ m ∈ out.
Proof.
  destruct (dust_result_iff_all_gates no_age [oversized_token; dust_sized_token])
    as (out & Hout & Hin).
  destruct dust_sized_metrics as (m & Hm & _).
  exists out, m. split; [exact Hout|]. split; [exact Hm|].
  apply Hin. exists dust_sized_token. split; [right; left|]. split; [exact Hm|].
  repeat split; vm_compute; discriminate.
Defined.

Lemma profile_similarity_floor_witness :
  ∃ m, profile_metrics no_age dust_sized_token = Some m ∧
       0.25 <= similarity_score m.
Proof.
  destruct dust_sized_metrics as (m & Hm & Hdust & _).
  exists m. split; [exact Hm|].
  apply (profile_similarity_floor no_age [dust_sized_token] [m] m).
  - left. exact Hdust.
  - left.
Defined.

End GateScenario.

(** ** Risk level and volume rating *)

Section RiskFacts.
Import PyNum DexScreener TokenSimilarity PortfolioManager Scenarios Vocabulary.
Local Open Scope Q_scope.

Variable age_of : string → option Q.

(** X28.  A token with less than 50,000 of liquidity whose pair is
    younger than 24 hours is of extreme risk, and [should_buy] refuses
    it whatever its score.  A token with at least 100,000 of liquidity,
    a 24h change of at most 50% either way and a market cap of at least
    1,000,000 is of low risk when its age is at least 72 hours, and
    also when its creation time cannot be read. *)
Theorem risk_level_extremes (t : TokenData) :
  (liquidity_usd t < 50_000 →
   (∃ a, age_of (created_at t) = Some a ∧ a < 24) →
   _calculate_risk age_of t = Extreme ∧
   ∀ mgr s n, should_buy mgr s (_calculate_risk age_of t) n = false) ∧
  (100_000 <= liquidity_usd t → Qabs (price_change_24h t) <= 50 →
   1_000_000 <= market_cap t →
   (age_of (created_at t) = None ∨
    ∃ a, age_of (created_at t) = Some a ∧ 72 <= a) →
   _calculate_risk age_of t = Low).
Proof.
  split.
  - intros Hl (a & Ha & Ha24).
    assert (_calculate_risk age_of t = Extreme) as Hx.
    { unfold _calculate_risk. rewrite Ha.
      apply Qltb_lt in Hl as ->. apply Qltb_lt in Ha24 as ->.
      repeat match goal with
      | |- context [if Qltb ?x ?y then _ else _] => destruct (Qltb x y)
      end; reflexivity. }
    split; [exact Hx|]. intros mgr s n. rewrite Hx. unfold should_buy.
    now destruct (_ <=? _)%Z.
  - intros Hl Hp Hm Hage. unfold _calculate_risk.
    assert (Qltb (liquidity_usd t) 50_000 = false) as -> by (apply Qltb_ge; lra).
    assert (Qltb (liquidity_usd t) 100_000 = false) as -> by (apply Qltb_ge; lra).
    assert (Qltb 50 (Qabs (price_change_24h t)) = false) as ->
      by (apply Qltb_ge; lra).
    assert (Qltb (market_cap t) 1_000_000 = false) as -> by (apply Qltb_ge; lra).
    destruct Hage as [-> | (a & -> & Ha)]; [reflexivity|].
    assert (Qltb a 24 = false) as -> by (apply Qltb_ge; lra).
    assert (Qltb a 72 = false) as -> by (apply Qltb_ge; lra).
    reflexivity.
Qed.

(** X29.  [_analyze_volume] and [_calculate_opportunity] divide by the
    same [market_cap + 1]: at a market cap of -1 both raise, and
    otherwise both return.  The volume rating and the volume part of
    the opportunity score then read the same ratio against the same
    breakpoints: the rating is very_high exactly at 30 points, high at
    20, moderate at 10, and low or very_low at 0. *)
Theorem volume_rating_matches_points (t : TokenData) :
  (market_cap t + 1 == 0 →
   _analyze_volume t = None ∧ _calculate_opportunity t = None) ∧
  (¬ market_cap t + 1 == 0 →
   ∃ va, _analyze_volume t = Some va ∧
     va_ratio va = volume_24h t / (market_cap t + 1) ∧
     _calculate_opportunity t
     = Some (Z.min (volume_points (va_ratio va) + momentum_points t
                    + liquidity_points t + mcap_points t) 100) ∧
     match va_rating va with
     | VVeryHigh => volume_points (va_ratio va) = 30%Z
     | VHigh => volume_points (va_ratio va) = 20%Z
     | VModerate => volume_points (va_ratio va) = 10%Z
     | VLow | VVeryLow => volume_points (va_ratio va) = 0%Z
     end).
Proof.
  unfold _analyze_volume, _calculate_opportunity, volume_to_mcap_of. cbv zeta.
  split.
  - intros Hmc. apply (py_div_none (volume_24h t)) in Hmc. now rewrite Hmc.
  - intros Hne. rewrite (py_div_some _ _ Hne). eexists. split; [reflexivity|].
    cbn [va_ratio va_rating]. split; [reflexivity|]. split.
    + f_equal. unfold py_minZ. rewrite Z.add_0_l.
      destruct (Z.ltb_spec 100
        (volume_points (volume_24h t / (market_cap t + 1)) + momentum_points t
         + liquidity_points t + mcap_points t)); lia.
    + unfold volume_points.
      repeat match goal with
      | |- context [if Qltb ?x ?y then _ else _] => destruct (Qltb x y)
      end; reflexivity.
Qed.

End RiskFacts.

Section RiskScenario.
Import PyNum DexScreener TokenSimilarity PortfolioManager Scenarios Vocabulary.
Local Open Scope Q_scope.

Lemma risk_level_extremes_witness :
  _calculate_risk no_age dust_sized_token = Low.
Proof.
  apply (risk_level_extremes no_age dust_sized_token).
  - vm_compute. discriminate.
  - vm_compute. discriminate.
  - vm_compute. discriminate.
  - left. reflexivity.
Defined.

Lemma volume_rating_matches_points_witness :
  ∃ va, _analyze_volume dust_sized_token = Some va ∧ va_rating va = VHigh ∧
        volume_points (va_ratio va) = 20%Z.
Proof.
  destruct (volume_rating_matches_points dust_sized_token) as [_ H].
  destruct H as (va & Hva & _ & _ & Hr).
  - vm_compute. discriminate.
  - exists va. split; [exact Hva|].
    assert (va_rating va = VHigh) as E
      by (vm_compute in Hva; injection Hva as <-; reflexivity).
    rewrite E in Hr. split; [exact E | exact Hr].
Defined.

End RiskScenario.

(** ** Open positions against the trade history *)

Section OpenCountFacts.
Import PyNum PortfolioTracker Specification Vocabulary.
Local Open Scope Z_scope.

Lemma refresh_map_size pu (m : gmap string Position) :
  size (refresh_map pu m) = size m.
Proof.
  induction m as [|i x m Hi IH] using map_ind.
  - unfold refresh_map. now rewrite map_imap_empty.
  - rewrite refresh_map_insert.
    rewrite !map_size_insert_None;
      [now rewrite IH | exact Hi | now rewrite refresh_map_lookup, Hi].
Qed.

Lemma step_open_count pf op :
  match op with
  | OpAdd pos => positions pf !! token_address pos = None
  | _ => True
  end →
  Z.of_nat (size (positions (step pf op)))
  - buys (trade_history (step pf op)) + sells (trade_history (step pf op))
  = Z.of_nat (size (positions pf))
    - buys (trade_history pf) + sells (trade_history pf).
Proof.
  destruct op as [pos|pu|a sell w n]; cbn [step]; intros Hop.
  - cbn [add_position positions trade_history].
    rewrite map_size_insert_None by exact Hop.
    rewrite buys_app, sells_app. cbn [is_buy is_sell action]. lia.
  - rewrite update_all_prices_positions, refresh_map_size. reflexivity.
  - unfold close_position.
    destruct (positions pf !! a) as [pos|] eqn:E; cbn [snd]; [|reflexivity].
    cbn [positions trade_history].
    rewrite buys_app, sells_app. cbn [is_buy is_sell action].
    pose proof (map_size_delete_Some a (positions pf)) as Hs.
    assert (is_Some (positions pf !! a)) as HS by eauto.
    specialize (Hs HS).
    assert (size (positions pf) ≠ 0%nat) as Hnz.
    { intros H0. apply map_size_empty_iff in H0. rewrite H0 in E.
      rewrite lookup_empty in E. discriminate E. }
    lia.
Qed.

(** X30.  In a run from a fresh portfolio in which [add_position] is
    only applied to addresses that are not open, the number of open
    positions is the number of buy records minus the number of sell
    records in the trade history. *)
Theorem open_positions_are_buys_minus_sells (b : Q) (ops : list Op) :
  fresh_adds (fresh b) ops →
  let pf := run (fresh b) ops in
  Z.of_nat (size (positions pf))
  = buys (trade_history pf) - sells (trade_history pf).
Proof.
  intros Hwf. cbv zeta.
  assert (∀ ops pf, fresh_adds pf ops →
    Z.of_nat (size (positions (run pf ops)))
    - buys (trade_history (run pf ops)) + sells (trade_history (run pf ops))
    = Z.of_nat (size (positions pf))
      - buys (trade_history pf) + sells (trade_history pf)) as Hrun.
  { clear. induction ops as [|op ops IH]; intros pf Hwf; [reflexivity|].
    destruct Hwf as [Hop Hrest]. cbn [run foldl].
    fold (run (step pf op) ops). rewrite (IH _ Hrest).
    apply step_open_count. exact Hop. }
  specialize (Hrun ops (fresh b) Hwf).
  change (size (positions (fresh b))) with 0%nat in Hrun.
  change (buys (trade_history (fresh b))) with 0 in Hrun.
  change (sells (trade_history (fresh b))) with 0 in Hrun.
  lia.
Qed.

Lemma open_positions_are_buys_minus_sells_witness :
  Z.of_nat (size (positions
     (run (fresh 1000) [OpAdd Scenarios.pos_a; OpAdd Scenarios.pos_b;
                        OpClose "0xA" 3 "Take profit" 60]))) = 1.
Proof.
  rewrite (open_positions_are_buys_minus_sells 1000
             [OpAdd Scenarios.pos_a; OpAdd Scenarios.pos_b;
              OpClose "0xA" 3 "Take profit" 60]).
  - reflexivity.
  - repeat split; reflexivity.
Defined.

End OpenCountFacts.
